(** * Workflow engine and scheduler of myappstatus: a shallow embedding

    The development follows the JavaScript sources:
    - [src/services/workflowEngine.js]   (class WorkflowEngine)
    - [src/services/schedulerService.js] (class SchedulerService)
    - [src/services/notificationService.js] ([createNotification])
    - the Mongoose models StepInstance, ProcessInstance, ProcessTemplate,
      ProcessHistory, Notification and User
    - the controllers' [validateStepReferences] and [escalateStep]
    - the other endpoints of the step controller ([startStep], [skipStep],
      [assignStep], [reassignStep]), the lifecycle endpoints of the process
      controller, and [validateTemplateForPublishing].

    A controller method that reads [this] takes its receiver as a
    parameter: the routers register the methods as bare functions, so a
    routed handler runs with [this] undefined.  A string is kept as the
    bytes of its UTF-8 encoding.

    Documents of a collection are records; a collection is a list in
    insertion order; [save] on a loaded document replaces the stored
    document with the same [_id].  An [async] method becomes a function
    from the store to a result and a store: a thrown error keeps every write
    that was committed before it.  [new Date()] is the parameter [now] of a
    method; logging is not modelled.

    The file has three parts: the model, the vocabulary of the properties
    (relations, invariants, sample stores), and the properties with their
    proofs. *)

From Stdlib Require Import String List ZArith Bool Lia Floats DecimalString.
From stdpp Require Import gmap strings.
Import ListNotations.

Local Open Scope string_scope.
Local Open Scope list_scope.
Local Open Scope Z_scope.

(** ** Identifiers, dates, JavaScript values *)

(** A user's ObjectId, kept as its hexadecimal string: template assignees
    are strings that Mongoose casts to ObjectIds. *)
Definition UserId := string.
Definition ProcessId := nat.
Definition TemplateId := nat.
Definition StepInstanceId := nat.

(** A [Date] as milliseconds since the epoch. *)
Definition Date := Z.

(** Truthiness of a value that is a string, [null] or [undefined]. *)
Definition truthy (v : option string) : bool :=
  match v with
  | Some s => negb (s =? "")%string
  | None => false
  end.

(** The double-quote character of the message templates. *)
Definition dquote : string := String (Ascii.ascii_of_nat 34) EmptyString.

(** [a === b] for two such values. *)
Definition strictEq (a b : option string) : bool :=
  match a, b with
  | Some x, Some y => (x =? y)%string
  | None, None => true
  | _, _ => false
  end.

(** ** Strings and the [trim] setter

    A path declared with [trim: true] stores [value.trim()] whenever it is
    set: in a constructor call, in an assignment, and for each element cast
    into an array of such strings. *)

Module JsString.

(** The code points [String.prototype.trim] strips (WhiteSpace and
    LineTerminator), by the bytes of their encoding: TAB, LF, VT, FF, CR and
    SP; U+00A0; U+1680, U+2000 to U+200A, U+2028, U+2029, U+202F, U+205F,
    U+3000 and U+FEFF. *)
Definition space1 (a : N) : bool :=
  ((9 <=? a) && (a <=? 13) || (a =? 32))%N.

Definition space2 (a b : N) : bool :=
  ((a =? 194) && (b =? 160))%N.

Definition space3 (a b c : N) : bool :=
  ((a =? 225) && (b =? 154) && (c =? 128)
   || (a =? 226) && (b =? 128)
      && ((128 <=? c) && (c <=? 138) || (c =? 168) || (c =? 169) || (c =? 175))
   || (a =? 226) && (b =? 129) && (c =? 159)
   || (a =? 227) && (b =? 128) && (c =? 128)
   || (a =? 239) && (b =? 187) && (c =? 191))%N.

(** The bytes left when the leading white space is dropped. *)
Fixpoint trimStart (s : list N) : list N :=
  match s with
  | a :: r1 =>
      if space1 a then trimStart r1
      else
        match r1 with
        | b :: r2 =>
            if space2 a b then trimStart r2
            else
              match r2 with
              | c :: r3 => if space3 a b c then trimStart r3 else s
              | [] => s
              end
        | [] => s
        end
  | [] => []
  end.

(** The same from the other end, on the reversed bytes. *)
Fixpoint trimEnd_rev (s : list N) : list N :=
  match s with
  | c :: r1 =>
      if space1 c then trimEnd_rev r1
      else
        match r1 with
        | b :: r2 =>
            if space2 b c then trimEnd_rev r2
            else
              match r2 with
              | a :: r3 => if space3 a b c then trimEnd_rev r3 else s
              | [] => s
              end
        | [] => s
        end
  | [] => []
  end.

(** [s.trim()] *)
Definition trim (s : string) : string :=
  let bytes := map Ascii.N_of_ascii (list_ascii_of_string s) in
  string_of_list_ascii
    (map Ascii.ascii_of_N (rev (trimEnd_rev (rev (trimStart bytes))))).

End JsString.

(** ** The receiver of a controller method

    The routers hand the methods of the controllers to Express as bare
    functions ([router.post(path, ..., controller.method)]); no constructor
    binds them and a class body is strict code, so in a routed handler
    [this] is [undefined].  [Controller] is the receiver of a method call on
    the controller object. *)
Inductive This := Undefined | Controller.

(** ** The models

    Each record keeps the fields of the Mongoose schema that the engine,
    the scheduler or the template validation read or write.  An array field
    of a Mongoose document is never [undefined], so it is a list; an optional
    scalar is an [option]. *)

Inductive StepType :=
| T_user_task | T_service_task | T_decision | T_parallel
| T_exclusive | T_start | T_end.

Inductive AssigneeType := A_user | A_role | A_department | A_auto.

Inductive StepStatus :=
| S_pending | S_in_progress | S_completed | S_skipped | S_failed | S_cancelled.

Inductive ProcessStatus :=
| P_draft | P_active | P_completed | P_cancelled | P_suspended.

Definition StepType_eqb (a b : StepType) : bool :=
  match a, b with
  | T_user_task, T_user_task | T_service_task, T_service_task
  | T_decision, T_decision | T_parallel, T_parallel
  | T_exclusive, T_exclusive | T_start, T_start | T_end, T_end => true
  | _, _ => false
  end.

Definition StepStatus_eqb (a b : StepStatus) : bool :=
  match a, b with
  | S_pending, S_pending | S_in_progress, S_in_progress
  | S_completed, S_completed | S_skipped, S_skipped
  | S_failed, S_failed | S_cancelled, S_cancelled => true
  | _, _ => false
  end.

Definition ProcessStatus_eqb (a b : ProcessStatus) : bool :=
  match a, b with
  | P_draft, P_draft | P_active, P_active | P_completed, P_completed
  | P_cancelled, P_cancelled | P_suspended, P_suspended => true
  | _, _ => false
  end.

(** The string a status is stored as (history rows keep statuses as text). *)
Definition StepStatus_str (s : StepStatus) : string :=
  match s with
  | S_pending => "pending" | S_in_progress => "in_progress"
  | S_completed => "completed" | S_skipped => "skipped"
  | S_failed => "failed" | S_cancelled => "cancelled"
  end.

Definition ProcessStatus_str (s : ProcessStatus) : string :=
  match s with
  | P_draft => "draft" | P_active => "active" | P_completed => "completed"
  | P_cancelled => "cancelled" | P_suspended => "suspended"
  end.

(** An entry of [stepSchema.nextSteps]; [condition] is optional. *)
Module NextStep.
Record t := mk { condition : option string; stepId : string }.
End NextStep.

(** [stepSchema] of the ProcessTemplate model. *)
Module StepDef.
Record t := mk {
  stepId : string;
  name : string;
  type : StepType;
  assigneeType : AssigneeType;
  assignees : list string;
  autoComplete : bool;
  timeLimit : option Z;          (* hours *)
  nextSteps : list NextStep.t
}.

Definition with_routing (ty : StepType) (ns : list NextStep.t) (d : t) : t :=
  mk (stepId d) (name d) ty (assigneeType d) (assignees d)
     (autoComplete d) (timeLimit d) ns.
End StepDef.

Module ProcessTemplate.
Record t := mk {
  _id : TemplateId;
  steps : list StepDef.t;
  startStep : string;
  endSteps : list string
}.
End ProcessTemplate.

Module EscalationEntry.
Record t := mk {
  level : Z;
  escalatedTo : UserId;
  escalatedAt : Date;
  reason : string
}.
End EscalationEntry.

Module StepInstance.
Record t := mk {
  _id : StepInstanceId;
  processInstanceId : ProcessId;
  stepId : string;
  name : string;
  type : StepType;
  status : StepStatus;
  assignedTo : option UserId;
  assignedRole : option string;
  assignedDepartment : option string;
  startDate : option Date;
  endDate : option Date;
  dueDate : option Date;
  formData : gmap string string;
  escalated : bool;
  escalationLevel : Z;
  escalationHistory : list EscalationEntry.t;
  completedBy : option UserId;
  variables : gmap string string
}.
End StepInstance.

Module ProcessInstance.
Record t := mk {
  _id : ProcessId;
  processTemplateId : TemplateId;
  name : string;
  status : ProcessStatus;
  initiatedBy : UserId;
  currentSteps : list string;
  startDate : option Date;
  endDate : option Date;
  completionPercentage : Z
}.
End ProcessInstance.

(** The virtuals of the StepInstance and ProcessInstance schemas. *)
Module StepInstanceSchema.


(** [stepInstanceSchema.virtual('isOverdue')] read as a condition; [now] is
    [new Date()]. *)
Definition isOverdue (now : Date) (this : StepInstance.t) : bool :=
  match StepInstance.dueDate this with
  | Some dueDate =>
      (dueDate <? now)
      && negb (StepStatus_eqb (StepInstance.status this) S_completed
               || StepStatus_eqb (StepInstance.status this) S_skipped
               || StepStatus_eqb (StepInstance.status this) S_cancelled)
  | None => false
  end.

End StepInstanceSchema.

(** ** Routing: [determineNextSteps] and [evaluateCondition] *)

Module Routing.

(** [evaluateCondition(condition, stepInstance, decision)]; the body cannot
    throw, so the [catch] branch is dead. *)
Definition evaluateCondition (condition : string) (stepInstance : StepInstance.t)
    (decision : option string) : bool :=
  if (condition =? "true")%string || (condition =? "")%string then true
  else if truthy decision && strictEq (Some condition) decision then true
  else false.

(** The test of the [for] loop: [!nextStep.condition || evaluateCondition(...)]. *)
Definition passes (stepInstance : StepInstance.t) (decision : option string)
    (nextStep : NextStep.t) : bool :=
  negb (truthy (NextStep.condition nextStep))
  || match NextStep.condition nextStep with
     | Some c => evaluateCondition c stepInstance decision
     | None => false
     end.

(** [determineNextSteps(templateStep, stepInstance, decision)].  The local
    array [nextSteps] is threaded through the three stages as the code
    pushes onto it. *)
Definition determineNextSteps (templateStep : StepDef.t)
    (stepInstance : StepInstance.t) (decision : option string) : list string :=
  let nextSteps : list string := [] in
  if (length (StepDef.nextSteps templateStep) =? 0)%nat then nextSteps
  else
    let nextSteps :=
      nextSteps ++ map NextStep.stepId
        (List.filter (passes stepInstance decision) (StepDef.nextSteps templateStep)) in
    let nextSteps :=
      if (length nextSteps =? 0)%nat
         && StepType_eqb (StepDef.type templateStep) T_decision
         && truthy decision
      then
        match List.find (fun ns => strictEq (NextStep.condition ns) decision)
                        (StepDef.nextSteps templateStep) with
        | Some decisionStep => nextSteps ++ [NextStep.stepId decisionStep]
        | None => nextSteps
        end
      else nextSteps in
    let nextSteps :=
      if (length nextSteps =? 0)%nat
         && (0 <? length (StepDef.nextSteps templateStep))%nat
      then
        match StepDef.nextSteps templateStep with
        | first :: _ => nextSteps ++ [NextStep.stepId first]
        | [] => nextSteps
        end
      else nextSteps in
    nextSteps.

(** The same function with the decision-literal search (the second [if])
    deleted from the source text. *)
Definition determineNextSteps_noDecisionBranch (templateStep : StepDef.t)
    (stepInstance : StepInstance.t) (decision : option string) : list string :=
  let nextSteps : list string := [] in
  if (length (StepDef.nextSteps templateStep) =? 0)%nat then nextSteps
  else
    let nextSteps :=
      nextSteps ++ map NextStep.stepId
        (List.filter (passes stepInstance decision) (StepDef.nextSteps templateStep)) in
    let nextSteps :=
      if (length nextSteps =? 0)%nat
         && (0 <? length (StepDef.nextSteps templateStep))%nat
      then
        match StepDef.nextSteps templateStep with
        | first :: _ => nextSteps ++ [NextStep.stepId first]
        | [] => nextSteps
        end
      else nextSteps in
    nextSteps.

(** *** The routing algorithm as the specification words it

    Stage 1 collects every entry whose condition is empty or holds; stage 2
    (only for a decision step with a supplied decision) takes the entry
    whose condition literally equals the decision; stage 3 falls back to
    the first entry; stage 4 is the empty result. *)

Definition spec_evaluateCondition (condition : string) (decision : option string) : bool :=
  (condition =? "")%string || (condition =? "true")%string
  || match decision with
     | Some d => (condition =? d)%string
     | None => false
     end.

Definition spec_holds (decision : option string) (ns : NextStep.t) : bool :=
  match NextStep.condition ns with
  | None => true
  | Some c => spec_evaluateCondition c decision
  end.

Definition spec_stage1 (templateStep : StepDef.t) (decision : option string) : list string :=
  map NextStep.stepId (List.filter (spec_holds decision) (StepDef.nextSteps templateStep)).

Definition spec_stage2 (templateStep : StepDef.t) (decision : option string) : list string :=
  match StepDef.type templateStep, decision with
  | T_decision, Some d =>
      match List.find (fun ns => strictEq (NextStep.condition ns) (Some d))
                      (StepDef.nextSteps templateStep) with
      | Some e => [NextStep.stepId e]
      | None => []
      end
  | _, _ => []
  end.

Definition spec_stage3 (templateStep : StepDef.t) : list string :=
  match StepDef.nextSteps templateStep with
  | first :: _ => [NextStep.stepId first]
  | [] => []
  end.

Definition spec_determineNextSteps (templateStep : StepDef.t)
    (decision : option string) : list string :=
  match spec_stage1 templateStep decision with
  | (_ :: _) as s1 => s1
  | [] =>
      match spec_stage2 templateStep decision with
      | (_ :: _) as s2 => s2
      | [] => spec_stage3 templateStep
      end
  end.

End Routing.

(** ** The other collections *)

Inductive HistoryAction :=
| process_started | process_completed | step_created | step_completed | step_escalated
(* the actions the controllers log *)
| step_started | step_skipped | step_assigned | step_reassigned
| process_suspended | process_resumed | process_cancelled.

(** A stored ProcessHistory row.  [performedBy] is [required] in the schema,
    so a stored row always has one.  The free-form [metadata] payload is
    never read back by the engine or the scheduler and is left out. *)
Module ProcessHistory.
Record t := mk {
  processInstanceId : ProcessId;
  stepInstanceId : option StepInstanceId;
  action : HistoryAction;
  performedBy : UserId;
  fromStatus : option string;
  toStatus : option string
}.
End ProcessHistory.

(** The notification types the engine and the scheduler use;
    [process_completed_note] is the type ['process_completed'] (the history
    action of that name is [process_completed]), and [process_cancelled_note]
    is the type ['process_cancelled'] of the process controller. *)
Inductive NotificationType :=
| task_assigned | task_overdue | task_escalated | process_completed_note
| process_cancelled_note.

Inductive Priority := medium | high | urgent.

Module Notification.
Record t := mk {
  userId : UserId;
  type : NotificationType;
  title : string;
  message : string;
  relatedProcess : option ProcessId;
  relatedStep : option StepInstanceId;
  priority : Priority
}.
End Notification.

Module User.
Record t := mk { _id : UserId; role : string; isActive : bool }.
End User.

(** ** The store and the effect of an [async] method *)

(** [notificationFails] is the environment's answer to a notification write:
    [true] when saving that document rejects (database or transport down). *)
Record World := mkWorld {
  processes : list ProcessInstance.t;
  templates : list ProcessTemplate.t;
  steps : list StepInstance.t;
  history : list ProcessHistory.t;
  notifications : list Notification.t;
  users : list User.t;
  nextStepInstanceId : StepInstanceId;
  notificationFails : Notification.t -> bool
}.

Definition with_processes (f : list ProcessInstance.t -> list ProcessInstance.t) (w : World) :=
  mkWorld (f (processes w)) (templates w) (steps w) (history w) (notifications w)
          (users w) (nextStepInstanceId w) (notificationFails w).

Definition with_steps (f : list StepInstance.t -> list StepInstance.t) (w : World) :=
  mkWorld (processes w) (templates w) (f (steps w)) (history w) (notifications w)
          (users w) (nextStepInstanceId w) (notificationFails w).

Definition with_history (f : list ProcessHistory.t -> list ProcessHistory.t) (w : World) :=
  mkWorld (processes w) (templates w) (steps w) (f (history w)) (notifications w)
          (users w) (nextStepInstanceId w) (notificationFails w).

Definition with_notifications (f : list Notification.t -> list Notification.t) (w : World) :=
  mkWorld (processes w) (templates w) (steps w) (history w) (f (notifications w))
          (users w) (nextStepInstanceId w) (notificationFails w).

Definition with_nextStepInstanceId (n : StepInstanceId) (w : World) :=
  mkWorld (processes w) (templates w) (steps w) (history w) (notifications w)
          (users w) n (notificationFails w).

(** What a method can throw.  [AppError] carries the HTTP status the engine
    gives it: 404 is the specification's NotFound, 400 its InvalidState
    (and its ValidationError for a malformed template), 403 its Forbidden.
    [TypeError] is a property read on [null] or [undefined]; [JsError] is a
    plain [new Error(message)]; [MongooseValidationError] is Mongoose
    rejecting a document at the named path; [WriteError] is a rejected
    notification write; [ReferenceError] is the evaluation of an identifier
    that no scope declares. *)
Inductive Error :=
| AppError (message : string) (statusCode : Z)
| TypeError
| JsError (message : string)
| MongooseValidationError (path : string)
| WriteError
| ReferenceError (identifier : string).

Inductive Result (A : Type) :=
| Ok (a : A)
| Throw (e : Error).
Arguments Ok {A} a.
Arguments Throw {A} e.

Definition M (A : Type) : Type := World -> Result A * World.

Definition ret {A} (a : A) : M A := fun w => (Ok a, w).

Definition throw {A} (e : Error) : M A := fun w => (Throw e, w).

Definition bind {A B} (c : M A) (k : A -> M B) : M B :=
  fun w =>
    match c w with
    | (Ok a, w') => k a w'
    | (Throw e, w') => (Throw e, w')
    end.

(** [try { c } catch (error) { h error }]. *)
Definition tryCatch {A} (c : M A) (h : Error -> M A) : M A :=
  fun w =>
    match c w with
    | (Ok a, w') => (Ok a, w')
    | (Throw e, w') => h e w'
    end.

Declare Scope engine_scope.
Delimit Scope engine_scope with engine.
Notation "x <- c ;; k" := (bind c (fun x => k))
  (at level 100, c at next level, right associativity) : engine_scope.
Notation "c ;; k" := (bind c (fun _ => k))
  (at level 100, right associativity) : engine_scope.
Local Open Scope engine_scope.

(** [for (const x of xs) { await body(x) }]: the first throw leaves the loop. *)
Fixpoint forEach {A} (xs : list A) (body : A -> M unit) : M unit :=
  match xs with
  | [] => ret tt
  | x :: rest => body x ;; forEach rest body
  end.

(** [state <- f state x] over a list, for a loop that also updates a local
    object. *)
Fixpoint foldM {A S} (xs : list A) (body : S -> A -> M S) (s : S) : M S :=
  match xs with
  | [] => ret s
  | x :: rest => s' <- body s x ;; foldM rest body s'
  end.

(** ** Collection operations *)

Module Db.

Definition findStep (id : StepInstanceId) (w : World) : option StepInstance.t :=
  List.find (fun s => (StepInstance._id s =? id)%nat) (steps w).

Definition findProcess (id : ProcessId) (w : World) : option ProcessInstance.t :=
  List.find (fun p => (ProcessInstance._id p =? id)%nat) (processes w).

Definition findTemplate (id : TemplateId) (w : World) : option ProcessTemplate.t :=
  List.find (fun t => (ProcessTemplate._id t =? id)%nat) (templates w).

Definition findUser (id : UserId) (w : World) : option User.t :=
  List.find (fun u => (User._id u =? id)%string) (users w).

(** [doc.save()] on a loaded step: the stored document of that [_id] is
    replaced. *)
Definition replaceStep (s x : StepInstance.t) : StepInstance.t :=
  if (StepInstance._id x =? StepInstance._id s)%nat then s else x.

Definition saveStep (s : StepInstance.t) : M unit :=
  fun w => (Ok tt, with_steps (map (replaceStep s)) w).

(** [new StepInstance(...)] draws a fresh [_id]; its first [save()] inserts. *)
Definition newStepInstanceId : M StepInstanceId :=
  fun w => (Ok (nextStepInstanceId w),
            with_nextStepInstanceId (S (nextStepInstanceId w)) w).

Definition insertStep (s : StepInstance.t) : M unit :=
  fun w => (Ok tt, with_steps (fun l => l ++ [s]) w).

Definition replaceProcess (p x : ProcessInstance.t) : ProcessInstance.t :=
  if (ProcessInstance._id x =? ProcessInstance._id p)%nat then p else x.

Definition saveProcess (p : ProcessInstance.t) : M unit :=
  fun w => (Ok tt, with_processes (map (replaceProcess p)) w).

(** [ProcessHistory.create]: the schema's [required] validator on
    [performedBy] rejects [null]. *)
Definition createHistory (processInstanceId : ProcessId)
    (stepInstanceId : option StepInstanceId) (action : HistoryAction)
    (performedBy : option UserId) (fromStatus toStatus : option string) : M unit :=
  match performedBy with
  | None => throw (MongooseValidationError "performedBy")
  | Some u =>
      fun w => (Ok tt,
                with_history (fun l => l ++ [ProcessHistory.mk processInstanceId
                                stepInstanceId action u fromStatus toStatus]) w)
  end.

(** [Notification.create]: every type and priority the callers pass is in
    the schema's enums, so only the write itself can reject. *)
Definition createNotification (n : Notification.t) : M unit :=
  fun w =>
    if notificationFails w n then (Throw WriteError, w)
    else (Ok tt, with_notifications (fun l => l ++ [n]) w).

(** [StepInstance.countDocuments({ processInstanceId })] and the same with
    [status: 'completed']. *)
Definition countSteps (pid : ProcessId) (w : World) : nat :=
  length (List.filter (fun s => (StepInstance.processInstanceId s =? pid)%nat) (steps w)).

Definition countCompletedSteps (pid : ProcessId) (w : World) : nat :=
  length (List.filter
            (fun s => (StepInstance.processInstanceId s =? pid)%nat
                      && StepStatus_eqb (StepInstance.status s) S_completed)
            (steps w)).

End Db.

(** ** [Notification.insertMany] *)

Module NotificationModel.

(** A plain object handed to [Notification.insertMany]: one whose [type] is
    a member of the schema's enum, or one with another [type] string. *)
Inductive NotificationData :=
| Typed (n : Notification.t)
| Untyped (userId : UserId) (type title message : string)
    (relatedProcess : option ProcessId) (relatedStep : option StepInstanceId)
    (priority : Priority).

Definition isUntyped (d : NotificationData) : bool :=
  match d with
  | Typed _ => false
  | Untyped _ _ _ _ _ _ _ => true
  end.

Definition typed (d : NotificationData) : list Notification.t :=
  match d with
  | Typed n => [n]
  | Untyped _ _ _ _ _ _ _ => []
  end.

(** [Notification.insertMany(docs)] in its default, ordered mode: Mongoose
    validates every document before anything is sent to the database, and
    one invalid document rejects the call with nothing inserted; valid
    documents are written in order. *)
Definition insertMany (docs : list NotificationData) : M unit :=
  if existsb isUntyped docs
  then throw (MongooseValidationError "type")
  else forEach (flat_map typed docs) Db.createNotification.

End NotificationModel.

(** ** JavaScript numbers for the completion percentage

    [Math.round((completedSteps / totalSteps) * 100)] is computed on IEEE 754
    doubles; the kernel's primitive floats are the same binary64 numbers. *)

Module JsNumber.

Definition ofNat (n : nat) : float := PrimFloat.of_uint63 (Uint63.of_Z (Z.of_nat n)).

(** [Math.round]: the nearest integer, ties towards plus infinity, computed
    exactly on the mantissa and exponent of the double.  (A count of
    documents is far below 2^53, so [ofNat] is exact.) *)
Definition round (x : float) : Z :=
  match Prim2SF x with
  | SpecFloat.S754_finite sign m e =>
      let n := if sign then Z.neg m else Z.pos m in
      if 0 <=? e then n * 2 ^ e
      else (2 * n + 2 ^ (- e)) / 2 ^ (- e + 1)
  | _ => 0
  end.

(** [totalSteps > 0 ? Math.round((completedSteps / totalSteps) * 100) : 0] *)
Definition percentage (completedSteps totalSteps : nat) : Z :=
  if (0 <? totalSteps)%nat
  then round (PrimFloat.mul (PrimFloat.div (ofNat completedSteps) (ofNat totalSteps))
                            (ofNat 100))
  else 0.


End JsNumber.

(** ** class WorkflowEngine *)

Module WorkflowEngine.
Import Routing.

Definition HOUR : Z := 60 * 60 * 1000.

Definition findTemplateStep (template : ProcessTemplate.t) (stepId : string)
  : option StepDef.t :=
  List.find (fun s => (StepDef.stepId s =? stepId)%string) (ProcessTemplate.steps template).

(** The document [sendTaskNotification] writes. *)
Definition taskAssignedNotice (stepInstance : StepInstance.t) (assignedTo : UserId)
  : Notification.t :=
  Notification.mk assignedTo task_assigned "New Task Assigned"
    ("You have been assigned a new task: " ++ StepInstance.name stepInstance)%string
    (Some (StepInstance.processInstanceId stepInstance))
    (Some (StepInstance._id stepInstance))
    medium.

(** [sendTaskNotification]: the only write is inside [try], and the
    [catch] logs without rethrowing. *)
Definition sendTaskNotification (stepInstance : StepInstance.t) (assignedTo : UserId)
  : M unit :=
  tryCatch (Db.createNotification (taskAssignedNotice stepInstance assignedTo))
           (fun _ => ret tt).

(** Whether [createStepInstance] completes the step on creation. *)
Definition autoCompleted (templateStep : StepDef.t) : bool :=
  StepType_eqb (StepDef.type templateStep) T_service_task
  || StepDef.autoComplete templateStep.

(** The document [createStepInstance] has built when it calls [save]: the
    constructor call, the assignment by assignee type, the due date and the
    auto-completion.  [stepId], [name], [assignedRole] and
    [assignedDepartment] are [trim: true] paths of the StepInstance schema,
    while the template keeps [stepId] as it was given.  The template step is
    taken to pass the validators of the StepInstance schema: its id and name
    are not blank and its assignee is a well-formed user id (the cast to
    ObjectId succeeds); [timeLimit] is a whole number of hours, and
    [dueDate.setHours(getHours() + timeLimit)] is that many hours after
    [now] (no change of the server's clock offset lies in between). *)
Definition buildStepInstance (now : Date) (processInstance : ProcessInstance.t)
    (templateStep : StepDef.t) (userId : UserId) (id : StepInstanceId) : StepInstance.t :=
  let byUser :=
    match StepDef.assigneeType templateStep, StepDef.assignees templateStep with
    | A_user, a :: _ => Some a
    | _, _ => None
    end in
  let byRole :=
    match StepDef.assigneeType templateStep with
    | A_role => option_map JsString.trim (hd_error (StepDef.assignees templateStep))
    | _ => None
    end in
  let byDepartment :=
    match StepDef.assigneeType templateStep with
    | A_department => option_map JsString.trim (hd_error (StepDef.assignees templateStep))
    | _ => None
    end in
  let dueDate :=
    match StepDef.timeLimit templateStep with
    | Some h => if h =? 0 then None else Some (now + h * HOUR)
    | None => None
    end in
  let auto := autoCompleted templateStep in
  StepInstance.mk id (ProcessInstance._id processInstance)
    (JsString.trim (StepDef.stepId templateStep))
    (JsString.trim (StepDef.name templateStep))
    (StepDef.type templateStep)
    (if auto then S_completed else S_pending)
    byUser byRole byDepartment
    (if auto then Some now else None)
    (if auto then Some now else None)
    dueDate
    ∅ false 0 []
    (if auto then Some userId else None)
    ∅.

(** [createStepInstance(processInstance, templateStep, userId)] *)
Definition createStepInstance (now : Date) (processInstance : ProcessInstance.t)
    (templateStep : StepDef.t) (userId : UserId) : M StepInstance.t :=
  id <- Db.newStepInstanceId ;;
  let stepInstance := buildStepInstance now processInstance templateStep userId id in
  Db.insertStep stepInstance ;;
  Db.createHistory (ProcessInstance._id processInstance) (Some id) step_created
    (Some userId) None (Some (StepStatus_str (StepInstance.status stepInstance))) ;;
  (match StepDef.type templateStep, StepInstance.assignedTo stepInstance with
   | T_user_task, Some a => sendTaskNotification stepInstance a
   | _, _ => ret tt
   end) ;;
  ret stepInstance.

(** The four assignments at the head of [completeProcess]. *)
Definition markProcessCompleted (now : Date) (p : ProcessInstance.t) : ProcessInstance.t :=
  ProcessInstance.mk (ProcessInstance._id p) (ProcessInstance.processTemplateId p)
    (ProcessInstance.name p) P_completed (ProcessInstance.initiatedBy p)
    [] (ProcessInstance.startDate p) (Some now) 100.

Definition completionNotice (p : ProcessInstance.t) : Notification.t :=
  Notification.mk (ProcessInstance.initiatedBy p)
    process_completed_note "Process Completed"
    ("Process " ++ dquote ++ ProcessInstance.name p ++ dquote
       ++ " has been completed successfully.")%string
    (Some (ProcessInstance._id p)) None medium.

(** [completeProcess(processInstance, userId)]: the notification write is
    not guarded; the [catch] logs and rethrows. *)
Definition completeProcess (now : Date) (processInstance : ProcessInstance.t)
    (userId : UserId) : M unit :=
  let processInstance := markProcessCompleted now processInstance in
  Db.saveProcess processInstance ;;
  Db.createHistory (ProcessInstance._id processInstance) None process_completed
    (Some userId) (Some "active") (Some "completed") ;;
  Db.createNotification (completionNotice processInstance).

Definition set_currentSteps (cs : list string) (p : ProcessInstance.t) : ProcessInstance.t :=
  ProcessInstance.mk (ProcessInstance._id p) (ProcessInstance.processTemplateId p)
    (ProcessInstance.name p) (ProcessInstance.status p) (ProcessInstance.initiatedBy p)
    cs (ProcessInstance.startDate p) (ProcessInstance.endDate p)
    (ProcessInstance.completionPercentage p).

Definition set_completionPercentage (pct : Z) (p : ProcessInstance.t) : ProcessInstance.t :=
  ProcessInstance.mk (ProcessInstance._id p) (ProcessInstance.processTemplateId p)
    (ProcessInstance.name p) (ProcessInstance.status p) (ProcessInstance.initiatedBy p)
    (ProcessInstance.currentSteps p) (ProcessInstance.startDate p)
    (ProcessInstance.endDate p) pct.

(** [processInstanceSchema.methods.updateCompletionPercentage]; returns the
    in-memory document it saved. *)
Definition updateCompletionPercentage (p : ProcessInstance.t) : M ProcessInstance.t :=
  fun w =>
    let totalSteps := Db.countSteps (ProcessInstance._id p) w in
    let completedSteps := Db.countCompletedSteps (ProcessInstance._id p) w in
    let p' := set_completionPercentage (JsNumber.percentage completedSteps totalSteps) p in
    (Db.saveProcess p' ;; ret p') w.

(** The body of the [for] loop of [processStepCompletion]: an id without a
    template step is skipped.  [currentSteps] is an array of [trim: true]
    strings, so [push] stores the trimmed id. *)
Definition createNext (now : Date) (template : ProcessTemplate.t) (userId : UserId)
    (processInstance : ProcessInstance.t) (nextStepId : string) : M ProcessInstance.t :=
  match findTemplateStep template nextStepId with
  | Some nextTemplateStep =>
      createStepInstance now processInstance nextTemplateStep userId ;;
      ret (set_currentSteps
             (ProcessInstance.currentSteps processInstance
                ++ [JsString.trim nextStepId])
             processInstance)
  | None => ret processInstance
  end.

(** [nextStepIds.length === 0 || nextStepIds.every(id => template.endSteps.includes(id))] *)
Definition reachesEnd (template : ProcessTemplate.t) (nextStepIds : list string) : bool :=
  (length nextStepIds =? 0)%nat
  || forallb (fun id => existsb (String.eqb id) (ProcessTemplate.endSteps template))
             nextStepIds.

(** [processStepCompletion(stepInstance, userId)]; [processInstance] is the
    populated [stepInstance.processInstanceId], a local object mutated as
    the method runs and written back by [save].  The filtered array is
    assigned to [currentSteps], which casts each of its elements. *)
Definition processStepCompletion (now : Date) (stepInstance : StepInstance.t)
    (processInstance : ProcessInstance.t) (userId : UserId) : M unit :=
  fun w =>
    match Db.findTemplate (ProcessInstance.processTemplateId processInstance) w with
    | None => throw TypeError w                (* template.steps on null *)
    | Some template =>
        let templateStep := findTemplateStep template (StepInstance.stepId stepInstance) in
        let processInstance :=
          set_currentSteps
            (map JsString.trim
               (List.filter
                  (fun stepId => negb (stepId =? StepInstance.stepId stepInstance)%string)
                  (ProcessInstance.currentSteps processInstance)))
            processInstance in
        match templateStep with
        | None => throw TypeError w            (* templateStep.nextSteps on undefined *)
        | Some templateStep =>
            let nextStepIds :=
              determineNextSteps templateStep stepInstance
                (StepInstance.variables stepInstance !! "decision") in
            (processInstance <-
               foldM nextStepIds (createNext now template userId) processInstance ;;
             if reachesEnd template nextStepIds
             then completeProcess now processInstance userId
             else
               processInstance <- updateCompletionPercentage processInstance ;;
               Db.saveProcess processInstance) w
        end
    end.

(** [stepInstanceSchema.methods.canComplete] *)
Definition canComplete (this : StepInstance.t) (userId : UserId) : bool :=
  if negb (StepStatus_eqb (StepInstance.status this) S_in_progress) then false
  else
    match StepInstance.assignedTo this with
    | Some a => if negb (a =? userId)%string then false else true
    | None => true
    end.

(** The four assignments of [completeStep] and the optional decision. *)
Definition markCompleted (now : Date) (userId : UserId) (formData : gmap string string)
    (decision : option string) (s : StepInstance.t) : StepInstance.t :=
  StepInstance.mk (StepInstance._id s) (StepInstance.processInstanceId s)
    (StepInstance.stepId s) (StepInstance.name s) (StepInstance.type s)
    S_completed
    (StepInstance.assignedTo s) (StepInstance.assignedRole s)
    (StepInstance.assignedDepartment s)
    (StepInstance.startDate s) (Some now) (StepInstance.dueDate s)
    (formData ∪ StepInstance.formData s)      (* { ...this.formData, ...formData } *)
    (StepInstance.escalated s) (StepInstance.escalationLevel s)
    (StepInstance.escalationHistory s)
    (Some userId)
    (match decision with
     | Some d => if truthy decision then <["decision" := d]> (StepInstance.variables s)
                 else StepInstance.variables s
     | None => StepInstance.variables s
     end).

(** [completeStep(stepInstanceId, userId, formData = {}, decision = null)] *)
Definition completeStep (now : Date) (stepInstanceId : StepInstanceId) (userId : UserId)
    (formData : gmap string string) (decision : option string) : M StepInstance.t :=
  fun w =>
    match Db.findStep stepInstanceId w with
    | None => throw (AppError "Step instance not found" 404) w
    | Some stepInstance =>
        match Db.findProcess (StepInstance.processInstanceId stepInstance) w with
        | None => throw TypeError w          (* processInstance.processTemplateId on null *)
        | Some processInstance =>
            match Db.findTemplate (ProcessInstance.processTemplateId processInstance) w with
            | None => throw (AppError "Process template not found" 404) w
            | Some template =>
                if negb (canComplete stepInstance userId)
                then throw (AppError "You are not authorized to complete this step" 403) w
                else
                  let stepInstance := markCompleted now userId formData decision stepInstance in
                  (Db.saveStep stepInstance ;;
                   Db.createHistory (ProcessInstance._id processInstance)
                     (Some (StepInstance._id stepInstance)) step_completed (Some userId)
                     (Some "in_progress") (Some "completed") ;;
                   match findTemplateStep template (StepInstance.stepId stepInstance) with
                   | None => throw (AppError "Template step not found" 400)
                   | Some _ =>
                       processStepCompletion now stepInstance processInstance userId ;;
                       ret stepInstance
                   end) w
            end
        end
    end.

(** [instance.status = 'active'; instance.startDate = new Date()] *)
Definition markStarted (now : Date) (p : ProcessInstance.t) : ProcessInstance.t :=
  ProcessInstance.mk (ProcessInstance._id p) (ProcessInstance.processTemplateId p)
    (ProcessInstance.name p) P_active (ProcessInstance.initiatedBy p)
    (ProcessInstance.currentSteps p) (Some now) (ProcessInstance.endDate p)
    (ProcessInstance.completionPercentage p).

(** [startProcess(processInstanceId, userId)] *)
Definition startProcess (now : Date) (processInstanceId : ProcessId) (userId : UserId)
  : M ProcessInstance.t :=
  fun w =>
    match Db.findProcess processInstanceId w with
    | None => throw (AppError "Process instance not found" 404) w
    | Some instance =>
        if negb (ProcessStatus_eqb (ProcessInstance.status instance) P_draft)
        then throw (AppError "Process can only be started from draft status" 400) w
        else
          (* populate('processTemplateId') leaves null for a missing template *)
          let template := Db.findTemplate (ProcessInstance.processTemplateId instance) w in
          let instance := markStarted now instance in
          match template with
          | None => throw TypeError w        (* template.steps on null *)
          | Some template =>
              match findTemplateStep template (ProcessTemplate.startStep template) with
              | None => throw (AppError "Start step not found in template" 400) w
              | Some startStep =>
                  (createStepInstance now instance startStep userId ;;
                   let instance :=
                     set_currentSteps [JsString.trim (StepDef.stepId startStep)] instance in
                   Db.saveProcess instance ;;
                   Db.createHistory (ProcessInstance._id instance) None process_started
                     (Some userId) (Some "draft") (Some "active") ;;
                   ret instance) w
              end
          end
    end.

(** *** Escalation *)

Definition isOpen (s : StepInstance.t) : bool :=
  StepStatus_eqb (StepInstance.status s) S_pending
  || StepStatus_eqb (StepInstance.status s) S_in_progress.

(** [dueDate: { $lt: date }]: a step without a due date never matches. *)
Definition dueBefore (date : Date) (s : StepInstance.t) : bool :=
  match StepInstance.dueDate s with
  | Some d => d <? date
  | None => false
  end.

(** [{ role: { $in: ['manager', 'admin'] }, isActive: true }] *)
Definition isEscalationTarget (u : User.t) : bool :=
  ((User.role u =? "manager")%string || (User.role u =? "admin")%string)
  && User.isActive u.

Definition set_escalation (escalated : bool) (level : Z)
    (hist : list EscalationEntry.t) (s : StepInstance.t) : StepInstance.t :=
  StepInstance.mk (StepInstance._id s) (StepInstance.processInstanceId s)
    (StepInstance.stepId s) (StepInstance.name s) (StepInstance.type s)
    (StepInstance.status s)
    (StepInstance.assignedTo s) (StepInstance.assignedRole s)
    (StepInstance.assignedDepartment s)
    (StepInstance.startDate s) (StepInstance.endDate s) (StepInstance.dueDate s)
    (StepInstance.formData s)
    escalated level hist
    (StepInstance.completedBy s) (StepInstance.variables s).

(** The three assignments of the loop body of [escalateOverdueTasks]. *)
Definition escalateTo (now : Date) (target : User.t) (task : StepInstance.t)
  : StepInstance.t :=
  set_escalation true 1
    (StepInstance.escalationHistory task
       ++ [EscalationEntry.mk 1 (User._id target) now
             "Task overdue - automatic escalation"])
    task.

(** The query of [escalateOverdueTasks]. *)
Definition overdueUnescalated (now : Date) (s : StepInstance.t) : bool :=
  isOpen s && dueBefore now s && negb (StepInstance.escalated s).

(** One iteration of the loop of [escalateOverdueTasks]; [process] is the
    populated [task.processInstanceId]. *)
Definition escalateTask (now : Date) (task : StepInstance.t)
    (process : option ProcessInstance.t) : M unit :=
  fun w =>
    match firstn 1 (List.filter isEscalationTarget (users w)) with
    | escalationTarget :: _ =>
        (Db.saveStep (escalateTo now escalationTarget task) ;;
         pid <- match process with
                | Some p => ret (ProcessInstance._id p)
                | None => throw TypeError
                end ;;
         Db.createHistory pid (Some (StepInstance._id task)) step_escalated
           None (* performedBy: null, "System escalation" *) None None ;;
         Db.createNotification
           (Notification.mk (User._id escalationTarget) task_escalated
              "Overdue Task Escalated"
              ("Task " ++ dquote ++ StepInstance.name task ++ dquote
                 ++ " is overdue and has been escalated to you.")%string
              (Some pid) (Some (StepInstance._id task)) high)) w
    | [] => ret tt w
    end.

(** [escalateOverdueTasks()]: the whole body is inside [try]; the [catch]
    logs and returns. *)
Definition escalateOverdueTasks (now : Date) : M unit :=
  tryCatch
    (fun w =>
       let overdueTasks :=
         map (fun s => (s, Db.findProcess (StepInstance.processInstanceId s) w))
             (List.filter (overdueUnescalated now) (steps w)) in
       forEach overdueTasks (fun tp => escalateTask now (fst tp) (snd tp)) w)
    (fun _ => ret tt).

End WorkflowEngine.

(** ** notificationService.createNotification *)

Module NotificationService.

(** The required-field guard, the save, and the e-mail dispatch; the last
    is wrapped in its own [try] and never throws or touches the store. *)
Definition createNotification (n : Notification.t) : M unit :=
  if (Notification.title n =? "")%string || (Notification.message n =? "")%string
  then throw (AppError "Missing required notification fields" 400)
  else Db.createNotification n.

End NotificationService.

(** ** class SchedulerService *)

Module SchedulerService.
Import WorkflowEngine.

Definition set_escalated (b : bool) (s : StepInstance.t) : StepInstance.t :=
  set_escalation b (StepInstance.escalationLevel s) (StepInstance.escalationHistory s) s.

Definition set_escalationLevel (l : Z) (s : StepInstance.t) : StepInstance.t :=
  set_escalation (StepInstance.escalated s) l (StepInstance.escalationHistory s) s.

(** A task of a query with [populate('assignedTo processInstanceId')]. *)
Record Populated := mkPopulated {
  task : StepInstance.t;
  assignedTo : option User.t;
  processInstance : option ProcessInstance.t
}.

Definition populate (w : World) (s : StepInstance.t) : Populated :=
  mkPopulated s
    (match StepInstance.assignedTo s with
     | Some u => Db.findUser u w
     | None => None
     end)
    (Db.findProcess (StepInstance.processInstanceId s) w).

Definition overdueNotice (t : StepInstance.t) (u : User.t) (p : ProcessInstance.t)
  : Notification.t :=
  Notification.mk (User._id u) task_overdue "Task Overdue"
    ("Task " ++ dquote ++ StepInstance.name t ++ dquote ++ " is overdue")%string
    (Some (ProcessInstance._id p)) (Some (StepInstance._id t)) high.

(** One iteration of the loop of [checkOverdueTasks], inside its
    [try]/[catch]; reading [task.processInstanceId._id] on a missing process
    throws inside the [try]. *)
Definition markOverdue (t : Populated) : M unit :=
  tryCatch
    (Db.saveStep (set_escalated true (task t)) ;;
     match assignedTo t with
     | Some u =>
         match processInstance t with
         | None => throw TypeError
         | Some p => NotificationService.createNotification (overdueNotice (task t) u p)
         end
     | None => ret tt
     end)
    (fun _ => ret tt).

(** [checkOverdueTasks()] *)
Definition checkOverdueTasks (currentDate : Date) : M unit :=
  fun w =>
    let overdueTasks :=
      map (populate w) (List.filter (overdueUnescalated currentDate) (steps w)) in
    if (length overdueTasks =? 0)%nat then ret tt w
    else forEach overdueTasks markOverdue w.

(** The query of [processTaskEscalations]. *)
Definition needsEscalation (escalationThreshold : Date) (s : StepInstance.t) : bool :=
  isOpen s && dueBefore escalationThreshold s && StepInstance.escalated s
  && (StepInstance.escalationLevel s <? 3).

Definition levelText (l : Z) : string :=
  DecimalString.NilZero.string_of_int (Z.to_int l).

Definition escalationNotice (escalationLevel : Z) (t : StepInstance.t)
    (p : ProcessInstance.t) (target : User.t) : Notification.t :=
  Notification.mk (User._id target) task_escalated
    ("Task Escalated (Level " ++ levelText escalationLevel ++ ")")%string
    ("Task " ++ dquote ++ StepInstance.name t ++ dquote
       ++ " has been escalated due to being overdue")%string
    (Some (ProcessInstance._id p)) (Some (StepInstance._id t)) urgent.

(** The body of the inner loop over the escalation targets. *)
Definition notifyTarget (escalationLevel : Z) (t : Populated) (target : User.t) : M unit :=
  match processInstance t with
  | None => throw TypeError
  | Some p =>
      NotificationService.createNotification
        (escalationNotice escalationLevel (task t) p target)
  end.

(** The level [processTaskEscalations] saves: [(task.escalationLevel || 0) + 1]. *)
Definition raised (s : StepInstance.t) : StepInstance.t :=
  set_escalationLevel (StepInstance.escalationLevel s + 1) s.

(** One iteration of the loop of [processTaskEscalations], inside its
    [try]/[catch]. *)
Definition escalateOne (t : Populated) : M unit :=
  tryCatch
    (let escalationLevel := StepInstance.escalationLevel (task t) + 1 in
     Db.saveStep (raised (task t)) ;;
     fun w =>
       let escalationTargets := List.filter isEscalationTarget (users w) in
       forEach escalationTargets (notifyTarget escalationLevel t) w)
    (fun _ => ret tt).

(** [processTaskEscalations()] *)
Definition processTaskEscalations (currentDate : Date) : M unit :=
  fun w =>
    let escalationThreshold := currentDate - 2 * 60 * 60 * 1000 in
    let tasksToEscalate :=
      map (populate w) (List.filter (needsEscalation escalationThreshold) (steps w)) in
    if (length tasksToEscalate =? 0)%nat then ret tt w
    else forEach tasksToEscalate escalateOne w.

(** The queries of [cleanupOldData] on processes and on steps.  The step
    query asks for [processInstanceId: { $in: [] }], a member of the empty
    list. *)
Definition oldCompleted (ninetyDaysAgo : Date) (p : ProcessInstance.t) : bool :=
  ProcessStatus_eqb (ProcessInstance.status p) P_completed
  && match ProcessInstance.endDate p with
     | Some endDate => endDate <? ninetyDaysAgo
     | None => false
     end.

Definition orphaned (createdBefore : StepInstance.t -> bool) (s : StepInstance.t) : bool :=
  existsb (Nat.eqb (StepInstance.processInstanceId s)) [] && createdBefore s.

(** [cleanupOldData()].  The timestamps [createdAt] and the flag [isRead]
    are not fields of the records: [readBefore thirtyDaysAgo n] answers the
    notification query [{ createdAt: { $lt: thirtyDaysAgo }, isRead: true }]
    and [createdBefore ninetyDaysAgo s] the condition
    [createdAt: { $lt: ninetyDaysAgo }] of the step query. *)
Definition cleanupOldData (now : Date)
    (readBefore : Date -> Notification.t -> bool)
    (createdBefore : Date -> StepInstance.t -> bool) : M unit :=
  fun w =>
    let thirtyDaysAgo := now - 30 * 24 * 60 * 60 * 1000 in
    let ninetyDaysAgo := now - 90 * 24 * 60 * 60 * 1000 in
    (Ok tt,
     mkWorld
       (List.filter (fun p => negb (oldCompleted ninetyDaysAgo p)) (processes w))
       (templates w)
       (List.filter (fun s => negb (orphaned (createdBefore ninetyDaysAgo) s)) (steps w))
       (history w)
       (List.filter (fun n => negb (readBefore thirtyDaysAgo n)) (notifications w))
       (users w) (nextStepInstanceId w) (notificationFails w)).

End SchedulerService.

(** ** The manual escalation endpoint *)

Module StepInstanceController.
Import WorkflowEngine.

(** The store part of [escalateStep] (POST /:id/escalate), called by
    [actor] with body [{ escalateTo, reason }].  After [step.save()] the
    handler builds the argument of [ProcessHistory.create], whose [metadata]
    is written [{ escalatedTo, ... }]: the body was destructured into
    [escalateTo], and no scope declares [escalatedTo], so evaluating the
    object literal throws before [create] is called.  The history row and
    the notification that follow in the text are never written, and
    [actor], whom only they mention, is not read.  [reason] of an
    escalation entry is a [trim: true] path. *)
Definition escalateStep (now : Date) (id : StepInstanceId) (escalateTo : UserId)
    (reason : string) (actor : UserId) : M unit :=
  fun w =>
    match Db.findStep id w with
    | None => throw (AppError "Step instance not found" 404) w
    | Some step =>
        if negb (isOpen step)
        then throw (AppError "Only pending or in-progress steps can be escalated" 400) w
        else
          match Db.findUser escalateTo w with
          | None => throw (AppError "Invalid escalation target" 400) w
          | Some escalationTarget =>
              if negb (User.isActive escalationTarget)
              then throw (AppError "Invalid escalation target" 400) w
              else
                let level := StepInstance.escalationLevel step + 1 in
                let step :=
                  set_escalation true level
                    (StepInstance.escalationHistory step
                       ++ [EscalationEntry.mk level escalateTo now (JsString.trim reason)])
                    step in
                (Db.saveStep step ;;
                 throw (ReferenceError "escalatedTo")) w
          end
    end.

(** *** The other endpoints of the step controller *)

(** The fields these endpoints assign on the loaded document. *)
Definition set_assignment (status : StepStatus) (assignedTo : option UserId)
    (assignedRole assignedDepartment : option string)
    (startDate endDate dueDate : option Date) (s : StepInstance.t) : StepInstance.t :=
  StepInstance.mk (StepInstance._id s) (StepInstance.processInstanceId s)
    (StepInstance.stepId s) (StepInstance.name s) (StepInstance.type s)
    status assignedTo assignedRole assignedDepartment startDate endDate dueDate
    (StepInstance.formData s)
    (StepInstance.escalated s) (StepInstance.escalationLevel s)
    (StepInstance.escalationHistory s)
    (StepInstance.completedBy s) (StepInstance.variables s).

(** [step.assignedTo && !step.assignedTo.equals(req.user._id)] *)
Definition assignedToOther (step : StepInstance.t) (actor : UserId) : bool :=
  match StepInstance.assignedTo step with
  | Some a => negb (a =? actor)%string
  | None => false
  end.

(** The assignments of [startStep]. *)
Definition markInProgress (now : Date) (actor : UserId) (step : StepInstance.t)
  : StepInstance.t :=
  set_assignment S_in_progress
    (match StepInstance.assignedTo step with
     | Some a => Some a
     | None => Some actor
     end)
    (StepInstance.assignedRole step) (StepInstance.assignedDepartment step)
    (Some now) (StepInstance.endDate step) (StepInstance.dueDate step) step.

(** [startStep] (POST /:id/start), called by [actor]. *)
Definition startStep (now : Date) (id : StepInstanceId) (actor : UserId) : M unit :=
  fun w =>
    match Db.findStep id w with
    | None => throw (AppError "Step instance not found" 404) w
    | Some step =>
        if assignedToOther step actor
        then throw (AppError "You are not assigned to this step" 403) w
        else if negb (StepStatus_eqb (StepInstance.status step) S_pending)
        then throw (AppError "Only pending steps can be started" 400) w
        else
          let step := markInProgress now actor step in
          (Db.saveStep step ;;
           Db.createHistory (StepInstance.processInstanceId step)
             (Some (StepInstance._id step)) step_started (Some actor)
             (Some "pending") (Some "in_progress")) w
    end.

(** [workflowEngine.processStepCompletion(step, userId)] on a step that was
    loaded without [populate].  [stepInstance.processInstanceId] is then an
    ObjectId; its property [processTemplateId] is [undefined];
    [ProcessTemplate.findById(undefined)] resolves to [null]; reading
    [template.steps] throws, and the [catch] of the method rethrows. *)
Definition processStepCompletion_unpopulated (stepInstance : StepInstance.t)
    (userId : UserId) : M unit :=
  throw TypeError.

(** The assignments of [skipStep]. *)
Definition markSkipped (now : Date) (step : StepInstance.t) : StepInstance.t :=
  set_assignment S_skipped
    (StepInstance.assignedTo step)
    (StepInstance.assignedRole step) (StepInstance.assignedDepartment step)
    (StepInstance.startDate step) (Some now) (StepInstance.dueDate step) step.

(** [skipStep] (POST /:id/skip).  The history row reads [step.status] after
    the assignment; the step was loaded by a plain [findById]. *)
Definition skipStep (now : Date) (id : StepInstanceId) (actor : UserId) : M unit :=
  fun w =>
    match Db.findStep id w with
    | None => throw (AppError "Step instance not found" 404) w
    | Some step =>
        if negb (isOpen step)
        then throw (AppError "Only pending or in-progress steps can be skipped" 400) w
        else
          let step := markSkipped now step in
          (Db.saveStep step ;;
           Db.createHistory (StepInstance.processInstanceId step)
             (Some (StepInstance._id step)) step_skipped (Some actor)
             (Some (StepStatus_str (StepInstance.status step))) (Some "skipped") ;;
           processStepCompletion_unpopulated step actor) w
    end.

(** [value || null] for an optional string of the request body. *)
Definition orNull (v : option string) : option string :=
  if truthy v then v else None.

(** The User lookup of [assignStep] and [reassignStep]:
    [!user || !user.isActive], for an id that is a well-formed ObjectId. *)
Definition invalidUser (id : UserId) (w : World) : bool :=
  match Db.findUser id w with
  | Some user => negb (User.isActive user)
  | None => true
  end.

(** The assignments of [assignStep]. *)
Definition markAssigned (assignedTo : option UserId)
    (assignedRole assignedDepartment : option string) (dueDate : option Date)
    (step : StepInstance.t) : StepInstance.t :=
  set_assignment (StepInstance.status step)
    (orNull assignedTo) (orNull assignedRole) (orNull assignedDepartment)
    (StepInstance.startDate step) (StepInstance.endDate step)
    (match dueDate with
     | Some d => Some d
     | None => StepInstance.dueDate step
     end)
    step.

(** [assignStep] (POST /:id/assign) with body
    [{ assignedTo, assignedRole, assignedDepartment, dueDate }]; [dueDate]
    is the date the body's string denotes. *)
Definition assignStep (id : StepInstanceId) (assignedTo : option UserId)
    (assignedRole assignedDepartment : option string) (dueDate : option Date)
    (actor : UserId) : M unit :=
  fun w =>
    match Db.findStep id w with
    | None => throw (AppError "Step instance not found" 404) w
    | Some step =>
        if negb (StepStatus_eqb (StepInstance.status step) S_pending)
        then throw (AppError "Only pending steps can be assigned" 400) w
        else
          if match orNull assignedTo with
             | Some a => invalidUser a w
             | None => false
             end
          then throw (AppError "Invalid or inactive user" 400) w
          else
            let step := markAssigned assignedTo assignedRole assignedDepartment dueDate step in
            (Db.saveStep step ;;
             Db.createHistory (StepInstance.processInstanceId step)
               (Some (StepInstance._id step)) step_assigned (Some actor) None None ;;
             match orNull assignedTo with
             | Some a => Db.createNotification (taskAssignedNotice step a)
             | None => ret tt
             end) w
    end.

(** The trailing sentence of the reassignment and cancellation messages. *)
Definition reasonText (reason : string) : string :=
  if (reason =? "")%string then "" else ("Reason: " ++ reason)%string.

(** The assignments of [reassignStep]. *)
Definition markReassigned (assignedTo : UserId) (step : StepInstance.t) : StepInstance.t :=
  let inProgress := StepStatus_eqb (StepInstance.status step) S_in_progress in
  set_assignment (if inProgress then S_pending else StepInstance.status step)
    (Some assignedTo) None None
    (if inProgress then None else StepInstance.startDate step)
    (StepInstance.endDate step) (StepInstance.dueDate step) step.

(** The two documents [reassignStep] builds.  The second has the type
    ['task_reassigned'], which is not among NOTIFICATION_TYPES. *)
Definition reassignedToYou (step : StepInstance.t) (assignedTo : UserId) (reason : string)
  : Notification.t :=
  Notification.mk assignedTo task_assigned "Task Reassigned to You"
    ("Task " ++ dquote ++ StepInstance.name step ++ dquote
       ++ " has been reassigned to you. " ++ reasonText reason)%string
    (Some (StepInstance.processInstanceId step)) (Some (StepInstance._id step)) medium.

Definition reassignedAway (step : StepInstance.t) (oldAssignee : UserId) (reason : string)
  : NotificationModel.NotificationData :=
  NotificationModel.Untyped oldAssignee "task_reassigned" "Task Reassigned"
    ("Task " ++ dquote ++ StepInstance.name step ++ dquote
       ++ " has been reassigned to another user. " ++ reasonText reason)%string
    (Some (StepInstance.processInstanceId step)) (Some (StepInstance._id step)) medium.

(** [reassignStep] (POST /:id/reassign) with body [{ assignedTo, reason }]. *)
Definition reassignStep (id : StepInstanceId) (assignedTo : UserId) (reason : string)
    (actor : UserId) : M unit :=
  fun w =>
    match Db.findStep id w with
    | None => throw (AppError "Step instance not found" 404) w
    | Some step =>
        if negb (isOpen step)
        then throw (AppError "Only pending or in-progress steps can be reassigned" 400) w
        else
          if invalidUser assignedTo w
          then throw (AppError "Invalid or inactive user" 400) w
          else
            let oldAssignee := StepInstance.assignedTo step in
            let step := markReassigned assignedTo step in
            (Db.saveStep step ;;
             Db.createHistory (StepInstance.processInstanceId step)
               (Some (StepInstance._id step)) step_reassigned (Some actor) None None ;;
             NotificationModel.insertMany
               (NotificationModel.Typed (reassignedToYou step assignedTo reason)
                  :: match oldAssignee with
                     | Some old => [reassignedAway step old reason]
                     | None => []
                     end)) w
    end.

End StepInstanceController.

(** ** The process instance controller *)

Module ProcessInstanceController.
Import WorkflowEngine.

(** [req.user.role === 'admin' || req.user.role === 'manager' ||
    instance.initiatedBy.equals(req.user._id)] *)
Definition mayManage (user : User.t) (instance : ProcessInstance.t) : bool :=
  (User.role user =? "admin")%string || (User.role user =? "manager")%string
  || (ProcessInstance.initiatedBy instance =? User._id user)%string.

Definition set_status (status : ProcessStatus) (endDate : option Date)
    (p : ProcessInstance.t) : ProcessInstance.t :=
  ProcessInstance.mk (ProcessInstance._id p) (ProcessInstance.processTemplateId p)
    (ProcessInstance.name p) status (ProcessInstance.initiatedBy p)
    (ProcessInstance.currentSteps p) (ProcessInstance.startDate p) endDate
    (ProcessInstance.completionPercentage p).

(** [startProcess] (POST /:id/start), called by [user]. *)
Definition startProcess (now : Date) (id : ProcessId) (user : User.t) : M unit :=
  fun w =>
    match Db.findProcess id w with
    | None => throw (AppError "Process instance not found" 404) w
    | Some instance =>
        if negb (mayManage user instance)
        then throw (AppError "Insufficient permissions to start this process" 403) w
        else if negb (ProcessStatus_eqb (ProcessInstance.status instance) P_draft)
        then throw (AppError "Process can only be started from draft status" 400) w
        else (WorkflowEngine.startProcess now id (User._id user) ;; ret tt) w
    end.

(** [suspendProcess] (POST /:id/suspend) *)
Definition suspendProcess (id : ProcessId) (user : User.t) : M unit :=
  fun w =>
    match Db.findProcess id w with
    | None => throw (AppError "Process instance not found" 404) w
    | Some instance =>
        if negb (ProcessStatus_eqb (ProcessInstance.status instance) P_active)
        then throw (AppError "Only active processes can be suspended" 400) w
        else
          let instance := set_status P_suspended (ProcessInstance.endDate instance) instance in
          (Db.saveProcess instance ;;
           Db.createHistory (ProcessInstance._id instance) None process_suspended
             (Some (User._id user)) (Some "active") (Some "suspended")) w
    end.

(** [resumeProcess] (POST /:id/resume) *)
Definition resumeProcess (id : ProcessId) (user : User.t) : M unit :=
  fun w =>
    match Db.findProcess id w with
    | None => throw (AppError "Process instance not found" 404) w
    | Some instance =>
        if negb (ProcessStatus_eqb (ProcessInstance.status instance) P_suspended)
        then throw (AppError "Only suspended processes can be resumed" 400) w
        else
          let instance := set_status P_active (ProcessInstance.endDate instance) instance in
          (Db.saveProcess instance ;;
           Db.createHistory (ProcessInstance._id instance) None process_resumed
             (Some (User._id user)) (Some "suspended") (Some "active")) w
    end.

(** [StepInstance.distinct('assignedTo', { processInstanceId, assignedTo:
    { $ne: null } })]: each assignee once, here in the order of first
    occurrence. *)
Definition distinctAssignees (processInstanceId : ProcessId) (w : World) : list UserId :=
  fold_left
    (fun acc s =>
       match StepInstance.assignedTo s with
       | Some a =>
           if (StepInstance.processInstanceId s =? processInstanceId)%nat
              && negb (existsb (String.eqb a) acc)
           then acc ++ [a] else acc
       | None => acc
       end)
    (steps w) [].

(** The document [insertMany] builds from an element of [notifications]:
    [message] is a [trim: true] path, which drops the blank the template
    leaves at the end when [reason] is empty. *)
Definition cancellationNotice (instance : ProcessInstance.t) (reason : string)
    (userId : UserId) : Notification.t :=
  Notification.mk userId process_cancelled_note "Process Cancelled"
    (JsString.trim
       ("Process " ++ dquote ++ ProcessInstance.name instance ++ dquote
          ++ " has been cancelled. " ++ StepInstanceController.reasonText reason))%string
    (Some (ProcessInstance._id instance)) None medium.

(** [notifyProcessCancellation(instance, userId, reason)].  The array that
    [distinct] returns holds ObjectIds and is searched for the string
    [instance.initiatedBy.toString()], so [includes] answers [false] and the
    initiator is pushed in every case.  The whole body is inside [try]; the
    [catch] logs and returns. *)
Definition notifyProcessCancellation (instance : ProcessInstance.t) (userId : UserId)
    (reason : string) : M unit :=
  tryCatch
    (fun w =>
       let involvedUsers := distinctAssignees (ProcessInstance._id instance) w in
       let involvedUsers := involvedUsers ++ [ProcessInstance.initiatedBy instance] in
       NotificationModel.insertMany
         (map (fun u => NotificationModel.Typed (cancellationNotice instance reason u))
              involvedUsers) w)
    (fun _ => ret tt).

(** The update of [StepInstance.updateMany] in [cancelProcess]. *)
Definition cancelOpenStep (now : Date) (id : ProcessId) (s : StepInstance.t) : StepInstance.t :=
  if (StepInstance.processInstanceId s =? id)%nat && isOpen s
  then StepInstanceController.set_assignment S_cancelled
         (StepInstance.assignedTo s)
         (StepInstance.assignedRole s) (StepInstance.assignedDepartment s)
         (StepInstance.startDate s) (Some now) (StepInstance.dueDate s) s
  else s.

Definition finished (instance : ProcessInstance.t) : bool :=
  ProcessStatus_eqb (ProcessInstance.status instance) P_completed
  || ProcessStatus_eqb (ProcessInstance.status instance) P_cancelled.

(** [cancelProcess] (POST /:id/cancel) with body [{ reason }].  Its last
    statement before the response reads [this.notifyProcessCancellation]. *)
Definition cancelProcess (this : This) (now : Date) (id : ProcessId) (reason : string)
    (user : User.t) : M unit :=
  fun w =>
    match Db.findProcess id w with
    | None => throw (AppError "Process instance not found" 404) w
    | Some instance =>
        if negb (mayManage user instance)
        then throw (AppError "Insufficient permissions to cancel this process" 403) w
        else if finished instance
        then throw (AppError "Process is already completed or cancelled" 400) w
        else
          let oldStatus := ProcessInstance.status instance in
          let instance := set_status P_cancelled (Some now) instance in
          (Db.saveProcess instance ;;
           (fun w => (Ok tt, with_steps (map (cancelOpenStep now id)) w)) ;;
           Db.createHistory (ProcessInstance._id instance) None process_cancelled
             (Some (User._id user)) (Some (ProcessStatus_str oldStatus))
             (Some "cancelled") ;;
           match this with
           | Undefined => throw TypeError     (* notifyProcessCancellation on undefined *)
           | Controller => notifyProcessCancellation instance (User._id user) reason
           end) w
    end.

(** [deleteProcessInstance] (DELETE /:id): an [_id] names one document of a
    collection. *)
Definition deleteProcessInstance (id : ProcessId) (user : User.t) : M unit :=
  fun w =>
    match Db.findProcess id w with
    | None => throw (AppError "Process instance not found" 404) w
    | Some instance =>
        let canDelete :=
          (User.role user =? "admin")%string
          || ((User.role user =? "manager")%string
              && (ProcessStatus_eqb (ProcessInstance.status instance) P_draft
                  || ProcessStatus_eqb (ProcessInstance.status instance) P_cancelled
                  || ProcessStatus_eqb (ProcessInstance.status instance) P_completed)) in
        if negb canDelete
        then throw (AppError "Insufficient permissions to delete this process instance" 403) w
        else if ProcessStatus_eqb (ProcessInstance.status instance) P_active
        then throw (AppError "Cannot delete active process instance" 400) w
        else
          (Ok tt,
           mkWorld
             (List.filter (fun p => negb (ProcessInstance._id p =? id)%nat) (processes w))
             (templates w)
             (List.filter (fun s => negb (StepInstance.processInstanceId s =? id)%nat) (steps w))
             (List.filter (fun h => negb (ProcessHistory.processInstanceId h =? id)%nat)
                          (history w))
             (notifications w) (users w) (nextStepInstanceId w) (notificationFails w))
    end.

End ProcessInstanceController.

(** ** Template validation *)

Module ProcessTemplateController.

Definition includes (l : list string) (x : string) : bool := existsb (String.eqb x) l.

Definition join (l : list string) : string := String.concat ", " l.

(** The [for] loop over the steps: the first step with a dangling
    [nextSteps] reference throws. *)
Fixpoint checkNextSteps (stepIds : list string) (steps : list StepDef.t) : Result unit :=
  match steps with
  | [] => Ok tt
  | step :: rest =>
      let invalidNextSteps :=
        List.filter (fun stepId => negb (includes stepIds stepId))
                    (map NextStep.stepId (StepDef.nextSteps step)) in
      if (0 <? length (StepDef.nextSteps step))%nat && (0 <? length invalidNextSteps)%nat
      then Throw (AppError ("Step " ++ dquote ++ StepDef.stepId step ++ dquote
                              ++ " references invalid next steps: "
                              ++ join invalidNextSteps)%string 400)
      else checkNextSteps stepIds rest
  end.

(** [validateStepReferences(steps, startStep, endSteps)] *)
Definition validateStepReferences (steps : list StepDef.t) (startStep : string)
    (endSteps : list string) : Result unit :=
  let stepIds := map StepDef.stepId steps in
  if negb (includes stepIds startStep)
  then Throw (AppError "Start step must exist in the steps array" 400)
  else
    let invalidEndSteps := List.filter (fun endStep => negb (includes stepIds endStep)) endSteps in
    if (0 <? length invalidEndSteps)%nat
    then Throw (AppError ("End steps not found in steps array: "
                            ++ join invalidEndSteps)%string 400)
    else checkNextSteps stepIds steps.

(** [processTemplateSchema.pre('save')] *)
Definition preSave (this : ProcessTemplate.t) : Result unit :=
  let startStepExists :=
    existsb (fun step => (StepDef.stepId step =? ProcessTemplate.startStep this)%string)
            (ProcessTemplate.steps this) in
  if negb startStepExists
  then Throw (JsError "Start step must exist in the steps array")
  else
    let stepIds := map StepDef.stepId (ProcessTemplate.steps this) in
    let invalidEndSteps :=
      List.filter (fun endStep => negb (includes stepIds endStep))
                  (ProcessTemplate.endSteps this) in
    if (0 <? length invalidEndSteps)%nat
    then Throw (JsError ("End steps not found in steps array: "
                           ++ join invalidEndSteps)%string)
    else Ok tt.

(** The store part of [createProcessTemplate] (POST /): validate the
    references, build the document, run the save hook, insert.  The first
    statement after the body is copied reads [this.validateStepReferences].
    The body has passed [validate(createProcessTemplateSchema)], which has
    trimmed the strings the model trims and required what the model
    requires: the constructor changes nothing and only the hook can reject
    the document. *)
Definition createProcessTemplate (this : This) (templateData : ProcessTemplate.t)
  : M ProcessTemplate.t :=
  fun w =>
    match this with
    | Undefined => (Throw TypeError, w)   (* validateStepReferences on undefined *)
    | Controller =>
        match validateStepReferences (ProcessTemplate.steps templateData)
                (ProcessTemplate.startStep templateData)
                (ProcessTemplate.endSteps templateData) with
        | Throw e => (Throw e, w)
        | Ok _ =>
            match preSave templateData with
            | Throw e => (Throw e, w)
            | Ok _ =>
                (Ok templateData,
                 mkWorld (processes w) (templates w ++ [templateData]) (steps w) (history w)
                         (notifications w) (users w) (nextStepInstanceId w)
                         (notificationFails w))
            end
        end
    end.

(** The handler as [router.post('/', ..., processTemplateController
    .createProcessTemplate)] registers it, the only use of the method. *)
Definition postProcessTemplate : ProcessTemplate.t -> M ProcessTemplate.t :=
  createProcessTemplate Undefined.

(** *** [validateTemplateForPublishing] *)

(** [stepIds.indexOf(stepId)]: the first position, or -1. *)
Fixpoint indexOf (l : list string) (x : string) : Z :=
  match l with
  | [] => -1
  | y :: rest =>
      if (y =? x)%string then 0
      else let i := indexOf rest x in if i <? 0 then -1 else i + 1
  end.

(** [stepIds.filter((stepId, index) => stepIds.indexOf(stepId) !== index)] *)
Definition duplicateStepIds (stepIds : list string) : list string :=
  map fst
    (List.filter (fun si => negb (indexOf stepIds (fst si) =? snd si))
                 (combine stepIds (map Z.of_nat (seq 0 (length stepIds))))).

(** The warning test of a step: the schema defaults [assigneeType] and
    [assignees], so only the empty assignee list of a user assignment is
    left of it. *)
Definition unassignedUserTask (step : StepDef.t) : bool :=
  StepType_eqb (StepDef.type step) T_user_task
  && match StepDef.assigneeType step with
     | A_user => (length (StepDef.assignees step) =? 0)%nat
     | _ => false
     end.

Record Validation := mkValidation {
  isValid : bool;
  errors : list string;
  warnings : list string
}.

(** [!value || value.trim().length === 0]; [trim] is [String.prototype.trim]. *)
Definition blank (trim : string -> string) (value : option string) : bool :=
  match value with
  | Some v => negb (truthy value) || (String.length (trim v) =? 0)%nat
  | None => true
  end.

(** [validateTemplateForPublishing(template)], on the three properties of
    the template it reads: [name], [category] and [steps]. *)
Definition validateTemplateForPublishing (trim : string -> string)
    (name category : option string) (steps : list StepDef.t) : Validation :=
  let errors : list string := [] in
  let errors :=
    if blank trim name then errors ++ ["Template name is required"] else errors in
  let errors :=
    if blank trim category then errors ++ ["Template category is required"] else errors in
  let errors :=
    if (length steps =? 0)%nat
    then errors ++ ["Template must have at least one step"] else errors in
  let stepIds := map StepDef.stepId steps in
  let duplicates := duplicateStepIds stepIds in
  let errors :=
    if (0 <? length duplicates)%nat
    then errors ++ [("Duplicate step IDs found: " ++ join duplicates)%string]
    else errors in
  let warnings :=
    map (fun step => ("Step " ++ dquote ++ StepDef.name step ++ dquote
                        ++ " has no assignees configured")%string)
        (List.filter unassignedUserTask steps) in
  mkValidation (length errors =? 0)%nat errors warnings.

End ProcessTemplateController.

(** * Vocabulary of the properties

    The relations, invariants and sample stores the theorems are stated
    with. *)

(** ** Engine *)

Module EngineSpec.
Import WorkflowEngine.

(** [w'] has the templates and users of [w], and the steps of [w] followed
    by newly created ones, which carry no escalation and take the next free
    ids. *)
Record grows (w w' : World) : Prop := mkGrows {
  grows_templates : templates w' = templates w;
  grows_users : users w' = users w;
  grows_fails : notificationFails w' = notificationFails w;
  grows_steps : exists l,
      steps w' = steps w ++ l
      /\ Forall (fun s => StepInstance.escalated s = false
                          /\ StepInstance.escalationLevel s = 0) l
      /\ map StepInstance._id l
         = seq (nextStepInstanceId w) (length l)
      /\ nextStepInstanceId w' = (nextStepInstanceId w + length l)%nat
}.

(** The notifications [createStepInstance] adds. *)
Definition createdNotices (stepInstance : StepInstance.t) (templateStep : StepDef.t)
    (w : World) : list Notification.t :=
  match StepDef.type templateStep, StepInstance.assignedTo stepInstance with
  | T_user_task, Some a =>
      if notificationFails w (taskAssignedNotice stepInstance a) then []
      else [taskAssignedNotice stepInstance a]
  | _, _ => []
  end.

Definition createdHistory (p : ProcessInstance.t) (stepInstance : StepInstance.t)
    (userId : UserId) : ProcessHistory.t :=
  ProcessHistory.mk (ProcessInstance._id p) (Some (StepInstance._id stepInstance))
    step_created userId None (Some (StepStatus_str (StepInstance.status stepInstance))).

(** The store of [completeStep] after the step has been saved and its
    history row written. *)
Definition afterSave (now : Date) (id : StepInstanceId) (formData : gmap string string)
    (decision : option string) (w : World) (si : StepInstance.t) (p : ProcessInstance.t)
    (actor : UserId) : World :=
  with_history
    (fun l => l ++ [ProcessHistory.mk (ProcessInstance._id p) (Some id) step_completed actor
                      (Some "in_progress") (Some "completed")])
    (with_steps (map (Db.replaceStep (markCompleted now actor formData decision si))) w).


End EngineSpec.

(** ** Sample stores *)

(** Worlds used to run the engine on concrete inputs. *)
Module Scenario.
Import WorkflowEngine.

Definition manager : User.t := User.mk "m1" "manager" true.

(** A two-step template: [start] goes unconditionally to the end step. *)
Definition sdStart : StepDef.t :=
  StepDef.mk "start" "Start" T_user_task A_user ["u1"] false None
    [NextStep.mk None "end"].
Definition sdEnd : StepDef.t := StepDef.mk "end" "End" T_end A_auto [] false None [].
Definition twoStep : ProcessTemplate.t :=
  ProcessTemplate.mk 7%nat [sdStart; sdEnd] "start" ["end"].

Definition draft (template : TemplateId) : ProcessInstance.t :=
  ProcessInstance.mk 1%nat template "P" P_draft "u0" [] None None 0.

Definition world (t : ProcessTemplate.t) : World :=
  mkWorld [draft (ProcessTemplate._id t)] [t] [] [] [] [manager] 0%nat (fun _ => false).

(** The assignee picks the task up: [pending] becomes [in_progress]. *)
Definition begin (id : StepInstanceId) (s : StepInstance.t) : StepInstance.t :=
  if (StepInstance._id s =? id)%nat
  then StepInstance.mk (StepInstance._id s) (StepInstance.processInstanceId s)
         (StepInstance.stepId s) (StepInstance.name s) (StepInstance.type s)
         S_in_progress
         (StepInstance.assignedTo s) (StepInstance.assignedRole s)
         (StepInstance.assignedDepartment s)
         (StepInstance.startDate s) (StepInstance.endDate s) (StepInstance.dueDate s)
         (StepInstance.formData s)
         (StepInstance.escalated s) (StepInstance.escalationLevel s)
         (StepInstance.escalationHistory s)
         (StepInstance.completedBy s) (StepInstance.variables s)
  else s.

Definition started : World := snd (startProcess 1000 1%nat "u0" (world twoStep)).
Definition inProgress : World := with_steps (map (begin 0%nat)) started.











(** The decision step of the routing example: approve goes to [A], reject to [B]. *)
Definition approveReject : list NextStep.t :=
  [NextStep.mk (Some "approve") "A"; NextStep.mk (Some "reject") "B"].

End Scenario.

(** ** Escalation *)

Module EscalationSpec.
Import WorkflowEngine SchedulerService.

(** Appending notifications, and saving one step, as store transformers. *)
Definition notify (ns : list Notification.t) (w : World) : World :=
  with_notifications (fun l => l ++ ns) w.

Definition saved (s : StepInstance.t) (w : World) : World :=
  with_steps (map (Db.replaceStep s)) w.

(** Every notification write is accepted. *)
Definition sinkOk (w : World) : Prop := forall n, notificationFails w n = false.

(** Saving [upd t] for each task [t] of a snapshot, in order. *)
Definition saveAll (upd : StepInstance.t -> StepInstance.t) (ts : list StepInstance.t)
    (w : World) : World :=
  fold_left (fun w t => saved (upd t) w) ts w.

Definition sameId (s x : StepInstance.t) : bool := (StepInstance._id s =? StepInstance._id x)%nat.

(** The notifications one cascade iteration sends when every write is
    accepted. *)
Definition cascadeNotices (us : list User.t) (t : Populated) : list Notification.t :=
  match processInstance t with
  | Some p =>
      map (escalationNotice (StepInstance.escalationLevel (task t) + 1) (task t) p)
          (List.filter isEscalationTarget us)
  | None => []
  end.

Definition overdueNotices (us : list User.t) (t : Populated) : list Notification.t :=
  match assignedTo t, processInstance t with
  | Some u, Some p => [overdueNotice (task t) u p]
  | _, _ => []
  end.

End EscalationSpec.

(** The running system as a transition system over stores. *)
Module EscalationSystem.
Import WorkflowEngine SchedulerService.

(** The operations that run against the store: the three periodic scans and
    the two engine calls that create and complete steps. *)
Inductive Op :=
| EngineScan (now : Date)
| OverdueCheck (now : Date)
| Cascade (now : Date)
| Start (now : Date) (processInstanceId : ProcessId) (userId : UserId)
| Complete (now : Date) (stepInstanceId : StepInstanceId) (userId : UserId)
    (formData : gmap string string) (decision : option string).

Definition run (o : Op) (w : World) : World :=
  match o with
  | EngineScan now => snd (escalateOverdueTasks now w)
  | OverdueCheck now => snd (checkOverdueTasks now w)
  | Cascade now => snd (processTaskEscalations now w)
  | Start now pid u => snd (startProcess now pid u w)
  | Complete now id u fd d => snd (completeStep now id u fd d w)
  end.

(** A step as [createStepInstance] leaves it. *)
Definition unescalated (s : StepInstance.t) : Prop :=
  StepInstance.escalated s = false /\ StepInstance.escalationLevel s = 0.

(** Distinct ids, all below the next free one. *)
Definition idsOk (w : World) : Prop :=
  List.NoDup (map StepInstance._id (steps w))
  /\ List.Forall (fun s => (StepInstance._id s < nextStepInstanceId w)%nat) (steps w).

Inductive reachable : World -> Prop :=
| reach_init w : idsOk w -> List.Forall unescalated (steps w) -> reachable w
| reach_step w o : reachable w -> reachable (run o w).

(** The level is between 0 and 3, and 0 as long as the flag is unset. *)
Definition good (s : StepInstance.t) : Prop :=
  0 <= StepInstance.escalationLevel s <= 3
  /\ (StepInstance.escalated s = false -> StepInstance.escalationLevel s = 0).

Definition Inv (w : World) : Prop := idsOk w /\ List.Forall good (steps w).

(** Position by position, the same document with a level at least as high. *)
Definition levelsGrow (w w' : World) : Prop :=
  forall i s, nth_error (steps w) i = Some s ->
    exists s', nth_error (steps w') i = Some s'
               /\ StepInstance._id s' = StepInstance._id s
               /\ StepInstance.escalationLevel s <= StepInstance.escalationLevel s'.

Definition keeps (w w' : World) : Prop := Inv w' /\ levelsGrow w w'.

End EscalationSystem.

(** Stores for the escalation scans. *)
Module EscalationScenario.
Import WorkflowEngine.

Definition process : ProcessInstance.t :=
  ProcessInstance.mk 1%nat 7%nat "P" P_active "u0" ["a"; "b"] (Some 0) None 0.

(** A pending step, due at time 100. *)
Definition due (id : nat) (stepId : string) (escalated : bool) (level : Z) : StepInstance.t :=
  StepInstance.mk id 1%nat stepId stepId T_user_task S_pending (Some "u1") None None
    None None (Some 100) ∅ escalated level [] None ∅.

Definition staff : list User.t :=
  [User.mk "u1" "user" true; User.mk "m1" "manager" true; User.mk "a1" "admin" true;
   User.mk "m2" "manager" false].

(** Two overdue steps, neither escalated. *)
Definition twoOverdue : World :=
  mkWorld [process] [Scenario.twoStep] [due 0 "a" false 0; due 1 "b" false 0]
          [] [] staff 2%nat (fun _ => false).

(** One step already escalated to level 1. *)
Definition escalatedOnce : World :=
  mkWorld [process] [Scenario.twoStep] [due 0 "a" true 1]
          [] [] staff 1%nat (fun _ => false).

Definition flags (w : World) : list (bool * Z) :=
  map (fun s => (StepInstance.escalated s, StepInstance.escalationLevel s)) (steps w).

(** An operator clears the [escalated] flag of step [id] by hand. *)
Definition reset (id : StepInstanceId) (w : World) : World :=
  with_steps
    (map (fun s => if (StepInstance._id s =? id)%nat
                   then set_escalation false (StepInstance.escalationLevel s)
                          (StepInstance.escalationHistory s) s
                   else s))
    w.

Definition escalations (w : World) : list nat :=
  map (fun s => length (StepInstance.escalationHistory s)) (steps w).


End EscalationScenario.

(** ** Templates *)

Module TemplateSpec.
Import ProcessTemplateController.

(** The step id names a step of the template. *)
Definition defined (t : ProcessTemplate.t) (id : string) : Prop :=
  In id (map StepDef.stepId (ProcessTemplate.steps t)).

(** The reference invariant of a template. *)
Definition referencesResolve (t : ProcessTemplate.t) : Prop :=
  defined t (ProcessTemplate.startStep t)
  /\ (forall e, In e (ProcessTemplate.endSteps t) -> defined t e)
  /\ (forall sd ns,
         In sd (ProcessTemplate.steps t) -> In ns (StepDef.nextSteps sd) ->
         defined t (NextStep.stepId ns)).

(** A template with a dangling [nextSteps] reference and nothing else wrong. *)
Definition dangling : ProcessTemplate.t :=
  ProcessTemplate.mk 3%nat
    [StepDef.mk "start" "Start" T_user_task A_user ["u1"] false None
       [NextStep.mk None "nowhere"];
     Scenario.sdEnd]
    "start" ["end"].

(** A process of that template is started and its start task, taken up by
    the assignee, is completed. *)
Definition danglingCompleted : Result StepInstance.t * World :=
  WorkflowEngine.completeStep 2000 0%nat "u1" ∅ None
    (with_steps (map (Scenario.begin 0%nat))
       (snd (WorkflowEngine.startProcess 1000 1%nat "u0" (Scenario.world dangling)))).

End TemplateSpec.

(** ** Controllers *)

Module ControllerSpec.

(** [n] successive calls of the manual escalation endpoint on one step. *)
Definition escalatedTimes (n : nat) (now : Date) (id : StepInstanceId) (escalateTo : UserId)
    (reason : string) (actor : UserId) (w : World) : World :=
  Nat.iter n (fun v => snd (StepInstanceController.escalateStep now id escalateTo reason actor v)) w.


(** Nothing in the store refers to the process. *)
Definition forgotten (id : ProcessId) (w : World) : Prop :=
  Db.findProcess id w = None
  /\ (forall s, In s (steps w) -> StepInstance.processInstanceId s <> id)
  /\ (forall h, In h (history w) -> ProcessHistory.processInstanceId h <> id).

End ControllerSpec.

(** Stores for the controllers. *)
Module ControllerScenario.

Definition admin : User.t := User.mk "a1" "admin" true.
Definition clerk : User.t := User.mk "u9" "user" true.
Definition initiator : User.t := User.mk "u0" "user" true.

(** The two-step process with its first task in progress, and the same
    process suspended. *)
Definition running : World := Scenario.inProgress.

(** A process that completed at time 2000, and a template with the step id
    [a] used twice. *)
Definition done : World :=
  snd (WorkflowEngine.completeStep 2000 0%nat "u1" ∅ None Scenario.inProgress).

Definition twice : list StepDef.t :=
  [StepDef.mk "a" "First" T_user_task A_user ["u1"] false None [];
   StepDef.mk "b" "Second" T_user_task A_user [] false None [];
   StepDef.mk "a" "Third" T_end A_auto [] false None []].

End ControllerScenario.

(** ** Successor steps *)

Module SuccessorSpec.
Import WorkflowEngine.



End SuccessorSpec.

(** The two-step process at the moment its first task has been saved as
    completed and [processStepCompletion] is about to run. *)
Module SuccessorScenario.
Import WorkflowEngine.

Definition process : ProcessInstance.t :=
  set_currentSteps ["start"] (markStarted 1000 (Scenario.draft 7%nat)).

Definition task : StepInstance.t :=
  Scenario.begin 0%nat
    (buildStepInstance 1000 (markStarted 1000 (Scenario.draft 7%nat)) Scenario.sdStart "u0" 0%nat).


Definition saved : World :=
  EngineSpec.afterSave 2000 0%nat ∅ None Scenario.inProgress task process "u1".

End SuccessorScenario.

(** * Properties *)

(** ** Routing *)

Module RoutingFacts.
Import Routing.

Lemma passes_spec_holds si d ns : passes si d ns = spec_holds d ns.
Proof.
  unfold passes, spec_holds, evaluateCondition, spec_evaluateCondition, truthy, strictEq.
  destruct (NextStep.condition ns) as [c|]; [|reflexivity].
  destruct (String.eqb_spec c "") as [->|Hc]; [reflexivity|].
  destruct (String.eqb_spec c "true") as [->|Ht]; [reflexivity|]; simpl.
  destruct d as [d|]; [|reflexivity].
  destruct (String.eqb_spec d "") as [->|Hd]; simpl.
  - destruct (String.eqb_spec c ""); [contradiction|reflexivity].
  - destruct (c =? d)%string; reflexivity.
Qed.

(** An entry whose condition is literally the (truthy) decision passes the
    first loop. *)
Lemma literal_match_passes si d ns :
  truthy d = true -> strictEq (NextStep.condition ns) d = true -> passes si d ns = true.
Proof.
  unfold passes, evaluateCondition, truthy, strictEq.
  destruct d as [d|]; [|discriminate].
  destruct (NextStep.condition ns) as [c|]; [|discriminate].
  intros Hd Hc. apply String.eqb_eq in Hc as ->.
  destruct (d =? "")%string; [discriminate|]; simpl.
  rewrite String.eqb_refl. destruct (d =? "true")%string; reflexivity.
Qed.

Lemma spec_literal_match_holds d ns :
  strictEq (NextStep.condition ns) (Some d) = true -> spec_holds (Some d) ns = true.
Proof.
  unfold spec_holds, spec_evaluateCondition, strictEq.
  destruct (NextStep.condition ns) as [c|]; [|discriminate].
  intros ->. apply orb_true_r.
Qed.

Lemma filter_nil_find_none {A} (p q : A -> bool) (l : list A) :
  (forall x, q x = true -> p x = true) ->
  List.filter p l = [] -> List.find q l = None.
Proof.
  intros Hqp. induction l as [|x l IH]; simpl; [reflexivity|].
  destruct (p x) eqn:Hp; [discriminate|].
  destruct (q x) eqn:Hq; [apply Hqp in Hq; congruence|]. exact IH.
Qed.

Lemma map_filter_nil {A B} (f : A -> B) (p : A -> bool) (l : list A) :
  map f (List.filter p l) = [] -> List.filter p l = [].
Proof. destruct (List.filter p l); [reflexivity|discriminate]. Qed.

(** The decision-literal search finds nothing once the first loop has
    collected nothing. *)
Lemma decision_search_dead sd si d :
  map NextStep.stepId (List.filter (passes si d) (StepDef.nextSteps sd)) = [] ->
  truthy d = true ->
  List.find (fun ns => strictEq (NextStep.condition ns) d) (StepDef.nextSteps sd) = None.
Proof.
  intros Hnil Hd. apply map_filter_nil in Hnil.
  eapply filter_nil_find_none; [|exact Hnil].
  intros ns Hns. now apply literal_match_passes.
Qed.

Lemma determineNextSteps_drop_branch sd si d :
  determineNextSteps sd si d = determineNextSteps_noDecisionBranch sd si d.
Proof.
  unfold determineNextSteps, determineNextSteps_noDecisionBranch.
  destruct (length (StepDef.nextSteps sd) =? 0)%nat; [reflexivity|].
  cbn [app].
  destruct (map NextStep.stepId (List.filter (passes si d) (StepDef.nextSteps sd)))
    as [|i l] eqn:Hcoll; [|reflexivity].
  cbn [length Nat.eqb andb].
  destruct (StepType_eqb (StepDef.type sd) T_decision); [|reflexivity].
  destruct (truthy d) eqn:Hd; [|reflexivity].
  now rewrite (decision_search_dead sd si d Hcoll Hd).
Qed.

Lemma determineNextSteps_refines_spec sd si d :
  determineNextSteps sd si d = spec_determineNextSteps sd d.
Proof.
  rewrite determineNextSteps_drop_branch.
  unfold determineNextSteps_noDecisionBranch, spec_determineNextSteps,
    spec_stage1, spec_stage2, spec_stage3.
  rewrite (filter_ext _ _ (passes_spec_holds si d)).
  destruct (StepDef.nextSteps sd) as [|first rest] eqn:Hns.
  { simpl. destruct (StepDef.type sd); try reflexivity. now destruct d. }
  cbn [length Nat.eqb app].
  destruct (map NextStep.stepId (List.filter (spec_holds d) (first :: rest)))
    as [|i l] eqn:Hcoll; [|simpl; reflexivity].
  cbn [length Nat.eqb andb Nat.ltb Nat.leb app].
  destruct (StepDef.type sd); try reflexivity.
  destruct d as [d|]; [|reflexivity].
  apply map_filter_nil in Hcoll.
  rewrite (filter_nil_find_none (spec_holds (Some d)) _ _
             (spec_literal_match_holds d) Hcoll).
  reflexivity.
Qed.

End RoutingFacts.

(** C1.  [determineNextSteps] follows the four-stage precedence of the
    specification for every template step, step instance and decision: it
    returns what the stage-by-stage algorithm [spec_determineNextSteps]
    returns (entries whose condition is empty or holds; else, for a decision
    step with a supplied decision, the entry literally equal to the decision;
    else the first entry; else nothing).  For a decision step routed by
    approve to A and by reject to B, the decision approve gives exactly A and
    the decision unknown gives A through the first-entry fallback; the
    function is total, so no error is raised. *)
Theorem determineNextSteps_four_stage_precedence :
  (forall sd si d,
      Routing.determineNextSteps sd si d = Routing.spec_determineNextSteps sd d)
  /\ (forall sd si,
         Routing.determineNextSteps
           (StepDef.with_routing T_decision Scenario.approveReject sd) si (Some "approve")
         = ["A"])
  /\ (forall sd si,
         Routing.determineNextSteps
           (StepDef.with_routing T_decision Scenario.approveReject sd) si (Some "unknown")
         = ["A"]).
Proof.
  split; [exact RoutingFacts.determineNextSteps_refines_spec|].
  split; intros sd si; reflexivity.
Qed.

(** C10.  For every template step, step instance and decision value,
    [determineNextSteps] returns what the function returns with its
    decision-literal search branch removed; and whenever a decision is
    supplied, every entry whose condition equals it is already accepted by
    the test of the first loop. *)
Theorem determineNextSteps_decision_branch_redundant :
  (forall sd si d,
      Routing.determineNextSteps sd si d
      = Routing.determineNextSteps_noDecisionBranch sd si d)
  /\ (forall si d ns,
         truthy d && strictEq (NextStep.condition ns) d = true ->
         Routing.passes si d ns = true).
Proof.
  split; [exact RoutingFacts.determineNextSteps_drop_branch|].
  intros si d ns H. apply andb_true_iff in H as [Hd Hc].
  now apply RoutingFacts.literal_match_passes.
Qed.

Lemma determineNextSteps_decision_branch_redundant_witness :
  (forall sd si d,
      Routing.determineNextSteps sd si d
      = Routing.determineNextSteps_noDecisionBranch sd si d)
  /\ Routing.passes
       (StepInstance.mk 0%nat 0%nat "d" "d" T_decision S_in_progress None None None None
          None None ∅ false 0 [] None ∅)
       (Some "approve") (NextStep.mk (Some "approve") "A") = true.
Proof.
  split.
  - exact (proj1 determineNextSteps_decision_branch_redundant).
  - apply (proj2 determineNextSteps_decision_branch_redundant). reflexivity.
Defined.

(** ** The engine: what each method does to the store *)

Module EngineFacts.
Import WorkflowEngine EngineSpec.

Lemma grows_refl w : grows w w.
Proof.
  split; try reflexivity. exists []. rewrite app_nil_r. simpl.
  repeat split; auto.
Qed.

Lemma grows_trans w1 w2 w3 : grows w1 w2 -> grows w2 w3 -> grows w1 w3.
Proof.
  intros [T1 U1 F1 (l1 & S1 & E1 & I1 & N1)] [T2 U2 F2 (l2 & S2 & E2 & I2 & N2)].
  split; try congruence.
  exists (l1 ++ l2). repeat split.
  - rewrite S2, S1. now rewrite <- app_assoc.
  - apply Forall_app; split; assumption.
  - rewrite map_app, length_app, seq_app, I1, I2, N1. reflexivity.
  - rewrite N2, N1, length_app. lia.
Qed.

(** [createStepInstance] always returns: the history row has a performer and
    the notification is sent under [try]. *)
Lemma createStepInstance_run now p sd u w :
  let si := buildStepInstance now p sd u (nextStepInstanceId w) in
  createStepInstance now p sd u w
  = (Ok si,
     mkWorld (processes w) (templates w) (steps w ++ [si])
       (history w ++ [createdHistory p si u])
       (notifications w ++ createdNotices si sd w)
       (users w) (S (nextStepInstanceId w)) (notificationFails w)).
Proof.
  intros si. unfold createStepInstance, bind, Db.newStepInstanceId, Db.insertStep,
    Db.createHistory, ret, createdNotices, sendTaskNotification, tryCatch,
    Db.createNotification.
  cbn -[buildStepInstance]. fold si.
  destruct (StepDef.type sd); cbn -[buildStepInstance];
    try (rewrite app_nil_r; reflexivity).
  destruct (StepInstance.assignedTo si) as [a|]; cbn -[buildStepInstance];
    try (rewrite app_nil_r; reflexivity).
  destruct (notificationFails w (taskAssignedNotice si a)); cbn -[buildStepInstance];
    try (rewrite app_nil_r; reflexivity).
  reflexivity.
Qed.

Lemma buildStepInstance_fresh now p sd u id :
  StepInstance.escalated (buildStepInstance now p sd u id) = false
  /\ StepInstance.escalationLevel (buildStepInstance now p sd u id) = 0.
Proof. split; reflexivity. Qed.

Lemma createStepInstance_grows now p sd u w :
  grows w (snd (createStepInstance now p sd u w)).
Proof.
  rewrite createStepInstance_run. split; try reflexivity.
  eexists [_]. simpl. repeat split; auto. lia.
Qed.

Lemma createNext_loop now template u ids : forall p w,
  exists p' w',
    foldM ids (createNext now template u) p w = (Ok p', w')
    /\ p' = set_currentSteps (ProcessInstance.currentSteps p') p
    /\ processes w' = processes w
    /\ grows w w'.
Proof.
  induction ids as [|i ids IH]; intros p w.
  - exists p, w. split; [reflexivity|]. split; [now destruct p|].
    split; [reflexivity|apply grows_refl].
  - cbn [foldM]. unfold bind at 1. unfold createNext at 1.
    destruct (findTemplateStep template i) as [sd|].
    + unfold bind at 1.
      pose proof (createStepInstance_grows now p sd u w) as G1.
      rewrite createStepInstance_run in *. cbn [ret snd] in *.
      match goal with
      | |- context [foldM ids _ ?q ?v] =>
          destruct (IH q v) as (p' & w' & E & Hp & HP & G)
      end.
      exists p', w'. split; [exact E|]. split; [|split].
      * rewrite Hp. reflexivity.
      * exact HP.
      * eapply grows_trans; [exact G1|exact G].
    + cbn [ret]. apply IH.
Qed.

(** *** Lookups after a save *)

Lemma find_replace {A} (key : A -> nat) (k : nat) (p q : A) (l : list A) :
  key p = k ->
  List.find (fun x => (key x =? k)%nat) l = Some q ->
  List.find (fun x => (key x =? k)%nat)
            (map (fun x => if (key x =? key p)%nat then p else x) l) = Some p.
Proof.
  intros <-. induction l as [|x l IH]; simpl; [discriminate|].
  destruct (key x =? key p)%nat eqn:E.
  - intros _. now rewrite Nat.eqb_refl.
  - rewrite E. exact IH.
Qed.

Lemma find_app_found {A} (f : A -> bool) (l l' : list A) x :
  List.find f l = Some x -> List.find f (l ++ l') = Some x.
Proof.
  induction l as [|y l IH]; simpl; [discriminate|].
  destruct (f y); [trivial|exact IH].
Qed.

Lemma findProcess_saved p q w :
  Db.findProcess (ProcessInstance._id p) w = Some q ->
  Db.findProcess (ProcessInstance._id p) (snd (Db.saveProcess p w)) = Some p.
Proof. intros H. exact (find_replace ProcessInstance._id _ p q _ eq_refl H). Qed.

Lemma findStep_saved s q w :
  Db.findStep (StepInstance._id s) w = Some q ->
  Db.findStep (StepInstance._id s) (snd (Db.saveStep s w)) = Some s.
Proof. intros H. exact (find_replace StepInstance._id _ s q _ eq_refl H). Qed.

Lemma same_processes_find w w' id :
  processes w' = processes w -> Db.findProcess id w' = Db.findProcess id w.
Proof. intros G. unfold Db.findProcess. now rewrite G. Qed.

Lemma grows_findTemplate w w' id : grows w w' -> Db.findTemplate id w' = Db.findTemplate id w.
Proof. intros G. unfold Db.findTemplate. now rewrite (grows_templates _ _ G). Qed.

Lemma grows_findStep w w' id s :
  grows w w' -> Db.findStep id w = Some s -> Db.findStep id w' = Some s.
Proof.
  intros G H. destruct (grows_steps _ _ G) as (l & E & _).
  unfold Db.findStep. rewrite E. now apply find_app_found.
Qed.

Lemma findProcess_with_history id f w :
  Db.findProcess id (with_history f w) = Db.findProcess id w.
Proof. reflexivity. Qed.

Lemma findProcess_with_notifications id f w :
  Db.findProcess id (with_notifications f w) = Db.findProcess id w.
Proof. reflexivity. Qed.

(** *** [completeProcess] and the two branches of [processStepCompletion] *)

Lemma completionNotice_mark now p :
  completionNotice (markProcessCompleted now p) = completionNotice p.
Proof. reflexivity. Qed.

Lemma completeProcess_run now p u w :
  completeProcess now p u w
  = let w1 :=
      with_history
        (fun l => l ++ [ProcessHistory.mk (ProcessInstance._id p) None process_completed u
                          (Some "active") (Some "completed")])
        (with_processes (map (Db.replaceProcess (markProcessCompleted now p))) w) in
    if notificationFails w (completionNotice p)
    then (Throw WriteError, w1)
    else (Ok tt, with_notifications (fun l => l ++ [completionNotice p]) w1).
Proof.
  unfold completeProcess, bind, Db.saveProcess, Db.createHistory, Db.createNotification.
  cbn. rewrite completionNotice_mark.
  destruct (notificationFails w (completionNotice p)); reflexivity.
Qed.

Lemma set_currentSteps_fields cs p :
  ProcessInstance._id (set_currentSteps cs p) = ProcessInstance._id p
  /\ ProcessInstance.status (set_currentSteps cs p) = ProcessInstance.status p
  /\ ProcessInstance.endDate (set_currentSteps cs p) = ProcessInstance.endDate p
  /\ ProcessInstance.initiatedBy (set_currentSteps cs p) = ProcessInstance.initiatedBy p
  /\ ProcessInstance.name (set_currentSteps cs p) = ProcessInstance.name p.
Proof. repeat split. Qed.

Section ProcessStepCompletion.
Variables (now : Date) (si : StepInstance.t) (p p0 : ProcessInstance.t) (u : UserId).
Variables (w : World) (template : ProcessTemplate.t) (sd : StepDef.t).
Hypothesis Htemplate :
  Db.findTemplate (ProcessInstance.processTemplateId p) w = Some template.
Hypothesis HtemplateStep :
  findTemplateStep template (StepInstance.stepId si) = Some sd.
Hypothesis Hstored : Db.findProcess (ProcessInstance._id p) w = Some p0.

Local Abbreviation nextStepIds :=
  (Routing.determineNextSteps sd si (StepInstance.variables si !! "decision")).
Local Abbreviation r := (processStepCompletion now si p u w).

Lemma processStepCompletion_unfold :
  r = match foldM nextStepIds (createNext now template u)
              (set_currentSteps
                 (map JsString.trim
                    (List.filter
                       (fun stepId => negb (stepId =? StepInstance.stepId si)%string)
                       (ProcessInstance.currentSteps p))) p) w with
      | (Ok p1, w1) =>
          if reachesEnd template nextStepIds
          then completeProcess now p1 u w1
          else bind (updateCompletionPercentage p1) Db.saveProcess w1
      | (Throw e, w1) => (Throw e, w1)
      end.
Proof.
  unfold processStepCompletion.
  rewrite Htemplate, HtemplateStep. unfold bind at 1.
  destruct (foldM _ _ _ w) as [[p1|e] w1]; [|reflexivity].
  destruct (reachesEnd template nextStepIds); reflexivity.
Qed.



End ProcessStepCompletion.

(** *** Every engine method only appends steps *)

Lemma grows_of_fields w w' :
  templates w' = templates w -> users w' = users w ->
  notificationFails w' = notificationFails w -> steps w' = steps w ->
  nextStepInstanceId w' = nextStepInstanceId w -> grows w w'.
Proof.
  intros T U F S N. split; try assumption.
  exists []. rewrite app_nil_r. simpl. repeat split; auto. lia.
Qed.

Lemma saveProcess_grows p w : grows w (snd (Db.saveProcess p w)).
Proof. apply grows_of_fields; reflexivity. Qed.

Lemma createHistory_grows pid sid a by_ f t w :
  grows w (snd (Db.createHistory pid sid a by_ f t w)).
Proof. destruct by_; apply grows_of_fields; reflexivity. Qed.

Lemma createNotification_grows n w : grows w (snd (Db.createNotification n w)).
Proof.
  unfold Db.createNotification.
  destruct (notificationFails w n); apply grows_of_fields; reflexivity.
Qed.

Lemma completeProcess_grows now p u w : grows w (snd (completeProcess now p u w)).
Proof.
  rewrite completeProcess_run. cbv zeta.
  destruct (notificationFails w (completionNotice p)); apply grows_of_fields; reflexivity.
Qed.

Lemma processStepCompletion_grows now si p u w :
  grows w (snd (processStepCompletion now si p u w)).
Proof.
  unfold processStepCompletion.
  destruct (Db.findTemplate _ w) as [template|]; [|apply grows_refl].
  destruct (findTemplateStep template _) as [sd|]; [|apply grows_refl].
  unfold bind at 1.
  match goal with
  | |- context [foldM ?ids _ ?q w] =>
      destruct (createNext_loop now template u ids q w) as (p1 & w1 & E & _ & _ & G)
  end.
  rewrite E. eapply grows_trans; [exact G|].
  destruct (reachesEnd template _); [apply completeProcess_grows|].
  apply grows_of_fields; reflexivity.
Qed.

End EngineFacts.

(** ** Starting a process *)




(** ** Completing a step *)

Section CompleteStep.
Import WorkflowEngine.
Variables (now : Date) (id : StepInstanceId) (formData : gmap string string).
Variables (decision : option string) (w : World).
Variables (si : StepInstance.t) (p : ProcessInstance.t) (template : ProcessTemplate.t).
Hypothesis Hstep : Db.findStep id w = Some si.
Hypothesis Hprocess : Db.findProcess (StepInstance.processInstanceId si) w = Some p.
Hypothesis Htemplate :
  Db.findTemplate (ProcessInstance.processTemplateId p) w = Some template.


Local Abbreviation saved actor :=
  (EngineSpec.afterSave now id formData decision w si p actor).



End CompleteStep.




(** ** Completing the process or recomputing the percentage *)

Module PercentageFacts.
Import EngineSpec.




End PercentageFacts.




(** ** Escalation: what the three scans do to the store *)

Module EscalationFacts.
Import WorkflowEngine SchedulerService EscalationSpec.

Lemma notify_nil w : notify [] w = w.
Proof. destruct w. unfold notify, with_notifications. cbn. now rewrite app_nil_r. Qed.

Lemma notify_notify a b w : notify b (notify a w) = notify (a ++ b) w.
Proof. unfold notify, with_notifications. cbn. now rewrite app_assoc. Qed.

Lemma saved_notify s ns w : saved s (notify ns w) = notify ns (saved s w).
Proof. reflexivity. Qed.

Lemma saveAll_notify upd ts : forall ns w,
  saveAll upd ts (notify ns w) = notify ns (saveAll upd ts w).
Proof.
  induction ts as [|t ts IH]; intros ns w; [reflexivity|].
  cbn. rewrite saved_notify. apply IH.
Qed.

Lemma sinkOk_notify ns w : sinkOk (notify ns w) <-> sinkOk w.
Proof. reflexivity. Qed.

Lemma sinkOk_saved s w : sinkOk (saved s w) <-> sinkOk w.
Proof. reflexivity. Qed.

(** *** The loop of a scan whose body saves one step and then notifies *)

Section ScanLoop.
Context {T : Type} (task : T -> StepInstance.t).
Variable upd : StepInstance.t -> StepInstance.t.
Variable notices : list User.t -> T -> list Notification.t.
Variable body : T -> M unit.
Hypothesis body_run : forall t w,
  exists ns, body t w = (Ok tt, notify ns (saved (upd (task t)) w))
             /\ (sinkOk w -> ns = notices (users w) t).

Lemma scan_loop ts : forall w,
  exists ns, forEach ts body w = (Ok tt, notify ns (saveAll upd (map task ts) w))
             /\ (sinkOk w -> ns = flat_map (notices (users w)) ts).
Proof.
  induction ts as [|t ts IH]; intros w.
  - exists []. rewrite notify_nil. split; reflexivity.
  - cbn [forEach]. unfold bind.
    destruct (body_run t w) as (n1 & E1 & H1). rewrite E1.
    destruct (IH (notify n1 (saved (upd (task t)) w))) as (n2 & E2 & H2). rewrite E2.
    exists (n1 ++ n2). split.
    + cbn [map saveAll fold_left]. fold (saveAll upd (map task ts)).
      now rewrite saveAll_notify, notify_notify.
    + intros Hok. cbn [flat_map]. rewrite (H1 Hok), (H2 Hok). reflexivity.
Qed.
End ScanLoop.

(** *** Saving along a snapshot of distinct documents *)

Lemma steps_saveAll upd ts : forall w,
  steps (saveAll upd ts w)
  = fold_left (fun st t => map (Db.replaceStep (upd t)) st) ts (steps w).
Proof.
  unfold saveAll. induction ts as [|t ts IH]; intros w; [reflexivity|].
  cbn [fold_left]. now rewrite IH.
Qed.

Lemma NoDup_ids_eq (st : list StepInstance.t) a b :
  List.NoDup (map StepInstance._id st) -> In a st -> In b st ->
  StepInstance._id a = StepInstance._id b -> a = b.
Proof.
  induction st as [|x st IH]; [contradiction|]. cbn.
  intros Hnd [->|Ha] [->|Hb] E; inversion Hnd as [|? ? Hx Hnd']; subst.
  - reflexivity.
  - exfalso. apply Hx. rewrite E. now apply in_map.
  - exfalso. apply Hx. rewrite <- E. now apply in_map.
  - now apply IH.
Qed.

(** With distinct ids, saving the update of every selected document of the
    store is updating each of them in place. *)
Lemma saveAll_selected upd sel st :
  (forall t, StepInstance._id (upd t) = StepInstance._id t) ->
  List.NoDup (map StepInstance._id st) ->
  fold_left (fun st t => map (Db.replaceStep (upd t)) st) (List.filter sel st) st
  = map (fun s => if sel s then upd s else s) st.
Proof.
  intros Hid Hnd.
  assert (G : forall ts cur,
             List.NoDup (map StepInstance._id ts) ->
             List.NoDup (map StepInstance._id cur) ->
             (forall t, In t ts -> In t cur) ->
             fold_left (fun st t => map (Db.replaceStep (upd t)) st) ts cur
             = map (fun s => if existsb (sameId s) ts then upd s else s) cur).
  { induction ts as [|t ts IH]; intros cur Nts Ncur Hsub.
    - cbn. now rewrite map_id.
    - cbn [fold_left]. inversion Nts as [|? ? Ht Nts']; subst.
      rewrite IH.
      + rewrite map_map. apply map_ext_in. intros s Hs.
        cbn [existsb].
        assert (R : Db.replaceStep (upd t) s
                    = if (StepInstance._id s =? StepInstance._id t)%nat then upd t else s).
        { unfold Db.replaceStep. now rewrite Hid. }
        rewrite R. change (sameId s t) with (StepInstance._id s =? StepInstance._id t)%nat.
        destruct (Nat.eqb_spec (StepInstance._id s) (StepInstance._id t)) as [E|NE];
          cbn [orb]; [|reflexivity].
        assert (s = t) as ->.
        { apply (NoDup_ids_eq cur); auto. apply Hsub. now left. }
        destruct (existsb (sameId (upd t)) ts) eqn:Hex; [|reflexivity].
        exfalso. apply existsb_exists in Hex as (y & Hy & Hyid).
        apply Ht. apply in_map_iff. exists y. split; [|exact Hy].
        unfold sameId in Hyid. apply Nat.eqb_eq in Hyid. now rewrite <- Hyid, Hid.
      + exact Nts'.
      + rewrite map_map.
        erewrite map_ext; [exact Ncur|].
        intros s. unfold Db.replaceStep. rewrite Hid.
        destruct (Nat.eqb_spec (StepInstance._id s) (StepInstance._id t)) as [E|_];
          [now rewrite Hid|reflexivity].
      + intros t' Ht'. apply in_map_iff. exists t'. split; [|apply Hsub; now right].
        unfold Db.replaceStep. rewrite Hid.
        destruct (Nat.eqb_spec (StepInstance._id t') (StepInstance._id t)) as [E|_];
          [|reflexivity].
        exfalso. apply Ht. rewrite <- E. now apply in_map. }
  rewrite G.
  - apply map_ext_in. intros s Hs.
    destruct (sel s) eqn:Hsel.
    + assert (existsb (sameId s) (List.filter sel st) = true) as ->; [|reflexivity].
      apply existsb_exists. exists s. split; [now apply filter_In|apply Nat.eqb_refl].
    + destruct (existsb (sameId s) (List.filter sel st)) eqn:Hex; [|reflexivity].
      exfalso. apply existsb_exists in Hex as (y & Hy & Hyid).
      apply filter_In in Hy as [Hy Hysel].
      unfold sameId in Hyid. apply Nat.eqb_eq in Hyid.
      assert (s = y) by (apply (NoDup_ids_eq st); auto). congruence.
  - clear -Hnd. induction st as [|x st IH]; cbn; [constructor|].
    inversion Hnd as [|? ? Hx Hnd']; subst.
    destruct (sel x); cbn; [constructor|]; auto.
    intros Hin. apply Hx. apply in_map_iff in Hin as (y & Hy & Hyin).
    apply in_map_iff. exists y. split; [exact Hy|]. now apply filter_In in Hyin as [? _].
  - exact Hnd.
  - intros t Ht. now apply filter_In in Ht as [? _].
Qed.

End EscalationFacts.

Module ScanFacts.
Import WorkflowEngine SchedulerService EscalationSpec EscalationFacts.

Lemma raised_id s : StepInstance._id (raised s) = StepInstance._id s.
Proof. reflexivity. Qed.

Lemma set_escalated_id b s : StepInstance._id (set_escalated b s) = StepInstance._id s.
Proof. reflexivity. Qed.

(** *** The cascade *)

Lemma service_createNotification n w :
  (Notification.title n =? "")%string || (Notification.message n =? "")%string = false ->
  NotificationService.createNotification n w = Db.createNotification n w.
Proof. intros H. unfold NotificationService.createNotification. now rewrite H. Qed.

Lemma createNotification_run n w :
  Db.createNotification n w
  = if notificationFails w n then (Throw WriteError, w) else (Ok tt, notify [n] w).
Proof. reflexivity. Qed.

Lemma notifyTarget_loop lvl t targets : forall w,
  exists ns r,
    forEach targets (notifyTarget lvl t) w = (r, notify ns w)
    /\ (sinkOk w ->
        ns = match processInstance t with
             | Some p => map (escalationNotice lvl (task t) p) targets
             | None => []
             end).
Proof.
  unfold notifyTarget. destruct (processInstance t) as [p|].
  - induction targets as [|target targets IH]; intros w.
    + exists [], (Ok tt). rewrite notify_nil. split; reflexivity.
    + cbn [forEach]. unfold bind.
      rewrite service_createNotification by reflexivity.
      rewrite createNotification_run.
      destruct (notificationFails w (escalationNotice lvl (task t) p target)) eqn:F.
      * exists [], (Throw WriteError). rewrite notify_nil. split; [reflexivity|].
        intros Hok. rewrite Hok in F. discriminate.
      * destruct (IH (notify [escalationNotice lvl (task t) p target] w))
          as (ns & r & E & H).
        rewrite E. exists (escalationNotice lvl (task t) p target :: ns), r.
        rewrite notify_notify. split; [reflexivity|].
        intros Hok. cbn [map]. now rewrite (H Hok).
  - intros w. destruct targets as [|target targets].
    + exists [], (Ok tt). rewrite notify_nil. split; reflexivity.
    + exists [], (Throw TypeError). rewrite notify_nil. split; reflexivity.
Qed.

Lemma escalateOne_run t w :
  exists ns,
    escalateOne t w = (Ok tt, notify ns (saved (raised (task t)) w))
    /\ (sinkOk w -> ns = cascadeNotices (users w) t).
Proof.
  unfold escalateOne, tryCatch, bind, Db.saveStep. cbn zeta.
  fold (saved (raised (task t)) w).
  destruct (notifyTarget_loop (StepInstance.escalationLevel (task t) + 1) t
              (List.filter isEscalationTarget (users (saved (raised (task t)) w)))
              (saved (raised (task t)) w)) as (ns & r & E & H).
  rewrite E. exists ns. split.
  - destruct r as [[]|e]; reflexivity.
  - intros Hok. exact (H Hok).
Qed.

Lemma with_steps_id w : with_steps (fun l => l) w = w.
Proof. now destruct w. Qed.

(** [processTaskEscalations] always returns; it saves the raised level of
    every selected step and, when every write is accepted, sends the
    escalation notice of each selected step to each target; it writes
    nothing else. *)
Lemma processTaskEscalations_run now w :
  let sel := List.filter (needsEscalation (now - 2 * 60 * 60 * 1000)) (steps w) in
  exists ns,
    processTaskEscalations now w = (Ok tt, notify ns (saveAll raised sel w))
    /\ (sinkOk w -> ns = flat_map (cascadeNotices (users w)) (map (populate w) sel)).
Proof.
  intros sel. unfold processTaskEscalations. cbv zeta. fold sel.
  destruct (scan_loop task raised cascadeNotices escalateOne escalateOne_run
              (map (populate w) sel) w) as (ns & E & H).
  rewrite map_map in E. cbn [task populate] in E. rewrite map_id in E.
  destruct sel as [|s sel'] eqn:Hsel.
  - exists []. rewrite notify_nil. split; reflexivity.
  - exists ns. split; [exact E|exact H].
Qed.

(** *** The overdue check *)

Lemma markOverdue_run t w :
  exists ns,
    markOverdue t w = (Ok tt, notify ns (saved (set_escalated true (task t)) w))
    /\ (sinkOk w -> ns = overdueNotices (users w) t).
Proof.
  unfold markOverdue, tryCatch, bind, Db.saveStep, overdueNotices.
  fold (saved (set_escalated true (task t)) w).
  destruct (assignedTo t) as [u|].
  - destruct (processInstance t) as [p|].
    + rewrite service_createNotification by reflexivity.
      rewrite createNotification_run.
      destruct (notificationFails _ (overdueNotice (task t) u p)) eqn:F.
      * exists []. rewrite notify_nil. split; [reflexivity|].
        intros Hok. exfalso. revert F.
        change (notificationFails w (overdueNotice (task t) u p) = true -> False).
        rewrite Hok. discriminate.
      * exists [overdueNotice (task t) u p]. split; reflexivity.
    + exists []. rewrite notify_nil. split; reflexivity.
  - exists []. rewrite notify_nil. split; reflexivity.
Qed.

Lemma checkOverdueTasks_run now w :
  let sel := List.filter (overdueUnescalated now) (steps w) in
  exists ns,
    checkOverdueTasks now w = (Ok tt, notify ns (saveAll (set_escalated true) sel w)).
Proof.
  intros sel. unfold checkOverdueTasks. cbv zeta. fold sel.
  destruct (scan_loop task (set_escalated true) overdueNotices markOverdue markOverdue_run
              (map (populate w) sel) w) as (ns & E & _).
  rewrite map_map in E. cbn [task populate] in E. rewrite map_id in E.
  destruct sel as [|s sel'] eqn:Hsel.
  - exists []. rewrite notify_nil. reflexivity.
  - exists ns. exact E.
Qed.

(** *** The engine's scan *)

Lemma forEach_noop {A} (body : A -> M unit) (xs : list A) w :
  (forall x, body x w = (Ok tt, w)) -> forEach xs body w = (Ok tt, w).
Proof.
  intros H. induction xs as [|x xs IH]; [reflexivity|].
  cbn [forEach]. unfold bind. now rewrite H.
Qed.

Lemma escalateTask_run now task process w :
  escalateTask now task process w
  = match List.filter isEscalationTarget (users w) with
    | target :: _ =>
        (Throw (match process with
                | Some _ => MongooseValidationError "performedBy"
                | None => TypeError
                end),
         saved (escalateTo now target task) w)
    | [] => (Ok tt, w)
    end.
Proof.
  unfold escalateTask.
  destruct (List.filter isEscalationTarget (users w)) as [|target targets]; [reflexivity|].
  cbn [firstn]. now destruct process.
Qed.

(** [escalateOverdueTasks] never throws.  With no escalation target it does
    nothing.  Otherwise it saves the escalation of the first selected task
    and then leaves the loop: the history row it goes on to create has no
    [performedBy] and is rejected, and the rejection is caught by the outer
    [catch].  No history row and no notification is written. *)
Lemma escalateOverdueTasks_run now w :
  escalateOverdueTasks now w
  = (Ok tt,
     match List.filter (overdueUnescalated now) (steps w),
           List.filter isEscalationTarget (users w) with
     | task :: _, target :: _ => saved (escalateTo now target task) w
     | _, _ => w
     end).
Proof.
  unfold escalateOverdueTasks, tryCatch.
  destruct (List.filter isEscalationTarget (users w)) as [|target targets] eqn:Htargets.
  - rewrite forEach_noop.
    + now destruct (List.filter (overdueUnescalated now) (steps w)).
    + intros x. now rewrite escalateTask_run, Htargets.
  - destruct (List.filter (overdueUnescalated now) (steps w)) as [|task tasks];
      [reflexivity|].
    cbn [map forEach fst snd]. unfold bind.
    now rewrite escalateTask_run, Htargets.
Qed.

(** The [escalated] guard: a run leaves every step that is already
    escalated exactly as it was. *)
Lemma escalateOverdueTasks_keeps_escalated now w i s :
  List.NoDup (map StepInstance._id (steps w)) ->
  nth_error (steps w) i = Some s -> StepInstance.escalated s = true ->
  nth_error (steps (snd (escalateOverdueTasks now w))) i = Some s.
Proof.
  intros Hnd Hs He. rewrite escalateOverdueTasks_run. cbn [snd].
  destruct (List.filter (overdueUnescalated now) (steps w)) as [|task tasks] eqn:Hsel;
    [exact Hs|].
  destruct (List.filter isEscalationTarget (users w)) as [|target targets]; [exact Hs|].
  assert (Htask : In task (steps w) /\ overdueUnescalated now task = true).
  { apply filter_In. rewrite Hsel. now left. }
  destruct Htask as [Hin Hov].
  change (steps (saved ?x w)) with (map (Db.replaceStep x) (steps w)).
  rewrite nth_error_map, Hs. cbn [option_map]. f_equal.
  unfold Db.replaceStep.
  change (StepInstance._id (escalateTo now target task)) with (StepInstance._id task).
  destruct (Nat.eqb_spec (StepInstance._id s) (StepInstance._id task)) as [E|_];
    [|reflexivity].
  assert (s = task) as -> by (apply (NoDup_ids_eq (steps w)); eauto using nth_error_In).
  unfold overdueUnescalated in Hov. rewrite He, andb_false_r in Hov. discriminate.
Qed.

(** What a run does escalate: the first overdue, unescalated step of the
    collection, when there is an escalation target. *)
Lemma escalateOverdueTasks_first_only now w task tasks target targets :
  List.filter (overdueUnescalated now) (steps w) = task :: tasks ->
  List.filter isEscalationTarget (users w) = target :: targets ->
  let w' := snd (escalateOverdueTasks now w) in
  steps w' = map (Db.replaceStep (escalateTo now target task)) (steps w)
  /\ StepInstance.escalated (escalateTo now target task) = true
  /\ StepInstance.escalationLevel (escalateTo now target task) = 1
  /\ history w' = history w
  /\ notifications w' = notifications w.
Proof.
  intros Hsel Htargets. cbv zeta. rewrite escalateOverdueTasks_run, Hsel, Htargets.
  repeat split.
Qed.

End ScanFacts.

(** ** The escalation level as an invariant of the running system *)

Module EscalationInvariant.
Import WorkflowEngine SchedulerService EscalationSpec EscalationSystem EscalationFacts ScanFacts.

Lemma keeps_refl w : Inv w -> keeps w w.
Proof. intros H. split; [exact H|]. intros i s Hs. exists s. split; [exact Hs|]. split; [reflexivity|lia]. Qed.

Lemma levelsGrow_trans w1 w2 w3 : levelsGrow w1 w2 -> levelsGrow w2 w3 -> levelsGrow w1 w3.
Proof.
  intros H1 H2 i s Hs.
  destruct (H1 i s Hs) as (s1 & Hs1 & I1 & L1).
  destruct (H2 i s1 Hs1) as (s2 & Hs2 & I2 & L2).
  exists s2. split; [exact Hs2|]. split; [congruence|lia].
Qed.

(** An update in place that keeps ids and goodness and never lowers a level. *)
Lemma keeps_map (g : StepInstance.t -> StepInstance.t) w w' :
  steps w' = map g (steps w) ->
  nextStepInstanceId w' = nextStepInstanceId w ->
  (forall s, In s (steps w) -> good s ->
             StepInstance._id (g s) = StepInstance._id s
             /\ good (g s)
             /\ StepInstance.escalationLevel s <= StepInstance.escalationLevel (g s)) ->
  Inv w -> keeps w w'.
Proof.
  intros Hsteps Hnext Hg [[Hnd Hlt] Hgood].
  rewrite List.Forall_forall in Hlt, Hgood.
  assert (Hids : map StepInstance._id (map g (steps w)) = map StepInstance._id (steps w)).
  { rewrite map_map. apply map_ext_in. intros s Hs. now apply Hg; [|apply Hgood]. }
  split; [split; [split|]|].
  - now rewrite Hsteps, Hids.
  - rewrite Hsteps, Hnext. apply List.Forall_forall. intros s' Hs'.
    apply in_map_iff in Hs' as (s & <- & Hs).
    destruct (Hg s Hs (Hgood s Hs)) as (-> & _). now apply Hlt.
  - rewrite Hsteps. apply List.Forall_forall. intros s' Hs'.
    apply in_map_iff in Hs' as (s & <- & Hs). now apply Hg; [|apply Hgood].
  - intros i s Hs. exists (g s). rewrite Hsteps, nth_error_map, Hs.
    split; [reflexivity|]. apply nth_error_In in Hs.
    destruct (Hg s Hs (Hgood s Hs)) as (? & _ & ?). now split.
Qed.

(** Newly created steps at the end. *)
Lemma keeps_grows w w' : EngineSpec.grows w w' -> Inv w -> keeps w w'.
Proof.
  intros [_ _ _ (l & Hsteps & Hfresh & Hids & Hnext)] [[Hnd Hlt] Hgood].
  rewrite List.Forall_forall in Hlt.
  split; [split; [split|]|].
  - rewrite Hsteps, map_app, Hids. apply List.NoDup_app; [exact Hnd|apply seq_NoDup|].
    intros x Hx Hx'. apply in_seq in Hx'. apply in_map_iff in Hx as (s & <- & Hs).
    apply Hlt in Hs. lia.
  - rewrite Hsteps, Hnext. apply List.Forall_app. split.
    + apply List.Forall_forall. intros s Hs. apply Hlt in Hs. lia.
    + apply List.Forall_forall. intros s Hs.
      assert (Hin : In (StepInstance._id s) (map StepInstance._id l)) by now apply in_map.
      rewrite Hids in Hin. apply in_seq in Hin. lia.
  - rewrite Hsteps. apply List.Forall_app. split; [exact Hgood|].
    eapply List.Forall_impl; [|exact Hfresh]. intros s [He Hl]. unfold good. rewrite Hl.
    split; [lia|reflexivity].
  - intros i s Hs. exists s. rewrite Hsteps, nth_error_app1.
    + split; [exact Hs|]. split; [reflexivity|lia].
    + apply nth_error_Some. congruence.
Qed.

Lemma keeps_trans w1 w2 w3 : keeps w1 w2 -> (Inv w2 -> keeps w2 w3) -> keeps w1 w3.
Proof.
  intros [I2 L2] H. destruct (H I2) as [I3 L3].
  split; [exact I3|]. eapply levelsGrow_trans; eassumption.
Qed.

Lemma nextId_saveAll upd ts : forall w,
  nextStepInstanceId (saveAll upd ts w) = nextStepInstanceId w.
Proof.
  unfold saveAll. induction ts as [|t ts IH]; intros w; [reflexivity|].
  cbn [fold_left]. now rewrite IH.
Qed.

Lemma overdueUnescalated_flag now s :
  overdueUnescalated now s = true -> StepInstance.escalated s = false.
Proof.
  unfold overdueUnescalated. intros H. apply andb_true_iff in H as [_ H].
  now destruct (StepInstance.escalated s).
Qed.

Lemma needsEscalation_flag thr s :
  needsEscalation thr s = true ->
  StepInstance.escalated s = true /\ StepInstance.escalationLevel s < 3.
Proof.
  unfold needsEscalation. intros H.
  apply andb_true_iff in H as [H Hl]. apply andb_true_iff in H as [_ He].
  split; [exact He|]. now apply Z.ltb_lt.
Qed.

Lemma keeps_engineScan now w : Inv w -> keeps w (run (EngineScan now) w).
Proof.
  intros HI. unfold run. rewrite escalateOverdueTasks_run. cbn [snd].
  destruct (List.filter (overdueUnescalated now) (steps w)) as [|task tasks] eqn:Hsel;
    [now apply keeps_refl|].
  destruct (List.filter isEscalationTarget (users w)) as [|target targets];
    [now apply keeps_refl|].
  assert (Htask : In task (steps w) /\ overdueUnescalated now task = true).
  { apply filter_In. rewrite Hsel. now left. }
  destruct Htask as [Hin Hov].
  apply (keeps_map (Db.replaceStep (escalateTo now target task))); try reflexivity; [|exact HI].
  intros s Hs Hgood. unfold Db.replaceStep.
  change (StepInstance._id (escalateTo now target task)) with (StepInstance._id task).
  destruct (Nat.eqb_spec (StepInstance._id s) (StepInstance._id task)) as [E|_].
  - assert (s = task) as -> by (apply (NoDup_ids_eq (steps w)); auto; apply HI).
    split; [reflexivity|]. split.
    + split; cbn; [lia|discriminate].
    + cbn. destruct Hgood as [_ Hz]. rewrite (Hz (overdueUnescalated_flag _ _ Hov)). lia.
  - split; [reflexivity|]. split; [exact Hgood|lia].
Qed.

Lemma keeps_overdueCheck now w : Inv w -> keeps w (run (OverdueCheck now) w).
Proof.
  intros HI. unfold run.
  destruct (checkOverdueTasks_run now w) as (ns & E). rewrite E. cbn [snd].
  apply (keeps_map (fun s => if overdueUnescalated now s then set_escalated true s else s));
    [| |clear E|exact HI].
  - change (steps (notify ns ?v)) with (steps v).
    rewrite steps_saveAll. apply saveAll_selected; [reflexivity|apply HI].
  - change (nextStepInstanceId (notify ns ?v)) with (nextStepInstanceId v).
    apply nextId_saveAll.
  - intros s Hs [Hrange Hz].
    destruct (overdueUnescalated now s); [|split; [reflexivity|split; [now split|lia]]].
    split; [reflexivity|]. split; [|cbn; lia].
    split; [exact Hrange|discriminate].
Qed.

Lemma keeps_cascade now w : Inv w -> keeps w (run (Cascade now) w).
Proof.
  intros HI. unfold run.
  destruct (processTaskEscalations_run now w) as (ns & E & _). rewrite E. cbn [snd].
  apply (keeps_map (fun s => if needsEscalation (now - 2 * 60 * 60 * 1000) s
                             then raised s else s));
    [| |clear E|exact HI].
  - change (steps (notify ns ?v)) with (steps v).
    rewrite steps_saveAll. apply saveAll_selected; [reflexivity|apply HI].
  - change (nextStepInstanceId (notify ns ?v)) with (nextStepInstanceId v).
    apply nextId_saveAll.
  - intros s Hs [Hrange Hz].
    destruct (needsEscalation _ s) eqn:Hsel; [|split; [reflexivity|split; [now split|lia]]].
    apply needsEscalation_flag in Hsel as [He Hl].
    split; [reflexivity|]. split; [|cbn; lia].
    split; cbn; [lia|]. rewrite He. discriminate.
Qed.

Lemma startProcess_grows now pid u w :
  EngineSpec.grows w (snd (startProcess now pid u w)).
Proof.
  unfold startProcess.
  destruct (Db.findProcess pid w) as [p|]; [|apply EngineFacts.grows_refl].
  destruct (negb _); [apply EngineFacts.grows_refl|].
  destruct (Db.findTemplate _ w) as [template|]; [|apply EngineFacts.grows_refl].
  destruct (findTemplateStep template _) as [sd|]; [|apply EngineFacts.grows_refl].
  unfold bind at 1.
  pose proof (EngineFacts.createStepInstance_grows now (markStarted now p) sd u w) as G.
  rewrite EngineFacts.createStepInstance_run in *. cbn [snd] in G.
  eapply EngineFacts.grows_trans; [exact G|].
  apply EngineFacts.grows_of_fields; reflexivity.
Qed.

Lemma keeps_start now pid u w : Inv w -> keeps w (run (Start now pid u) w).
Proof. intros HI. apply keeps_grows; [apply startProcess_grows|exact HI]. Qed.

(** [completeStep] either leaves the store alone or saves the completed
    step and, after that, only appends newly created steps. *)
Lemma completeStep_steps now id u fd d w :
  let w' := snd (completeStep now id u fd d w) in
  w' = w
  \/ exists si w1,
      In si (steps w)
      /\ steps w1 = map (Db.replaceStep (markCompleted now u fd d si)) (steps w)
      /\ nextStepInstanceId w1 = nextStepInstanceId w
      /\ EngineSpec.grows w1 w'.
Proof.
  cbv zeta. unfold completeStep.
  destruct (Db.findStep id w) as [si|] eqn:Hsi; [|now left].
  destruct (Db.findProcess _ w) as [p|]; [|now left].
  destruct (Db.findTemplate _ w) as [template|]; [|now left].
  destruct (negb _); [now left|].
  right. exists si.
  set (si' := markCompleted now u fd d si).
  set (w1 := with_history
               (fun l => l ++ [ProcessHistory.mk (ProcessInstance._id p)
                                 (Some (StepInstance._id si')) step_completed u
                                 (Some "in_progress") (Some "completed")])
               (with_steps (map (Db.replaceStep si')) w)).
  exists w1. split; [now apply find_some in Hsi as [? _]|].
  split; [reflexivity|]. split; [reflexivity|].
  unfold bind, Db.saveStep, Db.createHistory. fold w1.
  destruct (findTemplateStep template _) as [sd|]; [|apply EngineFacts.grows_refl].
  pose proof (EngineFacts.processStepCompletion_grows now si' p u w1) as G.
  destruct (processStepCompletion now si' p u w1) as [[[]|e] w2]; exact G.
Qed.

Lemma keeps_complete now id u fd d w : Inv w -> keeps w (run (Complete now id u fd d) w).
Proof.
  intros HI. unfold run.
  destruct (completeStep_steps now id u fd d w) as [->|(si & w1 & Hin & Hsteps & Hnext & G)];
    [now apply keeps_refl|].
  apply (keeps_trans w w1).
  - apply (keeps_map (Db.replaceStep (markCompleted now u fd d si))); auto.
    intros s Hs Hgood. unfold Db.replaceStep.
    change (StepInstance._id (markCompleted now u fd d si)) with (StepInstance._id si).
    destruct (Nat.eqb_spec (StepInstance._id s) (StepInstance._id si)) as [E|_].
    + assert (s = si) as -> by (apply (NoDup_ids_eq (steps w)); auto; apply HI).
      split; [reflexivity|]. split; [exact Hgood|cbn; lia].
    + split; [reflexivity|]. split; [exact Hgood|lia].
  - intros HI1. now apply keeps_grows.
Qed.

Lemma keeps_run o w : Inv w -> keeps w (run o w).
Proof.
  destruct o.
  - apply keeps_engineScan.
  - apply keeps_overdueCheck.
  - apply keeps_cascade.
  - apply keeps_start.
  - apply keeps_complete.
Qed.

Lemma reachable_Inv w : reachable w -> Inv w.
Proof.
  induction 1 as [w Hids Hfresh|w o _ IH].
  - split; [exact Hids|].
    eapply List.Forall_impl; [|exact Hfresh]. intros s [He Hl]. unfold good. rewrite Hl.
    split; [lia|reflexivity].
  - now apply keeps_run.
Qed.

End EscalationInvariant.

(** C5.  In every store reachable from newly created steps by any sequence
    of the engine's overdue scan, the scheduler's overdue check, the
    scheduler's escalation cascade and the engine's start and complete
    calls, every step has an escalation level between 0 and 3; and each of
    these operations leaves every step in its place with a level at least as
    high as before. *)
Theorem escalationLevel_monotone_and_capped :
  forall w, EscalationSystem.reachable w ->
    (forall s, In s (steps w) -> 0 <= StepInstance.escalationLevel s <= 3)
    /\ (forall o i s,
           nth_error (steps w) i = Some s ->
           exists s',
             nth_error (steps (EscalationSystem.run o w)) i = Some s'
             /\ StepInstance._id s' = StepInstance._id s
             /\ StepInstance.escalationLevel s <= StepInstance.escalationLevel s').
Proof.
  intros w Hw. pose proof (EscalationInvariant.reachable_Inv w Hw) as HI. split.
  - intros s Hs. destruct HI as [_ Hgood].
    rewrite List.Forall_forall in Hgood. now apply Hgood.
  - intros o. exact (proj2 (EscalationInvariant.keeps_run o w HI)).
Qed.

Lemma escalationLevel_monotone_and_capped_witness :
  let w := EscalationSystem.run (EscalationSystem.Cascade 10000000)
             (EscalationSystem.run (EscalationSystem.OverdueCheck 1000)
                EscalationScenario.twoOverdue) in
  List.Forall (fun s => 0 <= StepInstance.escalationLevel s <= 3) (steps w).
Proof.
  intros w. apply List.Forall_forall.
  assert (R : EscalationSystem.reachable EscalationScenario.twoOverdue).
  { apply EscalationSystem.reach_init.
    - split; cbn.
      + apply List.NoDup_cons; [cbn; lia|].
        apply List.NoDup_cons; [cbn; lia|apply List.NoDup_nil].
      + repeat apply List.Forall_cons; cbn; try lia. apply List.Forall_nil.
    - repeat apply List.Forall_cons; try (split; reflexivity). apply List.Forall_nil. }
  exact (proj1 (escalationLevel_monotone_and_capped w
                  (EscalationSystem.reach_step _ _ (EscalationSystem.reach_step _ _ R)))).
Defined.

(** The cap is a property of the scans.  The manual endpoint adds one to the
    level whatever it is: a step the cascade has brought to level 3 is stored
    with level 4 when a manager escalates it by hand, before the call ends in
    its ReferenceError. *)
Remark manual_escalateStep_is_not_capped :
  let cascade := fun w => snd (SchedulerService.processTaskEscalations 10000000 w) in
  let w3 := cascade (cascade (cascade EscalationScenario.escalatedOnce)) in
  let r := StepInstanceController.escalateStep 10000001 0%nat "a1" "still open" "m1" w3 in
  EscalationScenario.flags w3 = [(true, 3)]
  /\ fst r = Throw (ReferenceError "escalatedTo")
  /\ EscalationScenario.flags (snd r) = [(true, 4)].
Proof. cbv zeta. repeat split; vm_compute; reflexivity. Qed.

(** Nor does monotonicity survive a flag cleared by hand: the engine's scan
    then sets the level of a level-3 step back to 1. *)
Remark manual_reset_lets_the_scan_lower_the_level :
  let cascade := fun w => snd (SchedulerService.processTaskEscalations 10000000 w) in
  let w3 := EscalationScenario.reset 0%nat (cascade (cascade EscalationScenario.escalatedOnce)) in
  EscalationScenario.flags w3 = [(false, 3)]
  /\ EscalationScenario.flags (snd (WorkflowEngine.escalateOverdueTasks 10000001 w3))
     = [(true, 1)].
Proof. cbv zeta. split; vm_compute; reflexivity. Qed.

(** C6, evaluated.  With two overdue, unescalated steps and an active
    manager, the first run escalates only the first step and writes neither
    a history row nor a notification; the second step is escalated by the
    second run, which leaves the first step alone.  After the flag of the
    first step is cleared by hand, a third run escalates that step again. *)
Theorem escalateOverdueTasks_stops_after_first_task :
  let w1 := snd (WorkflowEngine.escalateOverdueTasks 1000 EscalationScenario.twoOverdue) in
  let w2 := snd (WorkflowEngine.escalateOverdueTasks 1000 w1) in
  let w3 := snd (WorkflowEngine.escalateOverdueTasks 1000 (EscalationScenario.reset 0%nat w2)) in
  EscalationScenario.flags EscalationScenario.twoOverdue = [(false, 0); (false, 0)]
  /\ EscalationScenario.flags w1 = [(true, 1); (false, 0)]
  /\ EscalationScenario.escalations w1 = [1; 0]%nat
  /\ history w1 = [] /\ notifications w1 = []
  /\ EscalationScenario.flags w2 = [(true, 1); (true, 1)]
  /\ EscalationScenario.escalations w2 = [1; 1]%nat
  /\ history w2 = [] /\ notifications w2 = []
  /\ EscalationScenario.flags (EscalationScenario.reset 0%nat w2) = [(false, 1); (true, 1)]
  /\ EscalationScenario.flags w3 = [(true, 1); (true, 1)]
  /\ EscalationScenario.escalations w3 = [2; 1]%nat.
Proof. cbv zeta. repeat split; vm_compute; reflexivity. Qed.



(** ** The escalation cascade *)

Module CascadeFacts.
Import WorkflowEngine SchedulerService EscalationSpec EscalationFacts ScanFacts.

Lemma history_saveAll upd ts : forall w, history (saveAll upd ts w) = history w.
Proof.
  unfold saveAll. induction ts as [|t ts IH]; intros w; [reflexivity|].
  cbn [fold_left]. now rewrite IH.
Qed.

Lemma notifications_saveAll upd ts : forall w,
  notifications (saveAll upd ts w) = notifications w.
Proof.
  unfold saveAll. induction ts as [|t ts IH]; intros w; [reflexivity|].
  cbn [fold_left]. now rewrite IH.
Qed.

Lemma StepStatus_eqb_eq a b : StepStatus_eqb a b = true <-> a = b.
Proof. destruct a, b; cbn; split; congruence. Qed.

(** The query as a proposition. *)
Lemma needsEscalation_iff thr s :
  needsEscalation thr s = true
  <-> (StepInstance.status s = S_pending \/ StepInstance.status s = S_in_progress)
      /\ StepInstance.escalated s = true
      /\ (exists d, StepInstance.dueDate s = Some d /\ d < thr)
      /\ StepInstance.escalationLevel s < 3.
Proof.
  unfold needsEscalation, isOpen, dueBefore.
  rewrite !andb_true_iff, orb_true_iff, !StepStatus_eqb_eq, Z.ltb_lt.
  destruct (StepInstance.dueDate s) as [d|].
  - rewrite Z.ltb_lt. split.
    + intros [[[Hs Hd] He] Hl]. repeat split; auto. now exists d.
    + intros (Hs & He & (d' & [= <-] & Hd) & Hl). auto.
  - split.
    + intros [[[_ Hd] _] _]. discriminate.
    + intros (_ & _ & (d' & Hd & _) & _). discriminate.
Qed.

Lemma isEscalationTarget_iff u :
  isEscalationTarget u = true
  <-> (User.role u = "manager" \/ User.role u = "admin") /\ User.isActive u = true.
Proof.
  unfold isEscalationTarget.
  now rewrite andb_true_iff, orb_true_iff, !String.eqb_eq.
Qed.

End CascadeFacts.

(** C7, without the history record.  For a store with distinct step ids,
    [processTaskEscalations] at time [now] returns normally; it selects
    exactly the pending or in-progress steps that are escalated, due more
    than two hours before [now] and below level 3; it raises the level of
    each selected step by one and leaves every other step, and every other
    field of a selected step (its escalation history included), as it was;
    the process history is left as it was; and, when no notification write
    is rejected, the notifications appended are, for each selected step in
    turn whose process is stored, one escalation notice per active manager
    or admin. *)
Theorem processTaskEscalations_effect (now : Date) (w : World) :
  List.NoDup (map StepInstance._id (steps w)) ->
  let threshold := now - 2 * 60 * 60 * 1000 in
  let selected := List.filter (SchedulerService.needsEscalation threshold) (steps w) in
  let targets := List.filter WorkflowEngine.isEscalationTarget (users w) in
  let r := SchedulerService.processTaskEscalations now w in
  fst r = Ok tt
  /\ (forall s,
         In s selected
         <-> In s (steps w)
             /\ (StepInstance.status s = S_pending \/ StepInstance.status s = S_in_progress)
             /\ StepInstance.escalated s = true
             /\ (exists d, StepInstance.dueDate s = Some d /\ d < now - 7200000)
             /\ StepInstance.escalationLevel s < 3)
  /\ (forall u,
         In u targets
         <-> In u (users w)
             /\ (User.role u = "manager" \/ User.role u = "admin")
             /\ User.isActive u = true)
  /\ steps (snd r)
     = map (fun s => if SchedulerService.needsEscalation threshold s
                     then SchedulerService.set_escalationLevel
                            (StepInstance.escalationLevel s + 1) s
                     else s)
           (steps w)
  /\ history (snd r) = history w
  /\ ((forall n, notificationFails w n = false) ->
      notifications (snd r)
      = notifications w
          ++ flat_map
               (fun s =>
                  match Db.findProcess (StepInstance.processInstanceId s) w with
                  | Some p =>
                      map (SchedulerService.escalationNotice
                             (StepInstance.escalationLevel s + 1) s p) targets
                  | None => []
                  end)
               selected).
Proof.
  intros Hnd threshold selected targets r.
  destruct (ScanFacts.processTaskEscalations_run now w) as (ns & E & Hns).
  subst r. rewrite E. cbn [fst snd].
  split; [reflexivity|]. split; [|split; [|split; [|split]]].
  - intros s. unfold selected. rewrite filter_In, CascadeFacts.needsEscalation_iff.
    unfold threshold. replace (now - 2 * 60 * 60 * 1000) with (now - 7200000) by lia.
    reflexivity.
  - intros u. unfold targets. now rewrite filter_In, CascadeFacts.isEscalationTarget_iff.
  - change (steps (EscalationSpec.notify ns ?v)) with (steps v).
    rewrite EscalationFacts.steps_saveAll.
    apply EscalationFacts.saveAll_selected; [reflexivity|exact Hnd].
  - change (history (EscalationSpec.notify ns ?v)) with (history v).
    apply CascadeFacts.history_saveAll.
  - intros Hok. rewrite (Hns Hok).
    change (notifications (EscalationSpec.notify ?a ?v)) with (notifications v ++ a).
    rewrite CascadeFacts.notifications_saveAll. f_equal.
    rewrite flat_map_concat_map, map_map, <- flat_map_concat_map. reflexivity.
Qed.

Lemma processTaskEscalations_effect_witness :
  let r := SchedulerService.processTaskEscalations 10000000 EscalationScenario.escalatedOnce in
  fst r = Ok tt
  /\ EscalationScenario.flags (snd r) = [(true, 2)]
  /\ history (snd r) = [].
Proof.
  cbv zeta.
  assert (Hnd : List.NoDup (map StepInstance._id (steps EscalationScenario.escalatedOnce))).
  { cbn. apply List.NoDup_cons; [cbn; lia|apply List.NoDup_nil]. }
  destruct (processTaskEscalations_effect 10000000 EscalationScenario.escalatedOnce Hnd)
    as (Hr & _ & _ & Hsteps & Hhist & _).
  split; [exact Hr|]. split; [|exact Hhist].
  unfold EscalationScenario.flags. rewrite Hsteps. reflexivity.
Defined.

(** The cascade raises the level and notifies the manager and the admin,
    and appends no record of the escalation: neither a process-history row
    nor an entry of the step's escalation history. *)
Lemma processTaskEscalations_appends_no_history :
  let w := EscalationScenario.escalatedOnce in
  let r := SchedulerService.processTaskEscalations 10000000 w in
  fst r = Ok tt
  /\ EscalationScenario.flags w = [(true, 1)]
  /\ EscalationScenario.flags (snd r) = [(true, 2)]
  /\ map Notification.userId (notifications (snd r)) = ["m1"; "a1"]
  /\ history (snd r) = history w
  /\ map StepInstance.escalationHistory (steps (snd r))
     = map StepInstance.escalationHistory (steps w).
Proof. cbv zeta. repeat split; vm_compute; reflexivity. Qed.

(** ** Template references *)

Module TemplateFacts.
Import ProcessTemplateController TemplateSpec.

Lemma includes_In l x : includes l x = true <-> In x l.
Proof.
  unfold includes. rewrite existsb_exists. split.
  - intros (y & Hy & E). apply String.eqb_eq in E. now subst.
  - intros H. exists x. split; [exact H|apply String.eqb_refl].
Qed.

Lemma filter_nil_iff {A} (f : A -> bool) l :
  List.filter f l = [] <-> forall x, In x l -> f x = false.
Proof.
  induction l as [|a l IH]; cbn.
  - split; [intros _ x []|reflexivity].
  - destruct (f a) eqn:E.
    + split; [discriminate|]. intros H. specialize (H a (or_introl eq_refl)). congruence.
    + rewrite IH. split.
      * intros H x [<-|Hx]; auto.
      * intros H x Hx. apply H. now right.
Qed.

Lemma invalid_nil_iff ids refs :
  (0 <? length (List.filter (fun r => negb (includes ids r)) refs))%nat = false
  <-> forall r, In r refs -> In r ids.
Proof.
  rewrite Nat.ltb_ge. split.
  - intros H r Hr.
    assert (Hnil : List.filter (fun r => negb (includes ids r)) refs = []).
    { destruct (List.filter _ refs); [reflexivity|cbn in H; lia]. }
    apply includes_In. rewrite filter_nil_iff in Hnil. specialize (Hnil r Hr).
    now destruct (includes ids r).
  - intros H.
    assert (Hnil : List.filter (fun r => negb (includes ids r)) refs = []).
    { apply filter_nil_iff. intros r Hr. apply H, includes_In in Hr. now rewrite Hr. }
    now rewrite Hnil.
Qed.

(** The loop over the steps either accepts, and then every [nextSteps]
    reference resolves, or throws a 400. *)
Lemma checkNextSteps_cases ids steps :
  (checkNextSteps ids steps = Ok tt
   /\ forall sd ns, In sd steps -> In ns (StepDef.nextSteps sd) -> In (NextStep.stepId ns) ids)
  \/ ((exists msg, checkNextSteps ids steps = Throw (AppError msg 400))
      /\ exists sd ns, In sd steps /\ In ns (StepDef.nextSteps sd)
                       /\ ~ In (NextStep.stepId ns) ids).
Proof.
  induction steps as [|step rest IH]; cbn [checkNextSteps].
  - left. split; [reflexivity|]. intros ? ? [].
  - destruct (0 <? length (List.filter _ (map NextStep.stepId (StepDef.nextSteps step))))%nat
      eqn:Hinv.
    + assert (Hne : (0 <? length (StepDef.nextSteps step))%nat = true).
      { apply Nat.ltb_lt. apply Nat.ltb_lt in Hinv.
        destruct (StepDef.nextSteps step); cbn in *; lia. }
      rewrite Hne. cbn [andb]. right. split; [eexists; reflexivity|].
      destruct (List.filter _ (map NextStep.stepId (StepDef.nextSteps step)))
        as [|bad l] eqn:Hf; [discriminate|].
      assert (Hbad : In bad (List.filter (fun stepId => negb (includes ids stepId))
                               (map NextStep.stepId (StepDef.nextSteps step))))
        by (rewrite Hf; now left).
      apply filter_In in Hbad as [Hin Hno]. apply in_map_iff in Hin as (ns & <- & Hns).
      exists step, ns. split; [now left|]. split; [exact Hns|].
      intros Hc. apply includes_In in Hc. rewrite Hc in Hno. discriminate.
    + rewrite andb_false_r.
      pose proof (proj1 (invalid_nil_iff ids _) Hinv) as Hstep.
      destruct IH as [[Hok Hall]|[Hthrow (sd & ns & Hsd & Hns & Hno)]].
      * left. split; [exact Hok|].
        intros sd ns [<-|Hsd] Hns; [|now apply (Hall sd)].
        apply Hstep. now apply in_map.
      * right. split; [exact Hthrow|]. exists sd, ns.
        split; [now right|]. split; assumption.
Qed.

(** [validateStepReferences] accepts exactly the templates whose references
    resolve, and rejects the others with a 400. *)
Lemma validateStepReferences_cases t :
  let r := validateStepReferences (ProcessTemplate.steps t) (ProcessTemplate.startStep t)
             (ProcessTemplate.endSteps t) in
  (r = Ok tt /\ referencesResolve t)
  \/ ((exists msg, r = Throw (AppError msg 400)) /\ ~ referencesResolve t).
Proof.
  cbv zeta. unfold validateStepReferences, referencesResolve, defined.
  destruct (includes _ (ProcessTemplate.startStep t)) eqn:Hstart; cbn [negb].
  - apply includes_In in Hstart.
    destruct (0 <? length (List.filter _ (ProcessTemplate.endSteps t)))%nat eqn:Hend.
    + right. split; [eexists; reflexivity|]. intros (_ & He & _).
      apply invalid_nil_iff in He. congruence.
    + pose proof (proj1 (invalid_nil_iff _ _) Hend) as He.
      destruct (checkNextSteps_cases (map StepDef.stepId (ProcessTemplate.steps t))
                  (ProcessTemplate.steps t))
        as [[Hok Hall]|[Hthrow (sd & ns & Hsd & Hns & Hno)]].
      * left. auto.
      * right. split; [exact Hthrow|]. intros (_ & _ & Hn). apply Hno. now apply (Hn sd).
  - right. split; [eexists; reflexivity|]. intros (Hs & _).
    apply includes_In in Hs. congruence.
Qed.

(** The ids [determineNextSteps] returns are ids of [nextSteps] entries. *)
Lemma determineNextSteps_from_entries sd si d id :
  In id (Routing.determineNextSteps sd si d) ->
  exists ns, In ns (StepDef.nextSteps sd) /\ NextStep.stepId ns = id.
Proof.
  rewrite RoutingFacts.determineNextSteps_drop_branch.
  unfold Routing.determineNextSteps_noDecisionBranch.
  destruct (StepDef.nextSteps sd) as [|first rest]; [intros []|].
  cbn [length Nat.eqb app].
  destruct (map NextStep.stepId (List.filter _ (first :: rest))) as [|i l] eqn:Hcoll.
  - cbn. intros [<-|[]]. exists first. split; [now left|reflexivity].
  - cbn [length Nat.eqb andb]. rewrite <- Hcoll. intros Hin.
    apply in_map_iff in Hin as (ns & Hid & Hns). apply filter_In in Hns as [Hns _].
    now exists ns.
Qed.

Lemma findTemplateStep_defined t id :
  defined t id -> exists sd, WorkflowEngine.findTemplateStep t id = Some sd.
Proof.
  unfold defined, WorkflowEngine.findTemplateStep. intros H.
  apply in_map_iff in H as (sd & E & Hsd).
  destruct (List.find _ (ProcessTemplate.steps t)) as [sd'|] eqn:F; [now exists sd'|].
  apply (find_none _ _ F) in Hsd. rewrite E, String.eqb_refl in Hsd. discriminate.
Qed.

End TemplateFacts.

(** C8.  The validation of template references is never reached.  The
    handler of POST /, as the router registers it, throws a TypeError for
    every template, whether its references resolve or not, and stores
    nothing: it never gives the 400 of the validation.  The validation it
    names, [validateStepReferences], does what the specification asks: it
    accepts exactly the templates whose references resolve and rejects the
    others with a 400, and so does the handler when it is called on the
    controller.  The save hook, the one check that runs whenever a template
    document is saved, accepts a template with a dangling [nextSteps]
    target; with that template stored, completing its start step returns
    normally, creates no successor and leaves the process active with no
    current step and no open step. *)
Theorem postProcessTemplate_never_validates :
  (forall t w, ProcessTemplateController.postProcessTemplate t w = (Throw TypeError, w))
  /\ (forall t,
         let r := ProcessTemplateController.validateStepReferences
                    (ProcessTemplate.steps t) (ProcessTemplate.startStep t)
                    (ProcessTemplate.endSteps t) in
         (r = Ok tt /\ TemplateSpec.referencesResolve t)
         \/ ((exists msg, r = Throw (AppError msg 400)) /\ ~ TemplateSpec.referencesResolve t))
  /\ (forall t w,
         ~ TemplateSpec.referencesResolve t ->
         exists msg,
           ProcessTemplateController.createProcessTemplate Controller t w
           = (Throw (AppError msg 400), w))
  /\ (forall t w t' w',
         ProcessTemplateController.createProcessTemplate Controller t w = (Ok t', w') ->
         TemplateSpec.referencesResolve t)
  /\ (~ TemplateSpec.referencesResolve TemplateSpec.dangling
      /\ ProcessTemplateController.postProcessTemplate TemplateSpec.dangling
           (Scenario.world Scenario.twoStep)
         = (Throw TypeError, Scenario.world Scenario.twoStep)
      /\ ProcessTemplateController.postProcessTemplate Scenario.twoStep
           (Scenario.world Scenario.twoStep)
         = (Throw TypeError, Scenario.world Scenario.twoStep)
      /\ ProcessTemplateController.preSave TemplateSpec.dangling = Ok tt)
  /\ (let r := TemplateSpec.danglingCompleted in
      (exists si, fst r = Ok si)
      /\ map StepInstance.stepId (steps (snd r)) = ["start"]
      /\ List.filter WorkflowEngine.isOpen (steps (snd r)) = []
      /\ map ProcessInstance.status (processes (snd r)) = [P_active]
      /\ map ProcessInstance.currentSteps (processes (snd r)) = [[]]).
Proof.
  assert (Hdangling : ~ TemplateSpec.referencesResolve TemplateSpec.dangling).
  { intros (_ & _ & Hnext).
    specialize (Hnext _ (NextStep.mk None "nowhere") (or_introl eq_refl) (or_introl eq_refl)).
    cbn in Hnext. destruct Hnext as [H|[H|[]]]; discriminate H. }
  split; [|split; [|split; [|split; [|split]]]].
  - reflexivity.
  - exact TemplateFacts.validateStepReferences_cases.
  - intros t w Hbad. unfold ProcessTemplateController.createProcessTemplate.
    destruct (TemplateFacts.validateStepReferences_cases t) as [[_ Hok]|[(msg & ->) _]];
      [contradiction|]. now exists msg.
  - intros t w t' w'. unfold ProcessTemplateController.createProcessTemplate.
    destruct (TemplateFacts.validateStepReferences_cases t) as [[-> Hok]|[(msg & ->) _]];
      [|discriminate].
    intros _. exact Hok.
  - split; [exact Hdangling|]. repeat split.
  - cbv zeta. split; [eexists; vm_compute; reflexivity|].
    repeat split; vm_compute; reflexivity.
Qed.

Lemma postProcessTemplate_never_validates_witness :
  exists msg,
    ProcessTemplateController.createProcessTemplate Controller TemplateSpec.dangling
      (Scenario.world Scenario.twoStep)
    = (Throw (AppError msg 400), Scenario.world Scenario.twoStep).
Proof.
  apply (proj1 (proj2 (proj2 postProcessTemplate_never_validates))).
  exact (proj1 (proj1 (proj2 (proj2 (proj2 (proj2 postProcessTemplate_never_validates)))))).
Defined.

(** * Further properties of the code *)

(** ** Routing never dead-ends *)

(** X1.  [determineNextSteps] returns no step id exactly when the template
    step has no outgoing transition: a step with transitions never
    dead-ends, whatever the conditions and the decision are; and it never
    returns more ids than the step has transitions. *)
Theorem determineNextSteps_never_dead_ends :
  forall sd si d,
    (Routing.determineNextSteps sd si d = [] <-> StepDef.nextSteps sd = [])
    /\ (length (Routing.determineNextSteps sd si d) <= length (StepDef.nextSteps sd))%nat.
Proof.
  intros sd si d. rewrite RoutingFacts.determineNextSteps_drop_branch.
  unfold Routing.determineNextSteps_noDecisionBranch.
  destruct (StepDef.nextSteps sd) as [|first rest] eqn:Hns.
  - cbn. split; [tauto|lia].
  - cbn [length Nat.eqb app].
    destruct (map NextStep.stepId (List.filter (Routing.passes si d) (first :: rest)))
      as [|i l] eqn:Hcoll.
    + cbn. split; [split; discriminate|lia].
    + split; [cbn; split; discriminate|].
      cbn [length Nat.eqb andb]. change (S (length l)) with (length (i :: l)).
      rewrite <- Hcoll, length_map. apply filter_length_le.
Qed.

(** ** A completed step is final *)

Module LifecycleFacts.
Import WorkflowEngine EngineSpec EngineFacts.

(** [processStepCompletion] writes the process back under its own id and
    template. *)
Lemma processStepCompletion_process now si p p0 u w template sd :
  Db.findTemplate (ProcessInstance.processTemplateId p) w = Some template ->
  findTemplateStep template (StepInstance.stepId si) = Some sd ->
  Db.findProcess (ProcessInstance._id p) w = Some p0 ->
  exists p',
    Db.findProcess (ProcessInstance._id p) (snd (processStepCompletion now si p u w)) = Some p'
    /\ ProcessInstance.processTemplateId p' = ProcessInstance.processTemplateId p.
Proof.
  intros Ht Hsd Hp.
  rewrite (processStepCompletion_unfold now si p u w template sd Ht Hsd).
  match goal with
  | |- context [foldM ?ids _ ?q w] =>
      destruct (createNext_loop now template u ids q w) as (p1 & w1 & E & Hp1 & HP & G)
  end.
  rewrite E.
  assert (Hid : ProcessInstance._id p1 = ProcessInstance._id p) by (now rewrite Hp1).
  assert (Htid : ProcessInstance.processTemplateId p1 = ProcessInstance.processTemplateId p)
    by (now rewrite Hp1).
  assert (Hp1w : Db.findProcess (ProcessInstance._id p1) w1 = Some p0).
  { rewrite Hid, (same_processes_find _ _ _ HP). exact Hp. }
  destruct (reachesEnd template _).
  - rewrite completeProcess_run. cbv zeta.
    exists (markProcessCompleted now p1). split; [|exact Htid].
    rewrite <- Hid.
    destruct (notificationFails w1 (completionNotice p1)); cbn [snd];
      rewrite ?findProcess_with_notifications, ?findProcess_with_history;
      exact (findProcess_saved (markProcessCompleted now p1) p0 w1 Hp1w).
  - unfold bind, updateCompletionPercentage, Db.saveProcess, ret. cbn [snd fst].
    set (pct := JsNumber.percentage _ _).
    exists (set_completionPercentage pct p1). split; [|exact Htid].
    rewrite <- Hid.
    change (ProcessInstance._id p1)
      with (ProcessInstance._id (set_completionPercentage pct p1)) at 1.
    eapply (find_replace ProcessInstance._id); [reflexivity|].
    eapply (find_replace ProcessInstance._id); [reflexivity|].
    exact Hp1w.
Qed.

Lemma findStep_id id w s : Db.findStep id w = Some s -> StepInstance._id s = id.
Proof. intros H. apply find_some in H as [_ H]. now apply Nat.eqb_eq in H. Qed.

Lemma findProcess_id id w p : Db.findProcess id w = Some p -> ProcessInstance._id p = id.
Proof. intros H. apply find_some in H as [_ H]. now apply Nat.eqb_eq in H. Qed.

(** What a successful [completeStep] leaves behind: the step stored as
    completed, its process stored under the same template, the template
    still stored. *)
Lemma completeStep_ok_store now id u fd d w si w' :
  completeStep now id u fd d w = (Ok si, w') ->
  exists s0 p' template,
    Db.findStep id w' = Some (markCompleted now u fd d s0)
    /\ Db.findProcess (StepInstance.processInstanceId s0) w' = Some p'
    /\ Db.findTemplate (ProcessInstance.processTemplateId p') w' = Some template.
Proof.
  unfold completeStep.
  destruct (Db.findStep id w) as [s0|] eqn:Hstep; [|discriminate].
  destruct (Db.findProcess _ w) as [p|] eqn:Hp; [|discriminate].
  destruct (Db.findTemplate _ w) as [template|] eqn:Ht; [|discriminate].
  destruct (negb (canComplete s0 u)); [discriminate|].
  set (si' := markCompleted now u fd d s0).
  unfold bind, Db.saveStep, Db.createHistory.
  change (StepInstance.stepId si') with (StepInstance.stepId s0).
  destruct (findTemplateStep template (StepInstance.stepId s0)) as [sd|] eqn:Hsd;
    [|discriminate].
  match goal with
  | |- context [processStepCompletion now si' p u ?v] => set (w1 := v)
  end.
  intros H.
  assert (Hw' : w' = snd (processStepCompletion now si' p u w1)).
  { destruct (processStepCompletion now si' p u w1) as [[[]|e] w2];
      [now inversion H|discriminate]. }
  pose proof (findStep_id _ _ _ Hstep) as Hid.
  pose proof (findProcess_id _ _ _ Hp) as Hpid.
  assert (Hsaved : Db.findStep id w1 = Some si').
  { rewrite <- Hid.
    exact (findStep_saved si' s0 w (eq_ind_r (fun k => Db.findStep k w = Some s0) Hstep Hid)). }
  pose proof (processStepCompletion_grows now si' p u w1) as G. rewrite <- Hw' in G.
  destruct (processStepCompletion_process now si' p p u w1 template sd)
    as (p' & Hp' & Htid); [exact Ht|exact Hsd|rewrite Hpid; exact Hp|].
  rewrite <- Hw', Hpid in Hp'.
  exists s0, p', template. split; [|split].
  - exact (grows_findStep _ _ _ _ G Hsaved).
  - exact Hp'.
  - rewrite Htid, (grows_findTemplate _ _ _ G). exact Ht.
Qed.

End LifecycleFacts.

(** X2.  A step is completed at most once: after a call of [completeStep]
    that returned, every further [completeStep] on the same step, by any
    user and with any form data and decision, is refused with 403 and
    leaves the store as it is. *)
Theorem completeStep_at_most_once
    (now : Date) (id : StepInstanceId) (u : UserId) (fd : gmap string string)
    (d : option string) (w : World) (si : StepInstance.t) (w' : World) :
  WorkflowEngine.completeStep now id u fd d w = (Ok si, w') ->
  forall now' u' fd' d',
    WorkflowEngine.completeStep now' id u' fd' d' w'
    = (Throw (AppError "You are not authorized to complete this step" 403), w').
Proof.
  intros H now' u' fd' d'.
  destruct (LifecycleFacts.completeStep_ok_store _ _ _ _ _ _ _ _ H)
    as (s0 & p' & template & Hs & Hp & Ht).
  unfold WorkflowEngine.completeStep. rewrite Hs.
  change (StepInstance.processInstanceId (WorkflowEngine.markCompleted now u fd d s0))
    with (StepInstance.processInstanceId s0).
  rewrite Hp, Ht. reflexivity.
Qed.

Lemma completeStep_at_most_once_witness :
  exists si w',
    WorkflowEngine.completeStep 2000 0%nat "u1" ∅ None Scenario.inProgress = (Ok si, w')
    /\ WorkflowEngine.completeStep 3000 0%nat "u1" ∅ (Some "again") w'
       = (Throw (AppError "You are not authorized to complete this step" 403), w').
Proof.
  eexists. eexists. split.
  - vm_compute. reflexivity.
  - eapply (completeStep_at_most_once 2000 0%nat "u1" ∅ None Scenario.inProgress).
    vm_compute. reflexivity.
Defined.

(** ** The overdue check and the flag it shares with the engine's scan *)

Module OverdueFacts.
Import WorkflowEngine SchedulerService EscalationSpec EscalationFacts ScanFacts.

(** [checkOverdueTasks] with the notices it sends when no write is
    rejected. *)
Lemma checkOverdueTasks_notices now w :
  let sel := List.filter (overdueUnescalated now) (steps w) in
  exists ns,
    checkOverdueTasks now w = (Ok tt, notify ns (saveAll (set_escalated true) sel w))
    /\ (sinkOk w -> ns = flat_map (overdueNotices (users w)) (map (populate w) sel)).
Proof.
  intros sel. unfold checkOverdueTasks. cbv zeta. fold sel.
  destruct (scan_loop task (set_escalated true) overdueNotices markOverdue markOverdue_run
              (map (populate w) sel) w) as (ns & E & H).
  rewrite map_map in E. cbn [task populate] in E. rewrite map_id in E.
  destruct sel as [|s sel'] eqn:Hsel.
  - exists []. rewrite notify_nil. split; reflexivity.
  - exists ns. split; [exact E|exact H].
Qed.

Lemma processes_saveAll upd ts : forall w, processes (saveAll upd ts w) = processes w.
Proof.
  unfold saveAll. induction ts as [|t ts IH]; intros w; [reflexivity|].
  cbn [fold_left]. now rewrite IH.
Qed.

(** The steps after the check, for distinct ids. *)
Lemma checkOverdueTasks_steps now w :
  List.NoDup (map StepInstance._id (steps w)) ->
  steps (snd (checkOverdueTasks now w))
  = map (fun s => if overdueUnescalated now s then set_escalated true s else s) (steps w).
Proof.
  intros Hnd. destruct (checkOverdueTasks_run now w) as (ns & E). rewrite E. cbn [snd].
  change (steps (notify ns ?v)) with (steps v).
  rewrite steps_saveAll. apply saveAll_selected; [reflexivity|exact Hnd].
Qed.

(** A later due date is not selected earlier. *)
Lemma overdueUnescalated_mono now now' s :
  now' <= now -> overdueUnescalated now' s = true -> overdueUnescalated now s = true.
Proof.
  unfold overdueUnescalated, dueBefore. intros Hle.
  destruct (isOpen s); [|discriminate]. destruct (StepInstance.escalated s); cbn.
  - now rewrite andb_false_r.
  - rewrite !andb_true_r. destruct (StepInstance.dueDate s) as [d|]; [|discriminate].
    rewrite !Z.ltb_lt. lia.
Qed.

Lemma filter_nil_all {A} (f : A -> bool) (l : list A) :
  (forall x, In x l -> f x = false) -> List.filter f l = [].
Proof.
  induction l as [|x l IH]; intros H; [reflexivity|]. cbn.
  rewrite (H x (or_introl eq_refl)). apply IH. intros y Hy. apply H. now right.
Qed.

(** After the check at [now], nothing is left for a scan at [now'] up to
    [now]. *)
Lemma checkOverdueTasks_clears now now' w :
  List.NoDup (map StepInstance._id (steps w)) -> now' <= now ->
  List.filter (overdueUnescalated now') (steps (snd (checkOverdueTasks now w))) = [].
Proof.
  intros Hnd Hle. rewrite (checkOverdueTasks_steps now w Hnd).
  apply filter_nil_all. intros s' Hs'. apply in_map_iff in Hs' as (s & <- & _).
  destruct (overdueUnescalated now s) eqn:Hsel.
  - unfold overdueUnescalated. cbn. now rewrite andb_false_r.
  - destruct (overdueUnescalated now' s) eqn:Hsel'; [|reflexivity].
    apply (overdueUnescalated_mono now now' s Hle) in Hsel'. congruence.
Qed.

End OverdueFacts.

(** X3.  For a store with distinct step ids, the scheduler's
    [checkOverdueTasks] at time [now] returns normally; it sets the
    escalated flag of exactly the pending or in-progress steps that are past
    their due date and not yet flagged, and leaves their escalation level
    and every other step as they were; it writes no history row and touches
    no process; and, when no notification write is rejected, it sends one
    overdue notice for each flagged step whose assignee and process are
    both stored. *)
Theorem checkOverdueTasks_effect (now : Date) (w : World) :
  List.NoDup (map StepInstance._id (steps w)) ->
  let selected := List.filter (WorkflowEngine.overdueUnescalated now) (steps w) in
  let r := SchedulerService.checkOverdueTasks now w in
  fst r = Ok tt
  /\ (forall s,
         In s selected
         <-> In s (steps w)
             /\ (StepInstance.status s = S_pending \/ StepInstance.status s = S_in_progress)
             /\ (exists d, StepInstance.dueDate s = Some d /\ d < now)
             /\ StepInstance.escalated s = false)
  /\ steps (snd r)
     = map (fun s => if WorkflowEngine.overdueUnescalated now s
                     then WorkflowEngine.set_escalation true (StepInstance.escalationLevel s)
                            (StepInstance.escalationHistory s) s
                     else s)
           (steps w)
  /\ history (snd r) = history w
  /\ processes (snd r) = processes w
  /\ ((forall n, notificationFails w n = false) ->
      notifications (snd r)
      = notifications w
          ++ flat_map
               (fun s =>
                  match StepInstance.assignedTo s with
                  | Some a =>
                      match Db.findUser a w,
                            Db.findProcess (StepInstance.processInstanceId s) w with
                      | Some u, Some p => [SchedulerService.overdueNotice s u p]
                      | _, _ => []
                      end
                  | None => []
                  end)
               selected).
Proof.
  intros Hnd selected r.
  pose proof (OverdueFacts.checkOverdueTasks_steps now w Hnd) as Hsteps.
  destruct (OverdueFacts.checkOverdueTasks_notices now w) as (ns & E & Hns).
  subst r. rewrite E in *. cbn [fst snd] in *.
  split; [reflexivity|]. split; [|split; [exact Hsteps|split; [|split]]].
  - intros s. unfold selected. rewrite filter_In.
    unfold WorkflowEngine.overdueUnescalated, WorkflowEngine.isOpen, WorkflowEngine.dueBefore.
    rewrite !andb_true_iff, orb_true_iff, !CascadeFacts.StepStatus_eqb_eq, negb_true_iff.
    destruct (StepInstance.dueDate s) as [d|].
    + rewrite Z.ltb_lt. split.
      * intros [Hin [[Hs Hd] He]]. repeat split; auto. now exists d.
      * intros (Hin & Hs & (d' & [= <-] & Hd) & He). auto.
    + split.
      * intros [_ [[_ Hd] _]]. discriminate.
      * intros (_ & _ & (d' & Hd & _) & _). discriminate.
  - change (history (EscalationSpec.notify ns ?v)) with (history v).
    apply CascadeFacts.history_saveAll.
  - change (processes (EscalationSpec.notify ns ?v)) with (processes v).
    apply OverdueFacts.processes_saveAll.
  - intros Hok. rewrite (Hns Hok).
    change (notifications (EscalationSpec.notify ?a ?v)) with (notifications v ++ a).
    rewrite CascadeFacts.notifications_saveAll. f_equal.
    rewrite flat_map_concat_map, map_map, <- flat_map_concat_map.
    apply flat_map_ext. intros s.
    unfold EscalationSpec.overdueNotices, SchedulerService.populate. cbn.
    destruct (StepInstance.assignedTo s) as [a|]; [|reflexivity].
    destruct (Db.findUser a w); reflexivity.
Qed.

Lemma checkOverdueTasks_effect_witness :
  let r := SchedulerService.checkOverdueTasks 1000 EscalationScenario.twoOverdue in
  fst r = Ok tt
  /\ EscalationScenario.flags (snd r) = [(true, 0); (true, 0)]
  /\ history (snd r) = []
  /\ length (notifications (snd r)) = 2%nat.
Proof.
  cbv zeta.
  assert (Hnd : List.NoDup (map StepInstance._id (steps EscalationScenario.twoOverdue))).
  { cbn. repeat (apply List.NoDup_cons; [cbn; lia|]). apply List.NoDup_nil. }
  destruct (checkOverdueTasks_effect 1000 EscalationScenario.twoOverdue Hnd)
    as (Hr & _ & Hsteps & Hhist & _ & Hnote).
  split; [exact Hr|]. split; [|split; [exact Hhist|]].
  - unfold EscalationScenario.flags. rewrite Hsteps. reflexivity.
  - rewrite Hnote; [reflexivity|]. intros n. reflexivity.
Defined.

(** X4.  The overdue flag is claimed once.  For a store with distinct step
    ids, after [checkOverdueTasks] has run at time [now], a second run of it
    and a run of the engine's [escalateOverdueTasks], at any time up to
    [now], find nothing to do and leave the store exactly as it is: the
    steps the scheduler has flagged are never escalated to level 1 by the
    engine's scan. *)
Theorem overdue_flag_is_claimed_once (now now' : Date) (w : World) :
  List.NoDup (map StepInstance._id (steps w)) -> now' <= now ->
  let w1 := snd (SchedulerService.checkOverdueTasks now w) in
  SchedulerService.checkOverdueTasks now' w1 = (Ok tt, w1)
  /\ WorkflowEngine.escalateOverdueTasks now' w1 = (Ok tt, w1).
Proof.
  intros Hnd Hle w1.
  pose proof (OverdueFacts.checkOverdueTasks_clears now now' w Hnd Hle) as Hnil.
  fold w1 in Hnil. split.
  - unfold SchedulerService.checkOverdueTasks. cbv zeta. rewrite Hnil. reflexivity.
  - rewrite ScanFacts.escalateOverdueTasks_run, Hnil. reflexivity.
Qed.

Lemma overdue_flag_is_claimed_once_witness :
  let w1 := snd (SchedulerService.checkOverdueTasks 1000 EscalationScenario.twoOverdue) in
  SchedulerService.checkOverdueTasks 900 w1 = (Ok tt, w1)
  /\ WorkflowEngine.escalateOverdueTasks 900 w1 = (Ok tt, w1).
Proof.
  apply (overdue_flag_is_claimed_once 1000 900 EscalationScenario.twoOverdue); [|lia].
  cbn. repeat (apply List.NoDup_cons; [cbn; lia|]). apply List.NoDup_nil.
Defined.

(** X5.  What the engine's [escalateOverdueTasks] never does.  In every
    store it returns normally and leaves the processes, the history and the
    notifications as they were; for distinct step ids, one run changes at
    most one step, and a step that is already escalated is never changed. *)
Theorem escalateOverdueTasks_never (now : Date) (w : World) :
  List.NoDup (map StepInstance._id (steps w)) ->
  let r := WorkflowEngine.escalateOverdueTasks now w in
  fst r = Ok tt
  /\ processes (snd r) = processes w
  /\ history (snd r) = history w
  /\ notifications (snd r) = notifications w
  /\ length (steps (snd r)) = length (steps w)
  /\ (forall i j,
         nth_error (steps (snd r)) i <> nth_error (steps w) i ->
         nth_error (steps (snd r)) j <> nth_error (steps w) j -> i = j)
  /\ (forall i s,
         nth_error (steps w) i = Some s -> StepInstance.escalated s = true ->
         nth_error (steps (snd r)) i = Some s).
Proof.
  intros Hnd r.
  assert (Hkeep : forall i s,
             nth_error (steps w) i = Some s -> StepInstance.escalated s = true ->
             nth_error (steps (snd r)) i = Some s)
    by (intros i s; now apply ScanFacts.escalateOverdueTasks_keeps_escalated).
  subst r. rewrite ScanFacts.escalateOverdueTasks_run in *. cbn [fst snd] in *.
  split; [reflexivity|].
  destruct (List.filter (WorkflowEngine.overdueUnescalated now) (steps w))
    as [|task tasks] eqn:Hsel;
    [repeat split; auto; intros i j Hi; now elim Hi|].
  destruct (List.filter WorkflowEngine.isEscalationTarget (users w)) as [|target targets];
    [repeat split; auto; intros i j Hi; now elim Hi|].
  change (steps (EscalationSpec.saved ?x w)) with (map (Db.replaceStep x) (steps w)) in *.
  split; [reflexivity|]. split; [reflexivity|]. split; [reflexivity|].
  split; [apply length_map|]. split; [|exact Hkeep].
  assert (Hchanged : forall i,
             nth_error (map (Db.replaceStep (WorkflowEngine.escalateTo now target task))
                            (steps w)) i
             <> nth_error (steps w) i ->
             exists s, nth_error (steps w) i = Some s
                       /\ StepInstance._id s = StepInstance._id task).
  { intros i. rewrite nth_error_map.
    destruct (nth_error (steps w) i) as [s|]; [|intros H; now elim H].
    cbn [option_map]. unfold Db.replaceStep.
    change (StepInstance._id (WorkflowEngine.escalateTo now target task))
      with (StepInstance._id task).
    destruct (Nat.eqb_spec (StepInstance._id s) (StepInstance._id task)) as [E|_];
      [|intros H; now elim H].
    intros _. now exists s. }
  intros i j Hi Hj.
  destruct (Hchanged i Hi) as (s & Hs & Es). destruct (Hchanged j Hj) as (t & Ht & Et).
  apply (proj1 (List.NoDup_nth_error (map StepInstance._id (steps w))) Hnd).
  - rewrite length_map. apply nth_error_Some. congruence.
  - rewrite !nth_error_map, Hs, Ht. cbn. congruence.
Qed.

Lemma escalateOverdueTasks_never_witness :
  let r := WorkflowEngine.escalateOverdueTasks 1000 EscalationScenario.escalatedOnce in
  fst r = Ok tt
  /\ history (snd r) = []
  /\ notifications (snd r) = []
  /\ nth_error (steps (snd r)) 0 = Some (EscalationScenario.due 0 "a" true 1).
Proof.
  cbv zeta.
  assert (Hnd : List.NoDup (map StepInstance._id (steps EscalationScenario.escalatedOnce))).
  { cbn. apply List.NoDup_cons; [cbn; lia|apply List.NoDup_nil]. }
  destruct (escalateOverdueTasks_never 1000 EscalationScenario.escalatedOnce Hnd)
    as (Hr & _ & Hh & Hn & _ & _ & Hkeep).
  split; [exact Hr|]. split; [exact Hh|]. split; [exact Hn|].
  apply Hkeep; reflexivity.
Defined.

(** X6.  The [isOverdue] virtual and the queries of the scans agree except
    on failed steps: the scans of the engine and of the scheduler select a
    step exactly when the virtual reports it overdue, it has not failed and
    its escalated flag is unset; the escalation cascade at time [now] takes
    the steps that were overdue two hours earlier, have not failed, are
    flagged and are below level 3.  A failed step past its due date is
    reported overdue and never picked up by a scan. *)
Theorem scans_select_overdue_steps :
  forall now s,
    WorkflowEngine.overdueUnescalated now s
    = StepInstanceSchema.isOverdue now s
      && negb (StepStatus_eqb (StepInstance.status s) S_failed)
      && negb (StepInstance.escalated s)
    /\ SchedulerService.needsEscalation (now - 2 * 60 * 60 * 1000) s
       = StepInstanceSchema.isOverdue (now - 2 * 60 * 60 * 1000) s
         && negb (StepStatus_eqb (StepInstance.status s) S_failed)
         && StepInstance.escalated s
         && (StepInstance.escalationLevel s <? 3).
Proof.
  intros now s.
  unfold WorkflowEngine.overdueUnescalated, SchedulerService.needsEscalation,
    StepInstanceSchema.isOverdue, WorkflowEngine.isOpen, WorkflowEngine.dueBefore.
  destruct (StepInstance.dueDate s) as [d|].
  - destruct (StepInstance.status s), (d <? now), (d <? now - 2 * 60 * 60 * 1000);
      split; reflexivity.
  - destruct (StepInstance.status s); split; reflexivity.
Qed.

(** ** The endpoints of the step controller *)

Module StepControllerFacts.
Import WorkflowEngine StepInstanceController EngineFacts.

Lemma findStep_replaced id w step step' :
  Db.findStep id w = Some step -> StepInstance._id step' = StepInstance._id step ->
  Db.findStep id (with_steps (map (Db.replaceStep step')) w) = Some step'.
Proof.
  intros H E. pose proof (LifecycleFacts.findStep_id _ _ _ H) as Hid.
  rewrite <- Hid, <- E. apply (findStep_saved step' step w). now rewrite E, Hid.
Qed.

Lemma assignedToOther_false step actor :
  StepInstance.assignedTo step = None \/ StepInstance.assignedTo step = Some actor ->
  assignedToOther step actor = false.
Proof.
  unfold assignedToOther. intros [->| ->]; [reflexivity|]. now rewrite String.eqb_refl.
Qed.

Lemma canComplete_started now actor step v :
  StepInstance.assignedTo step = None \/ StepInstance.assignedTo step = Some actor ->
  canComplete (markInProgress now actor step) v = (actor =? v)%string.
Proof. intros [H|H]; unfold canComplete, markInProgress; cbn; rewrite H; cbn;
  destruct (actor =? v)%string; reflexivity. Qed.

(** [startStep] on a pending step that is unassigned or the actor's. *)
Lemma startStep_run now id actor w step :
  Db.findStep id w = Some step ->
  StepInstance.assignedTo step = None \/ StepInstance.assignedTo step = Some actor ->
  StepInstance.status step = S_pending ->
  startStep now id actor w
  = (Ok tt,
     with_history
       (fun l => l ++ [ProcessHistory.mk (StepInstance.processInstanceId step) (Some id)
                         step_started actor (Some "pending") (Some "in_progress")])
       (with_steps (map (Db.replaceStep (markInProgress now actor step))) w)).
Proof.
  intros Hs Ha Hst. unfold startStep.
  rewrite Hs, (assignedToOther_false _ _ Ha), Hst. cbn [StepStatus_eqb negb].
  unfold bind, Db.saveStep, Db.createHistory. cbn [StepInstance._id markInProgress
    set_assignment StepInstance.processInstanceId].
  now rewrite (LifecycleFacts.findStep_id _ _ _ Hs).
Qed.

(** A step that is not open is rejected by every endpoint, a step that is
    not pending by [startStep] and [assignStep]. *)
Lemma isOpen_pending step : StepInstance.status step = S_pending -> isOpen step = true.
Proof. unfold isOpen. now intros ->. Qed.

Lemma not_open_not_pending step :
  isOpen step = false -> StepStatus_eqb (StepInstance.status step) S_pending = false.
Proof. unfold isOpen. now destruct (StepInstance.status step). Qed.

Lemma not_open_not_in_progress step :
  isOpen step = false -> StepStatus_eqb (StepInstance.status step) S_in_progress = false.
Proof. unfold isOpen. now destruct (StepInstance.status step). Qed.

End StepControllerFacts.

(** X7.  [startStep] by [actor]: a missing step is refused with 404, a step
    assigned to another user with 403, a step that is not pending with 400,
    each leaving the store as it was; a pending step that is unassigned or
    assigned to the actor is stored as in progress with start date now and
    the actor as its assignee, one step_started history row is appended, and
    nothing else changes. *)
Theorem startStep_effect (now : Date) (id : StepInstanceId) (actor : UserId) (w : World) :
  (Db.findStep id w = None ->
   StepInstanceController.startStep now id actor w
   = (Throw (AppError "Step instance not found" 404), w))
  /\ (forall step other,
         Db.findStep id w = Some step ->
         StepInstance.assignedTo step = Some other -> other <> actor ->
         StepInstanceController.startStep now id actor w
         = (Throw (AppError "You are not assigned to this step" 403), w))
  /\ (forall step,
         Db.findStep id w = Some step ->
         StepInstance.assignedTo step = None \/ StepInstance.assignedTo step = Some actor ->
         StepInstance.status step <> S_pending ->
         StepInstanceController.startStep now id actor w
         = (Throw (AppError "Only pending steps can be started" 400), w))
  /\ (forall step,
         Db.findStep id w = Some step ->
         StepInstance.assignedTo step = None \/ StepInstance.assignedTo step = Some actor ->
         StepInstance.status step = S_pending ->
         let step' := StepInstanceController.markInProgress now actor step in
         exists w',
           StepInstanceController.startStep now id actor w = (Ok tt, w')
           /\ Db.findStep id w' = Some step'
           /\ StepInstance.status step' = S_in_progress
           /\ StepInstance.startDate step' = Some now
           /\ StepInstance.assignedTo step' = Some actor
           /\ steps w' = map (Db.replaceStep step') (steps w)
           /\ history w'
              = history w
                  ++ [ProcessHistory.mk (StepInstance.processInstanceId step) (Some id)
                        step_started actor (Some "pending") (Some "in_progress")]
           /\ processes w' = processes w
           /\ notifications w' = notifications w).
Proof.
  split; [|split; [|split]].
  - unfold StepInstanceController.startStep. intros ->. reflexivity.
  - intros step other Hs Ha Hne. unfold StepInstanceController.startStep.
    rewrite Hs. unfold StepInstanceController.assignedToOther. rewrite Ha.
    destruct (String.eqb_spec other actor) as [E|_]; [now elim Hne|reflexivity].
  - intros step Hs Ha Hst. unfold StepInstanceController.startStep.
    rewrite Hs, (StepControllerFacts.assignedToOther_false _ _ Ha).
    destruct (StepInstance.status step); try reflexivity. now elim Hst.
  - intros step Hs Ha Hst step'.
    eexists. split; [exact (StepControllerFacts.startStep_run now id actor w step Hs Ha Hst)|].
    split; [|repeat split].
    + apply (StepControllerFacts.findStep_replaced id w step step' Hs). reflexivity.
    + unfold step', StepInstanceController.markInProgress. cbn.
      now destruct Ha as [->| ->].
Qed.

Lemma startStep_effect_witness :
  StepInstanceController.startStep 1500 9%nat "u1" Scenario.started
  = (Throw (AppError "Step instance not found" 404), Scenario.started)
  /\ StepInstanceController.startStep 1500 0%nat "u2" Scenario.started
     = (Throw (AppError "You are not assigned to this step" 403), Scenario.started)
  /\ StepInstanceController.startStep 1500 0%nat "u1" Scenario.inProgress
     = (Throw (AppError "Only pending steps can be started" 400), Scenario.inProgress)
  /\ exists w',
      StepInstanceController.startStep 1500 0%nat "u1" Scenario.started = (Ok tt, w')
      /\ map StepInstance.status (steps w') = [S_in_progress].
Proof.
  split; [|split; [|split]].
  - apply (proj1 (startStep_effect 1500 9%nat "u1" Scenario.started)). reflexivity.
  - eapply (proj1 (proj2 (startStep_effect 1500 0%nat "u2" Scenario.started)));
      [reflexivity|reflexivity|discriminate].
  - eapply (proj1 (proj2 (proj2 (startStep_effect 1500 0%nat "u1" Scenario.inProgress))));
      [reflexivity|right; reflexivity|discriminate].
  - edestruct (proj2 (proj2 (proj2 (startStep_effect 1500 0%nat "u1" Scenario.started))))
      as (w' & E & _ & _ & _ & _ & S & _);
      [reflexivity|right; reflexivity|reflexivity|].
    exists w'. split; [exact E|]. rewrite S. reflexivity.
Defined.





(** X10.  [assignStep]: only a pending step can be assigned, and a user
    named in the request must be stored and active; a refused request leaves
    the store as it was.  An accepted request replaces all three assignment
    fields by the request's (an absent or empty one clears the field),
    replaces the due date only when one is given, and appends one
    step_assigned history row; a named user is then sent the task_assigned
    notice, and a rejected write of that notice is thrown to the caller
    after the assignment has been committed. *)
Theorem assignStep_effect (id : StepInstanceId) (assignedTo : option UserId)
    (assignedRole assignedDepartment : option string) (dueDate : option Date)
    (actor : UserId) (w : World) (step : StepInstance.t) :
  Db.findStep id w = Some step ->
  let r := StepInstanceController.assignStep id assignedTo assignedRole assignedDepartment
             dueDate actor w in
  (StepInstance.status step <> S_pending ->
   r = (Throw (AppError "Only pending steps can be assigned" 400), w))
  /\ (forall a,
         StepInstance.status step = S_pending ->
         StepInstanceController.orNull assignedTo = Some a ->
         (forall u, Db.findUser a w = Some u -> User.isActive u = false) ->
         r = (Throw (AppError "Invalid or inactive user" 400), w))
  /\ (StepInstance.status step = S_pending ->
      match StepInstanceController.orNull assignedTo with
      | Some a => exists u, Db.findUser a w = Some u /\ User.isActive u = true
      | None => True
      end ->
      let step' :=
        StepInstanceController.markAssigned assignedTo assignedRole assignedDepartment
          dueDate step in
      Db.findStep id (snd r) = Some step'
      /\ StepInstance.status step' = S_pending
      /\ StepInstance.assignedTo step' = StepInstanceController.orNull assignedTo
      /\ StepInstance.assignedRole step' = StepInstanceController.orNull assignedRole
      /\ StepInstance.assignedDepartment step'
         = StepInstanceController.orNull assignedDepartment
      /\ StepInstance.dueDate step'
         = match dueDate with
           | Some d => Some d
           | None => StepInstance.dueDate step
           end
      /\ history (snd r)
         = history w
             ++ [ProcessHistory.mk (StepInstance.processInstanceId step) (Some id)
                   step_assigned actor None None]
      /\ match StepInstanceController.orNull assignedTo with
         | Some a =>
             let notice := WorkflowEngine.taskAssignedNotice step' a in
             if notificationFails w notice
             then fst r = Throw WriteError /\ notifications (snd r) = notifications w
             else fst r = Ok tt /\ notifications (snd r) = notifications w ++ [notice]
         | None => fst r = Ok tt /\ notifications (snd r) = notifications w
         end).
Proof.
  intros Hs r.
  pose proof (LifecycleFacts.findStep_id _ _ _ Hs) as Hid.
  split; [|split].
  - intros Hst. subst r. unfold StepInstanceController.assignStep. rewrite Hs.
    destruct (StepInstance.status step); try reflexivity. now elim Hst.
  - intros a Hst Ha Hbad. subst r. unfold StepInstanceController.assignStep.
    rewrite Hs, Hst, Ha. cbn [StepStatus_eqb negb].
    unfold StepInstanceController.invalidUser.
    destruct (Db.findUser a w) as [u|]; [|reflexivity].
    now rewrite (Hbad u eq_refl).
  - intros Hst Hok step'. subst r. unfold StepInstanceController.assignStep.
    rewrite Hs, Hst. cbn [StepStatus_eqb negb].
    assert (Hvalid : match StepInstanceController.orNull assignedTo with
                     | Some a => StepInstanceController.invalidUser a w
                     | None => false
                     end = false).
    { destruct (StepInstanceController.orNull assignedTo) as [a|]; [|reflexivity].
      destruct Hok as (u & Hu & Hact). unfold StepInstanceController.invalidUser.
      now rewrite Hu, Hact. }
    rewrite Hvalid. fold step'.
    unfold bind, Db.saveStep, Db.createHistory.
    change (StepInstance._id step') with (StepInstance._id step).
    change (StepInstance.processInstanceId step') with (StepInstance.processInstanceId step).
    rewrite Hid.
    assert (Hfound : Db.findStep id (with_steps (map (Db.replaceStep step')) w) = Some step')
      by (apply (StepControllerFacts.findStep_replaced id w step step' Hs); reflexivity).
    assert (Hstatus : StepInstance.status step' = S_pending) by exact Hst.
    assert (Hto : StepInstance.assignedTo step' = StepInstanceController.orNull assignedTo)
      by reflexivity.
    assert (Hrole : StepInstance.assignedRole step'
                    = StepInstanceController.orNull assignedRole) by reflexivity.
    assert (Hdept : StepInstance.assignedDepartment step'
                    = StepInstanceController.orNull assignedDepartment) by reflexivity.
    assert (Hdue : StepInstance.dueDate step'
                   = match dueDate with
                     | Some d => Some d
                     | None => StepInstance.dueDate step
                     end) by reflexivity.
    clearbody step'.
    destruct (StepInstanceController.orNull assignedTo) as [a|].
    + cbv zeta. rewrite ScanFacts.createNotification_run.
      change (notificationFails (with_history ?f (with_steps ?g w)))
        with (notificationFails w).
      destruct (notificationFails w (WorkflowEngine.taskAssignedNotice step' a));
        cbn [fst snd]; repeat split; auto.
    + cbn [fst snd ret]. repeat split; auto.
Qed.

Lemma assignStep_effect_witness :
  let r := StepInstanceController.assignStep 0%nat None (Some "manager") None (Some 5000)
             "m1" Scenario.started in
  fst r = Ok tt
  /\ map StepInstance.assignedTo (steps (snd r)) = [None]
  /\ map StepInstance.assignedRole (steps (snd r)) = [Some "manager"]
  /\ map StepInstance.dueDate (steps (snd r)) = [Some 5000]
  /\ StepInstanceController.assignStep 0%nat (Some "nobody") None None None "m1"
       Scenario.started
     = (Throw (AppError "Invalid or inactive user" 400), Scenario.started).
Proof.
  cbv zeta.
  edestruct (assignStep_effect 0%nat None (Some "manager") None (Some 5000) "m1"
               Scenario.started) as (_ & _ & H); [reflexivity|].
  destruct H as (Hf & _ & _ & _ & _ & _ & _ & Hr & _); [reflexivity|exact I|].
  split; [exact Hr|].
  split; [reflexivity|]. split; [reflexivity|]. split; [reflexivity|].
  edestruct (assignStep_effect 0%nat (Some "nobody") None None None "m1"
               Scenario.started) as (_ & H & _); [reflexivity|].
  apply (H "nobody"); [reflexivity|reflexivity|]. intros u Hu. discriminate Hu.
Defined.



(** X12.  A closed step is final.  Once a step is completed, skipped,
    failed or cancelled, [startStep], [skipStep], [assignStep],
    [reassignStep] and the manual [escalateStep] all refuse it, and so does
    the engine's [completeStep]; each of them throws and leaves the store
    exactly as it was. *)
Theorem closed_step_is_final (w : World) (id : StepInstanceId) (step : StepInstance.t) :
  Db.findStep id w = Some step ->
  WorkflowEngine.isOpen step = false ->
  (forall now actor, exists e,
      StepInstanceController.startStep now id actor w = (Throw e, w))
  /\ (forall now actor,
         StepInstanceController.skipStep now id actor w
         = (Throw (AppError "Only pending or in-progress steps can be skipped" 400), w))
  /\ (forall assignedTo assignedRole assignedDepartment dueDate actor,
         StepInstanceController.assignStep id assignedTo assignedRole assignedDepartment
           dueDate actor w
         = (Throw (AppError "Only pending steps can be assigned" 400), w))
  /\ (forall assignedTo reason actor,
         StepInstanceController.reassignStep id assignedTo reason actor w
         = (Throw (AppError "Only pending or in-progress steps can be reassigned" 400), w))
  /\ (forall now escalateTo reason actor,
         StepInstanceController.escalateStep now id escalateTo reason actor w
         = (Throw (AppError "Only pending or in-progress steps can be escalated" 400), w))
  /\ (forall now actor formData decision, exists e,
         WorkflowEngine.completeStep now id actor formData decision w = (Throw e, w)).
Proof.
  intros Hs Hopen.
  pose proof (StepControllerFacts.not_open_not_pending _ Hopen) as Hp.
  pose proof (StepControllerFacts.not_open_not_in_progress _ Hopen) as Hi.
  split; [|split; [|split; [|split; [|split]]]].
  - intros now actor. unfold StepInstanceController.startStep. rewrite Hs, Hp.
    destruct (StepInstanceController.assignedToOther step actor); now eexists.
  - intros now actor. unfold StepInstanceController.skipStep. now rewrite Hs, Hopen.
  - intros. unfold StepInstanceController.assignStep. now rewrite Hs, Hp.
  - intros. unfold StepInstanceController.reassignStep. now rewrite Hs, Hopen.
  - intros. unfold StepInstanceController.escalateStep. now rewrite Hs, Hopen.
  - intros now actor formData decision. unfold WorkflowEngine.completeStep. rewrite Hs.
    destruct (Db.findProcess _ w) as [p|]; [|now eexists].
    destruct (Db.findTemplate _ w) as [t|]; [|now eexists].
    unfold WorkflowEngine.canComplete. rewrite Hi. now eexists.
Qed.

Lemma closed_step_is_final_witness :
  let w := snd (WorkflowEngine.completeStep 2000 0%nat "u1" ∅ None Scenario.inProgress) in
  StepInstanceController.skipStep 3000 0%nat "u1" w
  = (Throw (AppError "Only pending or in-progress steps can be skipped" 400), w)
  /\ StepInstanceController.reassignStep 0%nat "m1" "" "m1" w
     = (Throw (AppError "Only pending or in-progress steps can be reassigned" 400), w)
  /\ exists e, StepInstanceController.startStep 3000 0%nat "u1" w = (Throw e, w).
Proof.
  cbv zeta.
  edestruct (closed_step_is_final
               (snd (WorkflowEngine.completeStep 2000 0%nat "u1" ∅ None Scenario.inProgress))
               0%nat) as (H1 & H2 & _ & H4 & _); [reflexivity|reflexivity|].
  split; [apply H2|]. split; [apply H4|apply H1].
Defined.

(** ** Manual escalation *)

Module ManualEscalationFacts.
Import WorkflowEngine StepInstanceController EngineFacts.

(** One call on a stored open step with a stored, active target: the step
    is saved with the level raised by one, and the call ends in the
    ReferenceError with nothing else written. *)
Lemma escalateStep_saved now id escalateTo reason actor w step target :
  Db.findStep id w = Some step -> isOpen step = true ->
  Db.findUser escalateTo w = Some target -> User.isActive target = true ->
  let step' :=
    set_escalation true (StepInstance.escalationLevel step + 1)
      (StepInstance.escalationHistory step
         ++ [EscalationEntry.mk (StepInstance.escalationLevel step + 1) escalateTo now
               (JsString.trim reason)])
      step in
  escalateStep now id escalateTo reason actor w
  = (Throw (ReferenceError "escalatedTo"), with_steps (map (Db.replaceStep step')) w)
  /\ Db.findStep id (with_steps (map (Db.replaceStep step')) w) = Some step'.
Proof.
  intros Hs Hopen Hu Hact step'. unfold escalateStep.
  rewrite Hs, Hopen, Hu, Hact. cbn [negb]. cbv zeta. fold step'.
  split; [reflexivity|].
  apply (StepControllerFacts.findStep_replaced id w step step' Hs); reflexivity.
Qed.

End ManualEscalationFacts.

(** X13.  The manual escalation endpoint has no ceiling, and no accepted
    call of it returns.  On a stored pending or in-progress step, with a
    stored and active target, a call of [escalateStep] saves the step and
    then throws the ReferenceError of the undeclared [escalatedTo]: it
    writes no history row and no notification.  [n] successive calls leave
    the step with its escalation level raised by [n], with [n] more entries
    in its escalation history and flagged as escalated (for [n] above 0),
    and leave the history and the notifications as they were: the level 3
    that bounds the scheduler's cascade does not bound the endpoint. *)
Theorem manual_escalation_is_unbounded
    (now : Date) (id : StepInstanceId) (escalateTo : UserId) (reason : string)
    (actor : UserId) (w : World) (step : StepInstance.t) (target : User.t) :
  Db.findStep id w = Some step ->
  WorkflowEngine.isOpen step = true ->
  Db.findUser escalateTo w = Some target ->
  User.isActive target = true ->
  fst (StepInstanceController.escalateStep now id escalateTo reason actor w)
  = Throw (ReferenceError "escalatedTo")
  /\ forall n,
      let w' := ControllerSpec.escalatedTimes n now id escalateTo reason actor w in
      history w' = history w
      /\ notifications w' = notifications w
      /\ exists step',
          Db.findStep id w' = Some step'
          /\ StepInstance.escalationLevel step' = StepInstance.escalationLevel step + Z.of_nat n
          /\ length (StepInstance.escalationHistory step')
             = (length (StepInstance.escalationHistory step) + n)%nat
          /\ StepInstance.status step' = StepInstance.status step
          /\ ((0 < n)%nat -> StepInstance.escalated step' = true).
Proof.
  intros Hs Hopen Hu Hact. split.
  { destruct (ManualEscalationFacts.escalateStep_saved now id escalateTo reason actor
                w step target Hs Hopen Hu Hact) as [E _].
    now rewrite E. }
  intros n w'. subst w'.
  assert (G : history (ControllerSpec.escalatedTimes n now id escalateTo reason actor w)
              = history w
              /\ notifications (ControllerSpec.escalatedTimes n now id escalateTo reason actor w)
                 = notifications w
              /\ users (ControllerSpec.escalatedTimes n now id escalateTo reason actor w)
                 = users w
              /\ exists step',
                  Db.findStep id
                    (ControllerSpec.escalatedTimes n now id escalateTo reason actor w)
                  = Some step'
                  /\ StepInstance.escalationLevel step'
                     = StepInstance.escalationLevel step + Z.of_nat n
                  /\ length (StepInstance.escalationHistory step')
                     = (length (StepInstance.escalationHistory step) + n)%nat
                  /\ StepInstance.status step' = StepInstance.status step
                  /\ ((0 < n)%nat -> StepInstance.escalated step' = true)).
  { induction n as [|n (Hh & Hn & Husers & s & Hfind & Hl & Hlen & Hst & _)].
    - cbn. do 3 (split; [reflexivity|]). exists step. repeat split; auto; try lia.
    - unfold ControllerSpec.escalatedTimes in *. rewrite !Nat.iter_succ.
      set (v := Nat.iter n _ w) in *.
      assert (Hopen' : WorkflowEngine.isOpen s = true).
      { unfold WorkflowEngine.isOpen in *. now rewrite Hst. }
      assert (Hu' : Db.findUser escalateTo v = Some target).
      { unfold Db.findUser. rewrite Husers. exact Hu. }
      destruct (ManualEscalationFacts.escalateStep_saved now id escalateTo reason actor
                  v s target Hfind Hopen' Hu' Hact) as [E Hf'].
      rewrite E. cbn [snd].
      split; [exact Hh|]. split; [exact Hn|]. split; [exact Husers|].
      eexists. split; [exact Hf'|].
      cbn. rewrite Hl, length_app, Hlen. cbn. repeat split; try lia. exact Hst. }
  destruct G as (Hh & Hn & _ & G). auto.
Qed.

Lemma manual_escalation_is_unbounded_witness :
  let w' := ControllerSpec.escalatedTimes 5 1000 0%nat "m1" "late" "a1"
              EscalationScenario.escalatedOnce in
  fst (StepInstanceController.escalateStep 1000 0%nat "m1" "late" "a1"
         EscalationScenario.escalatedOnce)
  = Throw (ReferenceError "escalatedTo")
  /\ history w' = history EscalationScenario.escalatedOnce
  /\ notifications w' = notifications EscalationScenario.escalatedOnce
  /\ exists step',
      Db.findStep 0%nat w' = Some step'
      /\ StepInstance.escalationLevel step' = 6.
Proof.
  intros w'.
  destruct (manual_escalation_is_unbounded 1000 0%nat "m1" "late" "a1"
              EscalationScenario.escalatedOnce (EscalationScenario.due 0 "a" true 1)
              (User.mk "m1" "manager" true) eq_refl eq_refl eq_refl eq_refl)
    as [E H].
  destruct (H 5%nat) as (Hh & Hn & s & Hs & Hl & _).
  split; [exact E|]. split; [exact Hh|]. split; [exact Hn|].
  exists s. split; [exact Hs|exact Hl].
Defined.

(** ** The process controller *)

Module ProcessControllerFacts.
Import WorkflowEngine ProcessInstanceController EngineFacts.

Lemma NoDup_key_eq {A} (key : A -> nat) (l : list A) a b :
  List.NoDup (map key l) -> In a l -> In b l -> key a = key b -> a = b.
Proof.
  induction l as [|x l IH]; [contradiction|]. cbn.
  intros Hnd [->|Ha] [->|Hb] E; inversion Hnd as [|? ? Hx Hnd']; subst.
  - reflexivity.
  - exfalso. apply Hx. rewrite E. now apply in_map.
  - exfalso. apply Hx. rewrite <- E. now apply in_map.
  - now apply IH.
Qed.




Lemma set_status_same p :
  set_status (ProcessInstance.status p) (ProcessInstance.endDate p) p = p.
Proof. now destruct p. Qed.








End ProcessControllerFacts.







(** X17.  A finished process is final for the lifecycle calls.  Once a
    process is completed or cancelled, [suspendProcess], [resumeProcess],
    [cancelProcess], the controller's [startProcess] and the engine's
    [startProcess] all refuse it; each throws and leaves the store exactly
    as it was. *)
Theorem finished_process_is_final (w : World) (id : ProcessId) (p : ProcessInstance.t) :
  Db.findProcess id w = Some p ->
  ProcessInstanceController.finished p = true ->
  (forall user,
      ProcessInstanceController.suspendProcess id user w
      = (Throw (AppError "Only active processes can be suspended" 400), w))
  /\ (forall user,
         ProcessInstanceController.resumeProcess id user w
         = (Throw (AppError "Only suspended processes can be resumed" 400), w))
  /\ (forall this now reason user, exists e,
         ProcessInstanceController.cancelProcess this now id reason user w = (Throw e, w))
  /\ (forall now user, exists e,
         ProcessInstanceController.startProcess now id user w = (Throw e, w))
  /\ (forall now userId,
         WorkflowEngine.startProcess now id userId w
         = (Throw (AppError "Process can only be started from draft status" 400), w)).
Proof.
  intros Hp Hfin.
  assert (Hst : ProcessInstance.status p = P_completed
                \/ ProcessInstance.status p = P_cancelled).
  { unfold ProcessInstanceController.finished in Hfin.
    destruct (ProcessInstance.status p); try discriminate; auto. }
  split; [|split; [|split; [|split]]].
  - intros user. unfold ProcessInstanceController.suspendProcess. rewrite Hp.
    now destruct Hst as [-> | ->].
  - intros user. unfold ProcessInstanceController.resumeProcess. rewrite Hp.
    now destruct Hst as [-> | ->].
  - intros this now reason user. unfold ProcessInstanceController.cancelProcess.
    rewrite Hp, Hfin.
    destruct (ProcessInstanceController.mayManage user p); now eexists.
  - intros now user. unfold ProcessInstanceController.startProcess. rewrite Hp.
    destruct (ProcessInstanceController.mayManage user p); cbn [negb]; [|now eexists].
    destruct Hst as [-> | ->]; now eexists.
  - intros now userId. unfold WorkflowEngine.startProcess. rewrite Hp.
    now destruct Hst as [-> | ->].
Qed.

Lemma finished_process_is_final_witness :
  ProcessInstanceController.suspendProcess 1%nat ControllerScenario.admin
    ControllerScenario.done
  = (Throw (AppError "Only active processes can be suspended" 400), ControllerScenario.done)
  /\ WorkflowEngine.startProcess 5000 1%nat "u0" ControllerScenario.done
     = (Throw (AppError "Process can only be started from draft status" 400),
        ControllerScenario.done).
Proof.
  edestruct (finished_process_is_final ControllerScenario.done 1%nat)
    as (H1 & _ & _ & _ & H5); [reflexivity|reflexivity|].
  split; [apply H1|apply H5].
Defined.

(** X18.  [deleteProcessInstance] forgets the process.  An admin may delete
    any process that is not active, a manager only a draft, cancelled or
    completed one; everyone else, and a manager on an active or suspended
    process, is refused with 403, and an admin on an active process with
    400, the store left as it was.  After a delete nothing in the store
    refers to the process any more: it is not found, and no step and no
    history row carries its id; the steps and history rows of other
    processes, and all notifications, are left as they were. *)
Theorem deleteProcessInstance_forgets (id : ProcessId) (user : User.t) (w : World)
    (p : ProcessInstance.t) :
  Db.findProcess id w = Some p ->
  let r := ProcessInstanceController.deleteProcessInstance id user w in
  (User.role user <> "admin" ->
   (User.role user <> "manager"
    \/ ProcessInstance.status p = P_active \/ ProcessInstance.status p = P_suspended) ->
   r = (Throw (AppError "Insufficient permissions to delete this process instance" 403), w))
  /\ (User.role user = "admin" -> ProcessInstance.status p = P_active ->
      r = (Throw (AppError "Cannot delete active process instance" 400), w))
  /\ ((User.role user = "admin" /\ ProcessInstance.status p <> P_active)
      \/ (User.role user = "manager"
          /\ (ProcessInstance.status p = P_draft \/ ProcessInstance.status p = P_cancelled
              \/ ProcessInstance.status p = P_completed)) ->
      fst r = Ok tt
      /\ ControllerSpec.forgotten id (snd r)
      /\ (forall s, In s (steps (snd r))
                    <-> In s (steps w) /\ StepInstance.processInstanceId s <> id)
      /\ (forall h, In h (history (snd r))
                    <-> In h (history w) /\ ProcessHistory.processInstanceId h <> id)
      /\ (forall q, In q (processes (snd r))
                    <-> In q (processes w) /\ ProcessInstance._id q <> id)
      /\ notifications (snd r) = notifications w).
Proof.
  intros Hp r. subst r. unfold ProcessInstanceController.deleteProcessInstance.
  rewrite Hp. cbv zeta.
  assert (Hneq : forall a b : nat, negb (a =? b)%nat = true <-> a <> b).
  { intros a b. rewrite negb_true_iff. apply Nat.eqb_neq. }
  split; [|split].
  - intros Hna Hor.
    destruct (String.eqb_spec (User.role user) "admin") as [E|_]; [now elim Hna|].
    cbn [orb].
    destruct (String.eqb_spec (User.role user) "manager") as [E|NE]; cbn [andb negb];
      [|reflexivity].
    destruct Hor as [H|[-> | ->]]; [now elim H|reflexivity|reflexivity].
  - intros -> ->. reflexivity.
  - intros Hor.
    assert (Hgo : negb ((User.role user =? "admin")%string
                        || (User.role user =? "manager")%string
                           && (ProcessStatus_eqb (ProcessInstance.status p) P_draft
                               || ProcessStatus_eqb (ProcessInstance.status p) P_cancelled
                               || ProcessStatus_eqb (ProcessInstance.status p) P_completed))
                  = false
                  /\ ProcessStatus_eqb (ProcessInstance.status p) P_active = false).
    { destruct Hor as [[-> Hst]|[-> Hst]].
      - cbn. split; [reflexivity|]. destruct (ProcessInstance.status p); try reflexivity.
        now elim Hst.
      - cbn. destruct Hst as [-> |[-> | ->]]; split; reflexivity. }
    destruct Hgo as [-> ->]. cbn [fst snd steps history processes notifications].
    split; [reflexivity|]. split; [|split; [|split; [|split]]].
    + split; [|split].
      * unfold Db.findProcess. cbn [processes].
        destruct (List.find _ (List.filter _ _)) as [q|] eqn:F; [|reflexivity].
        apply find_some in F as [Hin Hq]. apply filter_In in Hin as [_ Hin].
        rewrite Hq in Hin. discriminate.
      * intros s Hs. cbn [steps] in Hs. apply filter_In in Hs as [_ Hs].
        now apply Hneq.
      * intros h Hh. cbn [history] in Hh. apply filter_In in Hh as [_ Hh].
        now apply Hneq.
    + intros s. now rewrite filter_In, Hneq.
    + intros h. now rewrite filter_In, Hneq.
    + intros q. now rewrite filter_In, Hneq.
    + reflexivity.
Qed.

Lemma deleteProcessInstance_forgets_witness :
  let r := ProcessInstanceController.deleteProcessInstance 1%nat ControllerScenario.admin
             ControllerScenario.done in
  fst r = Ok tt
  /\ processes (snd r) = [] /\ steps (snd r) = [] /\ history (snd r) = []
  /\ ProcessInstanceController.deleteProcessInstance 1%nat ControllerScenario.admin
       ControllerScenario.running
     = (Throw (AppError "Cannot delete active process instance" 400),
        ControllerScenario.running)
  /\ ProcessInstanceController.deleteProcessInstance 1%nat ControllerScenario.clerk
       ControllerScenario.done
     = (Throw (AppError "Insufficient permissions to delete this process instance" 403),
        ControllerScenario.done).
Proof.
  cbv zeta.
  edestruct (deleteProcessInstance_forgets 1%nat ControllerScenario.admin
               ControllerScenario.done) as (_ & _ & H); [reflexivity|].
  destruct H as (Hr & _); [left; split; [reflexivity|discriminate]|].
  split; [exact Hr|]. split; [reflexivity|]. split; [reflexivity|]. split; [reflexivity|].
  split.
  - edestruct (deleteProcessInstance_forgets 1%nat ControllerScenario.admin
                 ControllerScenario.running) as (_ & H & _); [reflexivity|].
    apply H; reflexivity.
  - edestruct (deleteProcessInstance_forgets 1%nat ControllerScenario.clerk
                 ControllerScenario.done) as (H & _); [reflexivity|].
    apply H; [discriminate|left; discriminate].
Defined.

(** X19.  The controller's [startProcess] adds a permission check to the
    engine's and nothing else.  A caller who is neither admin nor manager
    nor the initiator is refused with 403 and the store is left as it was;
    for every other caller the endpoint fails or succeeds exactly as the
    engine's [startProcess] does, with the same error and the same store. *)
Theorem startProcess_endpoint_refines_engine (now : Date) (id : ProcessId) (user : User.t)
    (w : World) :
  (forall p,
      Db.findProcess id w = Some p ->
      User.role user <> "admin" -> User.role user <> "manager" ->
      ProcessInstance.initiatedBy p <> User._id user ->
      ProcessInstanceController.startProcess now id user w
      = (Throw (AppError "Insufficient permissions to start this process" 403), w))
  /\ ((forall p,
          Db.findProcess id w = Some p ->
          User.role user = "admin" \/ User.role user = "manager"
          \/ ProcessInstance.initiatedBy p = User._id user) ->
      ProcessInstanceController.startProcess now id user w
      = match WorkflowEngine.startProcess now id (User._id user) w with
        | (Ok _, w') => (Ok tt, w')
        | (Throw e, w') => (Throw e, w')
        end).
Proof.
  split.
  - intros p Hp Ha Hm Hi. unfold ProcessInstanceController.startProcess. rewrite Hp.
    unfold ProcessInstanceController.mayManage.
    destruct (String.eqb_spec (User.role user) "admin"); [contradiction|].
    destruct (String.eqb_spec (User.role user) "manager"); [contradiction|].
    destruct (String.eqb_spec (ProcessInstance.initiatedBy p) (User._id user));
      [contradiction|reflexivity].
  - intros Hmay. unfold ProcessInstanceController.startProcess.
    destruct (Db.findProcess id w) as [p|] eqn:Hp.
    + assert (Hm : ProcessInstanceController.mayManage user p = true).
      { unfold ProcessInstanceController.mayManage.
        destruct (Hmay p eq_refl) as [-> |[-> | ->]];
          rewrite ?String.eqb_refl, ?orb_true_r; reflexivity. }
      rewrite Hm. cbn [negb].
      destruct (ProcessStatus_eqb (ProcessInstance.status p) P_draft) eqn:Hst; cbn [negb].
      * unfold bind, ret.
        now destruct (WorkflowEngine.startProcess now id (User._id user) w) as [[q|e] w'].
      * unfold WorkflowEngine.startProcess. now rewrite Hp, Hst.
    + unfold WorkflowEngine.startProcess. now rewrite Hp.
Qed.

Lemma startProcess_endpoint_refines_engine_witness :
  ProcessInstanceController.startProcess 1000 1%nat ControllerScenario.clerk
    (Scenario.world Scenario.twoStep)
  = (Throw (AppError "Insufficient permissions to start this process" 403),
     Scenario.world Scenario.twoStep)
  /\ ProcessInstanceController.startProcess 1000 1%nat ControllerScenario.initiator
       (Scenario.world Scenario.twoStep)
     = (Ok tt, Scenario.started).
Proof.
  split.
  - eapply (proj1 (startProcess_endpoint_refines_engine 1000 1%nat ControllerScenario.clerk
                     (Scenario.world Scenario.twoStep)));
      [reflexivity|discriminate|discriminate|discriminate].
  - rewrite (proj2 (startProcess_endpoint_refines_engine 1000 1%nat
                      ControllerScenario.initiator (Scenario.world Scenario.twoStep))).
    + reflexivity.
    + intros p [= <-]. right. right. reflexivity.
Defined.

(** X20.  [cleanupOldData] leaves orphans.  It always returns; it removes
    exactly the processes that are completed with an end date more than 90
    days before [now], and it removes no step instance and no history row.
    So, for distinct process ids, every step of a removed process stays in
    the store while its process is no longer found. *)
Theorem cleanupOldData_leaves_orphans (now : Date)
    (readBefore : Date -> Notification.t -> bool)
    (createdBefore : Date -> StepInstance.t -> bool) (w : World) :
  let r := SchedulerService.cleanupOldData now readBefore createdBefore w in
  fst r = Ok tt
  /\ steps (snd r) = steps w
  /\ history (snd r) = history w
  /\ (forall p,
         In p (processes (snd r))
         <-> In p (processes w)
             /\ ~ (ProcessInstance.status p = P_completed
                   /\ exists endDate,
                       ProcessInstance.endDate p = Some endDate
                       /\ endDate < now - 7776000000))
  /\ (List.NoDup (map ProcessInstance._id (processes w)) ->
      forall s p endDate,
        In s (steps w) ->
        Db.findProcess (StepInstance.processInstanceId s) w = Some p ->
        ProcessInstance.status p = P_completed ->
        ProcessInstance.endDate p = Some endDate -> endDate < now - 7776000000 ->
        In s (steps (snd r))
        /\ Db.findProcess (StepInstance.processInstanceId s) (snd r) = None).
Proof.
  cbv zeta. unfold SchedulerService.cleanupOldData. cbn [fst snd steps history processes].
  assert (Hold : forall p,
             SchedulerService.oldCompleted (now - 90 * 24 * 60 * 60 * 1000) p = true
             <-> ProcessInstance.status p = P_completed
                 /\ exists endDate,
                     ProcessInstance.endDate p = Some endDate
                     /\ endDate < now - 7776000000).
  { intros p. unfold SchedulerService.oldCompleted. rewrite andb_true_iff.
    replace (now - 90 * 24 * 60 * 60 * 1000) with (now - 7776000000) by lia.
    destruct (ProcessInstance.endDate p) as [e|].
    - rewrite Z.ltb_lt. split.
      + intros [Hs He]. split; [now destruct (ProcessInstance.status p)|]. now exists e.
      + intros [-> (e' & [= <-] & He)]. now split.
    - split; [intros [_ H]; discriminate|intros [_ (e & H & _)]; discriminate]. }
  assert (Hsteps : List.filter
                     (fun s => negb (SchedulerService.orphaned
                                       (createdBefore (now - 90 * 24 * 60 * 60 * 1000)) s))
                     (steps w) = steps w).
  { rewrite <- (filter_ext (fun _ => true)); [|reflexivity].
    induction (steps w) as [|s l IH]; [reflexivity|]. cbn. now rewrite IH. }
  rewrite Hsteps.
  split; [reflexivity|]. split; [reflexivity|]. split; [reflexivity|]. split.
  - intros p. rewrite filter_In, negb_true_iff, <- Hold.
    now destruct (SchedulerService.oldCompleted _ p).
  - intros Hnd s p endDate Hs Hp Hst He Hlt. split; [exact Hs|].
    unfold Db.findProcess. cbn [processes].
    destruct (List.find _ (List.filter _ _)) as [q|] eqn:F; [|reflexivity].
    apply find_some in F as [Hin Hq]. apply filter_In in Hin as [Hin Hkeep].
    apply Nat.eqb_eq in Hq.
    pose proof (LifecycleFacts.findProcess_id _ _ _ Hp) as Hpid.
    apply find_some in Hp as [Hpin _].
    assert (q = p)
      by (apply (ProcessControllerFacts.NoDup_key_eq ProcessInstance._id (processes w));
          auto; congruence).
    subst q. assert (Hp' : SchedulerService.oldCompleted
                             (now - 90 * 24 * 60 * 60 * 1000) p = true).
    { apply Hold. split; [exact Hst|]. now exists endDate. }
    rewrite Hp' in Hkeep. discriminate.
Qed.

Lemma cleanupOldData_leaves_orphans_witness :
  let r := SchedulerService.cleanupOldData 8000000000 (fun _ _ => false) (fun _ _ => true)
             ControllerScenario.done in
  processes (snd r) = []
  /\ length (steps (snd r)) = 2%nat
  /\ Db.findProcess 1%nat (snd r) = None
  /\ map StepInstance.processInstanceId (steps (snd r)) = [1%nat; 1%nat].
Proof.
  cbv zeta.
  destruct (cleanupOldData_leaves_orphans 8000000000 (fun _ _ => false) (fun _ _ => true)
              ControllerScenario.done) as (_ & Hsteps & _ & _ & Horphan).
  split; [reflexivity|]. rewrite Hsteps. split; [reflexivity|]. split; [|reflexivity].
  assert (Hnd : List.NoDup (map ProcessInstance._id (processes ControllerScenario.done))).
  { cbn. apply List.NoDup_cons; [cbn; lia|apply List.NoDup_nil]. }
  refine (proj2 (Horphan Hnd
                   (WorkflowEngine.markCompleted 2000 "u1" ∅ None
                      (Scenario.begin 0%nat
                         (WorkflowEngine.buildStepInstance 1000
                            (WorkflowEngine.markStarted 1000 (Scenario.draft 7%nat))
                            Scenario.sdStart "u0" 0%nat)))
                   (WorkflowEngine.markProcessCompleted 2000
                      (WorkflowEngine.set_currentSteps ["end"]
                         (WorkflowEngine.set_currentSteps []
                            (WorkflowEngine.set_currentSteps ["start"]
                               (WorkflowEngine.markStarted 1000 (Scenario.draft 7%nat))))))
                   2000 _ eq_refl eq_refl eq_refl _)).
  - left. reflexivity.
  - lia.
Defined.

(** ** Validation for publishing *)

Module PublishingFacts.
Import ProcessTemplateController.

Lemma indexOf_range l x : -1 <= indexOf l x < Z.of_nat (length l).
Proof.
  induction l as [|y l IH]; cbn [indexOf length]; [lia|].
  destruct (y =? x)%string; [lia|].
  destruct (Z.ltb_spec (indexOf l x) 0); lia.
Qed.

(** [indexOf] answers the first position holding the value. *)
Lemma indexOf_first l x i :
  nth_error l i = Some x ->
  0 <= indexOf l x <= Z.of_nat i
  /\ nth_error l (Z.to_nat (indexOf l x)) = Some x.
Proof.
  revert i. induction l as [|y l IH]; intros i Hi; [now destruct i|].
  cbn [indexOf]. destruct (String.eqb_spec y x) as [->|Hne].
  - split; [lia|reflexivity].
  - destruct i as [|i]; [cbn in Hi; congruence|]. cbn in Hi.
    destruct (IH i Hi) as [Hr Hn].
    destruct (Z.ltb_spec (indexOf l x) 0) as [Hlt|Hge]; [lia|].
    split; [lia|].
    replace (Z.to_nat (indexOf l x + 1)) with (S (Z.to_nat (indexOf l x))) by lia.
    exact Hn.
Qed.

(** The pairs the filter runs over: each value with its index. *)
Lemma in_indexed {A} (l : list A) : forall k x z,
  In (x, z) (combine l (map Z.of_nat (seq k (length l))))
  <-> exists i, z = Z.of_nat (k + i) /\ nth_error l i = Some x.
Proof.
  induction l as [|y l IH]; intros k x z.
  - cbn. split; [intros []|intros (i & _ & H); now destruct i].
  - cbn [length seq map combine In]. rewrite IH. split.
    + intros [[= <- <-]|(i & -> & Hi)].
      * exists 0%nat. split; [f_equal; lia|reflexivity].
      * exists (S i). split; [f_equal; lia|exact Hi].
    + intros ([|i] & -> & Hi).
      * left. cbn in Hi. injection Hi as <-. f_equal. f_equal. lia.
      * right. exists i. split; [f_equal; lia|exact Hi].
Qed.

(** The duplicate check reports nothing exactly for pairwise distinct ids. *)
Lemma duplicateStepIds_nil_iff l : duplicateStepIds l = [] <-> List.NoDup l.
Proof.
  unfold duplicateStepIds. split.
  - intros H. apply RoutingFacts.map_filter_nil in H.
    apply List.NoDup_nth_error. intros i j Hi Hij.
    apply nth_error_Some in Hi.
    destruct (nth_error l i) as [x|] eqn:Hx; [|congruence]. symmetry in Hij.
    assert (Hat : forall n, nth_error l n = Some x -> indexOf l x = Z.of_nat n).
    { intros n Hn.
      assert (Hin : In (x, Z.of_nat n) (combine l (map Z.of_nat (seq 0 (length l)))))
        by (apply in_indexed; now exists n).
      destruct (negb (indexOf l x =? Z.of_nat n)) eqn:Hneq.
      - assert (Hf : In (x, Z.of_nat n)
                       (List.filter (fun si => negb (indexOf l (fst si) =? snd si))
                                    (combine l (map Z.of_nat (seq 0 (length l))))))
          by (apply filter_In; now split).
        rewrite H in Hf. destruct Hf.
      - apply negb_false_iff in Hneq. now apply Z.eqb_eq in Hneq. }
    pose proof (Hat i Hx) as Ei. pose proof (Hat j Hij) as Ej. lia.
  - intros Hnd.
    assert (Hnil : List.filter (fun si => negb (indexOf l (fst si) =? snd si))
                     (combine l (map Z.of_nat (seq 0 (length l)))) = []).
    { apply OverdueFacts.filter_nil_all. intros [x z] Hin.
      apply in_indexed in Hin as (i & -> & Hi). cbn [fst snd Nat.add].
      destruct (indexOf_first l x i Hi) as [Hr Hn].
      apply negb_false_iff, Z.eqb_eq. f_equal.
      assert (Z.to_nat (indexOf l x) = i); [|lia].
      apply (proj1 (List.NoDup_nth_error l) Hnd).
      - apply nth_error_Some. congruence.
      - congruence. }
    now rewrite Hnil.
Qed.

(** [find] answers the first element that passes. *)
Lemma find_first {A} (f : A -> bool) (l : list A) i a :
  nth_error l i = Some a -> f a = true ->
  exists k c, (k <= i)%nat /\ nth_error l k = Some c /\ List.find f l = Some c.
Proof.
  revert i. induction l as [|x l IH]; intros i Hi Ha; [now destruct i|].
  cbn [find]. destruct (f x) eqn:Hx.
  - exists 0%nat, x. split; [lia|]. split; reflexivity.
  - destruct i as [|i]; [cbn in Hi; congruence|]. cbn in Hi.
    destruct (IH i Hi Ha) as (k & c & Hk & Hc & Hf).
    exists (S k), c. split; [lia|]. split; assumption.
Qed.

(** With distinct ids the engine's lookup by id finds each step itself. *)
Lemma findTemplateStep_self t sd :
  List.NoDup (map StepDef.stepId (ProcessTemplate.steps t)) ->
  In sd (ProcessTemplate.steps t) ->
  WorkflowEngine.findTemplateStep t (StepDef.stepId sd) = Some sd.
Proof.
  unfold WorkflowEngine.findTemplateStep.
  induction (ProcessTemplate.steps t) as [|x l IH]; [intros _ []|].
  cbn [map find]. intros Hnd [->|Hin]; [now rewrite String.eqb_refl|].
  inversion Hnd as [|? ? Hx Hnd']; subst.
  destruct (String.eqb_spec (StepDef.stepId x) (StepDef.stepId sd)) as [E|_].
  - exfalso. apply Hx. rewrite E. now apply in_map.
  - now apply IH.
Qed.

End PublishingFacts.

(** X21.  [validateTemplateForPublishing] and duplicate step ids.  Whatever
    [trim] does, the validation answers valid exactly when the name and the
    category are not blank, there is at least one step and the step ids are
    pairwise distinct; warnings never make it invalid.  For a template whose
    steps pass, the engine's lookup of a step by its id returns that very
    step; when two steps share an id, the lookup of that id returns the
    first of them and never the second. *)
Theorem publishing_validation_and_duplicates (trim : string -> string)
    (name category : option string) (t : ProcessTemplate.t) :
  let v := ProcessTemplateController.validateTemplateForPublishing trim name category
             (ProcessTemplate.steps t) in
  (ProcessTemplateController.isValid v = true
   <-> ProcessTemplateController.blank trim name = false
       /\ ProcessTemplateController.blank trim category = false
       /\ ProcessTemplate.steps t <> []
       /\ List.NoDup (map StepDef.stepId (ProcessTemplate.steps t)))
  /\ (ProcessTemplateController.isValid v = true ->
      forall sd, In sd (ProcessTemplate.steps t) ->
                 WorkflowEngine.findTemplateStep t (StepDef.stepId sd) = Some sd)
  /\ (forall i j a b,
         nth_error (ProcessTemplate.steps t) i = Some a ->
         nth_error (ProcessTemplate.steps t) j = Some b ->
         (i < j)%nat -> StepDef.stepId a = StepDef.stepId b ->
         ProcessTemplateController.isValid v = false
         /\ exists k c,
             (k < j)%nat
             /\ nth_error (ProcessTemplate.steps t) k = Some c
             /\ WorkflowEngine.findTemplateStep t (StepDef.stepId b) = Some c).
Proof.
  intros v.
  assert (Hiff : ProcessTemplateController.isValid v = true
                 <-> ProcessTemplateController.blank trim name = false
                     /\ ProcessTemplateController.blank trim category = false
                     /\ ProcessTemplate.steps t <> []
                     /\ List.NoDup (map StepDef.stepId (ProcessTemplate.steps t))).
  { subst v. unfold ProcessTemplateController.validateTemplateForPublishing.
    cbn [ProcessTemplateController.isValid].
    rewrite <- PublishingFacts.duplicateStepIds_nil_iff.
    set (dups := ProcessTemplateController.duplicateStepIds _).
    assert (H3 : (length (ProcessTemplate.steps t) =? 0)%nat = false
                 <-> ProcessTemplate.steps t <> [])
      by (destruct (ProcessTemplate.steps t); cbn; split; congruence).
    assert (H4 : (0 <? length dups)%nat = false <-> dups = [])
      by (destruct dups; cbn; split; congruence).
    rewrite <- H3, <- H4.
    destruct (ProcessTemplateController.blank trim name),
             (ProcessTemplateController.blank trim category),
             (length (ProcessTemplate.steps t) =? 0)%nat,
             (0 <? length dups)%nat; cbn; intuition congruence. }
  split; [exact Hiff|]. split.
  - intros Hv sd Hin. apply PublishingFacts.findTemplateStep_self; [|exact Hin].
    now apply Hiff in Hv.
  - intros i j a b Ha Hb Hlt Hid.
    assert (Hdup : ~ List.NoDup (map StepDef.stepId (ProcessTemplate.steps t))).
    { intros Hnd.
      assert (i = j); [|lia].
      apply (proj1 (List.NoDup_nth_error _) Hnd).
      - rewrite length_map. apply nth_error_Some. congruence.
      - rewrite !nth_error_map, Ha, Hb. cbn. now rewrite Hid. }
    split.
    + destruct (ProcessTemplateController.isValid v) eqn:Hv; [|reflexivity].
      exfalso. apply Hdup. now apply Hiff.
    + destruct (PublishingFacts.find_first
                  (fun s => (StepDef.stepId s =? StepDef.stepId b)%string)
                  (ProcessTemplate.steps t) i a Ha) as (k & c & Hk & Hc & Hfind).
      * rewrite Hid. apply String.eqb_refl.
      * exists k, c. split; [lia|]. split; [exact Hc|exact Hfind].
Qed.

Lemma publishing_validation_and_duplicates_witness :
  let t := ProcessTemplate.mk 4%nat ControllerScenario.twice "a" ["a"] in
  let v := ProcessTemplateController.validateTemplateForPublishing (fun s => s)
             (Some "Leave request") (Some "HR") ControllerScenario.twice in
  ProcessTemplateController.isValid v = false
  /\ ProcessTemplateController.errors v = ["Duplicate step IDs found: a"]
  /\ ProcessTemplateController.warnings
       v = [("Step " ++ dquote ++ "Second" ++ dquote ++ " has no assignees configured")%string]
  /\ ProcessTemplateController.validateStepReferences ControllerScenario.twice "a" ["a"]
     = Ok tt
  /\ exists k c,
      (k < 2)%nat /\ nth_error ControllerScenario.twice k = Some c
      /\ WorkflowEngine.findTemplateStep t "a" = Some c /\ StepDef.name c = "First".
Proof.
  cbv zeta.
  destruct (publishing_validation_and_duplicates (fun s => s) (Some "Leave request")
              (Some "HR") (ProcessTemplate.mk 4%nat ControllerScenario.twice "a" ["a"]))
    as (_ & _ & H).
  destruct (H 0%nat 2%nat
              (StepDef.mk "a" "First" T_user_task A_user ["u1"] false None [])
              (StepDef.mk "a" "Third" T_end A_auto [] false None [])
              eq_refl eq_refl (le_S 1 1 (le_n 1)) eq_refl)
    as (Hv & k & c & Hk & Hc & Hf).
  split; [exact Hv|]. split; [reflexivity|]. split; [reflexivity|]. split; [reflexivity|].
  exists k, c. split; [exact Hk|]. split; [exact Hc|]. split; [exact Hf|].
  cbn in Hf. now injection Hf as <-.
Defined.

(** ** The successor steps of a completed step *)

Module SuccessorFacts.
Import WorkflowEngine EngineSpec EngineFacts SuccessorSpec.




End SuccessorFacts.


